(** * payment_gateway: subscription engine, webhook reconciliation, usage tracking

    A shallow embedding of the Python package [payment_gateway]
    ([utils/helpers.py], [providers/razorpay_provider.py],
    [providers/paypal_provider.py], [db.py], [service.py],
    [webhooks/razorpay_handler.py], [webhooks/paypal_handler.py],
    [routes.py]) and of [scripts/sync_subscriptions.py], and the properties of
    its specification.

    Conventions of the embedding.
    - A Python value that comes from JSON (webhook payloads, provider responses,
      the [metadata] column) is a [json] term; [dict.get], [in], indexing and
      truthiness are the functions [py_get], [py_contains], [py_index],
      [py_truthy], with the exceptions Python raises on the other types.
    - A [datetime] is an instant counted in microseconds from 1970-01-01, an
      integer between [datetime_min] (year 1) and [datetime_max] (year 9999);
      [timedelta] and the addition of a [timedelta] raise OverflowError where
      Python does.
    - The database is the record [world] of its tables, each a list of rows in
      insertion order.  A SELECT by primary key selects at most one row and is
      a [find].  For the other SELECTs, [fetchone()] is the first selected
      row, and when more rows were selected they stay unread: the next
      statement on the connection raises mysql.connector's InternalError
      ([fetchone], [unread_error]).  Statements of a connection that is dropped
      before its commit are rolled back; what another connection has committed
      meanwhile stays.
    - What depends on how the server is set up is not modelled: a value is
      stored as it is bound, whatever the declared width of its column (the
      server refuses or clips one that does not fit, according to its
      sql_mode); string comparison is exact; foreign keys and locks are left
      out.  The properties that speak of a stored value assume that it fits
      its column ([fits_varchar], [fits_int]).  Columns whose value no
      modelled function reads ([created_at], [updated_at], [invoice_date],
      names, descriptions) are left out.  A parameter bound to a text column is
      a JSON string or null: for any other value the outcome depends on the
      driver and on MySQL's implicit conversions, and the model answers
      [Outside].
    - A function that can raise returns [res] (pure) or [outcome] (with the
      tables as they are at that point). *)

From Stdlib Require Import ZArith List String Bool Lia Arith DecimalString.
Import ListNotations.
Open Scope string_scope.
Open Scope Z_scope.
Set Warnings "-register-all".


(* ================================================================== *)
(** ** Python values and exceptions *)

Inductive json : Type :=
| JNull
| JBool (b : bool)
| JNum (n : Z)
| JStr (s : string)
| JArr (items : list json)
| JObj (members : list (string * json)).

Inductive exn : Type :=
| AttributeError (type_name attr : string)
| TypeError (msg : string)
| KeyError (key : string)
| ValueError (msg : string)
| UnboundLocalError (var : string)
| RuntimeError (msg : string)
| OverflowError (msg : string)
| OSError (msg : string)
| InternalError (msg : string)
| IntegrityError (msg : string).

(** [str(e)].  A [KeyError] carries the repr of its key, which is what [str]
    shows. *)
Definition exn_str (e : exn) : string :=
  match e with
  | AttributeError t a => "'" ++ t ++ "' object has no attribute '" ++ a ++ "'"
  | TypeError m => m
  | KeyError k => k
  | ValueError m => m
  | UnboundLocalError v =>
      "cannot access local variable '" ++ v ++ "' where it is not associated with a value"
  | RuntimeError m => m
  | OverflowError m => m
  | OSError m => m
  | InternalError m => m
  | IntegrityError m => m
  end.

Inductive res (A : Type) : Type :=
| Ok (a : A)
| Raise (e : exn).
Arguments Ok {A} a.
Arguments Raise {A} e.

Definition bind {A B} (m : res A) (k : A -> res B) : res B :=
  match m with
  | Ok a => k a
  | Raise e => Raise e
  end.

Notation "x <- m ;; k" := (bind m (fun x => k))
  (at level 61, m at next level, right associativity).

Definition type_name (j : json) : string :=
  match j with
  | JNull => "NoneType"
  | JBool _ => "bool"
  | JNum _ => "int"
  | JStr _ => "str"
  | JArr _ => "list"
  | JObj _ => "dict"
  end.

(** [bool(j)] *)
Definition py_truthy (j : json) : bool :=
  match j with
  | JNull => false
  | JBool b => b
  | JNum n => negb (n =? 0)
  | JStr s => negb (String.eqb s "")
  | JArr l => match l with [] => false | _ => true end
  | JObj m => match m with [] => false | _ => true end
  end.

Fixpoint lookup {A} (k : string) (m : list (string * A)) : option A :=
  match m with
  | [] => None
  | (k', v) :: rest => if String.eqb k k' then Some v else lookup k rest
  end.

Fixpoint remove_key {A} (k : string) (m : list (string * A)) : list (string * A) :=
  match m with
  | [] => []
  | (k', v) :: rest =>
      if String.eqb k k' then remove_key k rest else (k', v) :: remove_key k rest
  end.

Fixpoint set_key {A} (k : string) (v : A) (m : list (string * A)) : list (string * A) :=
  match m with
  | [] => [(k, v)]
  | (k', v') :: rest =>
      if String.eqb k k' then (k, v) :: rest else (k', v') :: set_key k v rest
  end.

(** [j.get(k, default)] *)
Definition py_get (j : json) (k : string) (default : json) : res json :=
  match j with
  | JObj m => Ok (match lookup k m with Some v => v | None => default end)
  | _ => Raise (AttributeError (type_name j) "get")
  end.

Fixpoint is_substring (needle s : string) : bool :=
  if String.prefix needle s then true
  else match s with
       | EmptyString => false
       | String _ rest => is_substring needle rest
       end.

(** [k in j] for a string [k] *)
Definition py_contains (k : string) (j : json) : res bool :=
  match j with
  | JObj m => Ok (match lookup k m with Some _ => true | None => false end)
  | JStr s => Ok (is_substring k s)
  | JArr l =>
      Ok (existsb (fun x => match x with JStr s => String.eqb s k | _ => false end) l)
  | _ => Raise (TypeError ("argument of type '" ++ type_name j ++ "' is not iterable"))
  end.

(** [j[k]] for a string [k] *)
Definition py_index (j : json) (k : string) : res json :=
  match j with
  | JObj m =>
      match lookup k m with
      | Some v => Ok v
      | None => Raise (KeyError ("'" ++ k ++ "'"))
      end
  | JStr _ => Raise (TypeError "string indices must be integers, not 'str'")
  | JArr _ => Raise (TypeError "list indices must be integers or slices, not str")
  | _ => Raise (TypeError ("'" ++ type_name j ++ "' object is not subscriptable"))
  end.

(** [j == s] for a string [s] *)
Definition py_eq_str (j : json) (s : string) : bool :=
  match j with
  | JStr s' => String.eqb s' s
  | _ => false
  end.

(** MySQL's [JSON_MERGE_PATCH(target, patch)] (RFC 7396): a patch that is not
    an object replaces the target; an object patch is merged member by member
    into the target (taken as the empty object when it is not one), a null
    member removing its key. *)
Fixpoint json_merge_patch (target patch : json) {struct patch} : json :=
  match patch with
  | JObj pm =>
      JObj ((fix members (pm : list (string * json)) (acc : list (string * json))
               {struct pm} : list (string * json) :=
               match pm with
               | [] => acc
               | (k, v) :: rest =>
                   members rest
                     (match v with
                      | JNull => remove_key k acc
                      | _ => set_key k
                               (json_merge_patch
                                  (match lookup k acc with Some t => t | None => JNull end) v)
                               acc
                      end)
               end) pm (match target with JObj tm => tm | _ => [] end))
  | _ => patch
  end.

(** [JSON_MERGE_PATCH(IFNULL(metadata, '{}'), patch)] *)
Definition merge_metadata (metadata : option json) (patch : json) : option json :=
  Some (json_merge_patch (match metadata with Some m => m | None => JObj [] end) patch).

(** A value bound to a nullable text column or compared with one: a JSON string
    or null.  [None] marks a value outside the model. *)
Definition sql_text (j : json) : option (option string) :=
  match j with
  | JStr s => Some (Some s)
  | JNull => Some None
  | _ => None
  end.

(** [column = %s] in a WHERE clause: NULL on either side selects nothing. *)
Definition sql_eq (column param : option string) : bool :=
  match column, param with
  | Some c, Some p => String.eqb c p
  | _, _ => false
  end.

(* ================================================================== *)
(** ** utils/helpers.py *)

Definition datetime := Z.

(** [datetime.min] and [datetime.max]: 0001-01-01 00:00:00 and
    9999-12-31 23:59:59.999999. *)
Definition datetime_min : datetime := -62135596800000000.
Definition datetime_max : datetime := 253402300799999999.

Definition timedelta_days (days : Z) : Z := days * 86400000000.

(** The decimal numeral of an integer, as [str] prints it. *)
Definition decimal (z : Z) : string := NilZero.string_of_int (Z.to_int z).

(** [timedelta(days=n)]: a timedelta holds at most 999999999 days. *)
Definition timedelta (days : Z) : res Z :=
  if Z.abs days <=? 999999999 then Ok (timedelta_days days)
  else Raise (OverflowError ("days=" ++ decimal days
                             ++ "; must have magnitude <= 999999999")).

(** [t + d] for a datetime [t] and a timedelta [d]. *)
Definition datetime_add (t : datetime) (d : Z) : res datetime :=
  if (datetime_min <=? t + d) && (t + d <=? datetime_max) then Ok (t + d)
  else Raise (OverflowError "date value out of range").

(** [n * count] for an [int] column read from the database: [None] is SQL
    NULL, which Python cannot multiply. *)
Definition int_times (n : Z) (count : option Z) : res Z :=
  match count with
  | Some c => Ok (n * c)
  | None => Raise (TypeError "unsupported operand type(s) for *: 'int' and 'NoneType'")
  end.

Module helpers.

Definition calculate_period_end (start_date : datetime) (interval : string)
    (count : option Z) : res datetime :=
  if String.eqb interval "month" then
    days <- int_times 30 count ;;
    d <- timedelta days ;;
    datetime_add start_date d
  else if String.eqb interval "year" then
    days <- int_times 365 count ;;
    d <- timedelta days ;;
    datetime_add start_date d
  else
    d <- timedelta 30 ;;
    datetime_add start_date d.

End helpers.

(** [parse_json_field(data, default)] on a JSON column: [None] is SQL NULL,
    [Some v] the stored document, which [json.loads] gives back as [v]. *)
Definition parse_json_field (data : option json) (default : json) : json :=
  match data with
  | None => if py_truthy default then default else JObj []
  | Some v => v
  end.

(* ================================================================== *)
(** ** db.py: the tables *)

Module Plan.
Record t : Type := mk
  { id : string;
    amount : Z;
    interval : string;
    interval_count : option Z;
    app_id : option string;
    payment_gateways : option json;
    paypal_plan_id : option string;
    razorpay_plan_id : option string }.
End Plan.

Module User.
Record t : Type := mk
  { id : string;
    google_uid : option string;
    email : option string;
    display_name : option string }.
End User.

Module Subscription.
Record t : Type := mk
  { id : string;
    user_id : string;
    plan_id : string;
    razorpay_subscription_id : option string;
    paypal_subscription_id : option string;
    status : string;
    current_period_start : option datetime;
    current_period_end : option datetime;
    app_id : option string;
    metadata : option json }.
End Subscription.

Module Invoice.
Record t : Type := mk
  { id : string;
    subscription_id : string;
    user_id : string;
    razorpay_invoice_id : option string;
    amount : Z;
    currency : option string;
    status : string;
    payment_id : option string;
    app_id : option string }.
End Invoice.

Module Event.
Record t : Type := mk
  { event_type : string;
    razorpay_entity_id : option string;
    paypal_entity_id : option string;
    user_id : option string;
    data : json;
    processed : bool }.
End Event.

Module Usage.
Record t : Type := mk
  { id : nat;
    user_id : string;
    subscription_id : string;
    app_id : string;
    billing_period_start : datetime;
    billing_period_end : datetime;
    document_pages_count : Z;
    perplexity_requests_count : Z }.
End Usage.

Record world : Type := mk_world
  { subscription_plans : list Plan.t;
    users : list User.t;
    user_subscriptions : list Subscription.t;
    subscription_invoices : list Invoice.t;
    subscription_events_log : list Event.t;
    resource_usage : list Usage.t }.

Definition set_subscriptions (w : world) (l : list Subscription.t) : world :=
  mk_world (subscription_plans w) (users w) l (subscription_invoices w)
           (subscription_events_log w) (resource_usage w).

Definition set_invoices (w : world) (l : list Invoice.t) : world :=
  mk_world (subscription_plans w) (users w) (user_subscriptions w) l
           (subscription_events_log w) (resource_usage w).

Definition set_events (w : world) (l : list Event.t) : world :=
  mk_world (subscription_plans w) (users w) (user_subscriptions w)
           (subscription_invoices w) l (resource_usage w).

Definition set_usage (w : world) (l : list Usage.t) : world :=
  mk_world (subscription_plans w) (users w) (user_subscriptions w)
           (subscription_invoices w) (subscription_events_log w) l.

(** [cursor.fetchone()] after a SELECT that is not by primary key: the first of
    the selected rows, and whether rows are left unread. *)
Definition fetchone {A} (rows : list A) : option A * bool :=
  (hd_error rows, match rows with _ :: _ :: _ => true | _ => false end).

(** What the connection raises at its next statement ([execute], [commit])
    while rows are left unread. *)
Definition unread_error : exn := InternalError "Unread result found".

(** The declared widths: a string fits a [VARCHAR(n)] column, an integer an
    [INT] column. *)
Definition fits_varchar (n : nat) (s : string) : bool := Nat.leb (String.length s) n.


Definition fits_int (z : Z) : bool := (-2147483648 <=? z) && (z <=? 2147483647).

(** What a call leaves behind: the value returned, or the exception that
    escapes, each with the tables at that point; [Outside] when a value bound
    to a column is outside the model. *)
Inductive outcome (A : Type) : Type :=
| Returns (w : world) (a : A)
| Raises (w : world) (e : exn)
| Outside.
Arguments Returns {A} w a.
Arguments Raises {A} w e.
Arguments Outside {A}.

Definition opt_json (o : option string) : json :=
  match o with
  | Some s => JStr s
  | None => JNull
  end.

(** Truthiness of a text column read into Python: NULL and [''] are falsy. *)
Definition text_truthy (o : option string) : bool :=
  match o with
  | Some s => negb (String.eqb s "")
  | None => false
  end.

Module DatabaseManager.

(** [log_event]: one row appended to the event log.  The function swallows its
    own exceptions and returns [False], so it never raises.  The row is stored
    as it is bound: a type over the 100 characters of [event_type], or an id
    over the 255 of its column, which the server refuses or clips, is left to
    the hypotheses of the properties ([fits_varchar]).  [data] is a
    dictionary. *)
Definition log_event (w : world) (event_type : string) (entity_id user_id : json)
    (data : json) (provider : string) (processed : bool) : option world :=
  match sql_text entity_id, sql_text user_id, data with
  | Some eid, Some uid, JObj _ =>
      let razorpay_entity_id := if String.eqb provider "razorpay" then eid else None in
      let paypal_entity_id := if String.eqb provider "razorpay" then None else eid in
      Some (set_events w
              (subscription_events_log w ++
               [Event.mk event_type razorpay_entity_id paypal_entity_id uid data processed]))
  | _, _, _ => None
  end.

(** The rows [init_tables] seeds: the free plan of each application. *)
Definition free_plan_marketfit : Plan.t :=
  Plan.mk "plan_free_marketfit" 0 "month" (Some 1) (Some "marketfit")
    (Some (JArr [JStr "razorpay"])) None None.

Definition free_plan_saleswit : Plan.t :=
  Plan.mk "plan_free_saleswit" 0 "month" (Some 1) (Some "saleswit")
    (Some (JArr [JStr "razorpay"])) None None.

(** [INSERT IGNORE] of one plan: a row whose primary key is taken is skipped. *)
Definition insert_ignore (p : Plan.t) (plans : list Plan.t) : list Plan.t :=
  if existsb (fun q => String.eqb (Plan.id q) (Plan.id p)) plans then plans
  else plans ++ [p].

(** [init_tables]: the tables are created if they do not exist (the schema is
    the record [world]) and the two free plans are inserted, each unless a
    plan with its id is there. *)
Definition init_tables (w : world) : world * bool :=
  (mk_world (insert_ignore free_plan_saleswit
               (insert_ignore free_plan_marketfit (subscription_plans w)))
            (users w) (user_subscriptions w) (subscription_invoices w)
            (subscription_events_log w) (resource_usage w),
   true).

End DatabaseManager.

(* ================================================================== *)
(** ** providers/razorpay_provider.py, providers/paypal_provider.py *)

Definition error_response (message : string) : json :=
  JObj [("error", JBool true); ("message", JStr message)].

Module RazorpayProvider.

(** A request sent to Razorpay through the SDK client. *)
Inductive api_call : Type :=
| SubscriptionCreate (data : json)
| SubscriptionCancel (subscription_id : string) (data : json)
| SubscriptionFetch (subscription_id : string).

(** [razorpay.Client]: every request is answered with a document or raises. *)
Definition client_t : Type := api_call -> res json.

Record t : Type := mk
  { client : option client_t;
    initialized : bool }.

(** [__init__] followed by [init_client], for the credentials of [config.py]
    and the SDK constructor [new_client]. *)
Definition init_client (RAZORPAY_KEY_ID RAZORPAY_KEY_SECRET : string)
    (new_client : string -> string -> res client_t) : t * bool :=
  if orb (String.eqb RAZORPAY_KEY_ID "") (String.eqb RAZORPAY_KEY_SECRET "")
  then (mk None false, false)
  else match new_client RAZORPAY_KEY_ID RAZORPAY_KEY_SECRET with
       | Ok c => (mk (Some c) true, true)
       | Raise _ => (mk None false, false)
       end.

Definition not_initialized : json := error_response "Razorpay client not initialized".

Definition usable (self : t) : option client_t :=
  if initialized self then client self else None.

(** [dict.update] *)
Definition py_update (notes : list (string * json)) (extra : list (string * json))
  : list (string * json) :=
  fold_left (fun acc kv => set_key (fst kv) (snd kv) acc) extra notes.

(** Each operation returns its response and the requests it sent. *)
Definition create_subscription (self : t) (plan_id : string) (customer_info : json)
    (app_id : string) (additional_notes : option json) : json * list api_call :=
  match usable self with
  | None => (not_initialized, [])
  | Some c =>
      match py_get customer_info "user_id" JNull with
      | Raise e => (error_response (exn_str e), [])
      | Ok user_id =>
          let notes := [("user_id", user_id); ("app_id", JStr app_id)] in
          let notes := match additional_notes with
                       | Some (JObj extra) =>
                           match extra with [] => notes | _ => py_update notes extra end
                       | _ => notes
                       end in
          let subscription_data :=
            JObj [("plan_id", JStr plan_id); ("customer_notify", JBool true);
                  ("quantity", JNum 1); ("total_count", JNum 12);
                  ("notes", JObj notes)] in
          let sent := [SubscriptionCreate subscription_data] in
          match (razorpay_subscription <- c (SubscriptionCreate subscription_data) ;;
                 i <- py_get razorpay_subscription "id" JNull ;;
                 s <- py_get razorpay_subscription "status" JNull ;;
                 u <- py_get razorpay_subscription "short_url" JNull ;;
                 Ok (JObj [("id", i); ("status", s); ("short_url", u);
                           ("data", razorpay_subscription)])) with
          | Ok r => (r, sent)
          | Raise e => (error_response (exn_str e), sent)
          end
      end
  end.

Definition cancel_subscription (self : t) (subscription_id : string)
    (cancel_at_cycle_end : bool) : json * list api_call :=
  match usable self with
  | None => (not_initialized, [])
  | Some c =>
      let call := SubscriptionCancel subscription_id
                    (JObj [("cancel_at_cycle_end", JNum (if cancel_at_cycle_end then 1 else 0))]) in
      match (result <- c call ;;
             s <- py_get result "status" JNull ;;
             Ok (JObj [("success", JBool true); ("status", s); ("data", result)])) with
      | Ok r => (r, [call])
      | Raise e => (error_response (exn_str e), [call])
      end
  end.

Definition fetch_subscription (self : t) (subscription_id : string)
  : json * list api_call :=
  match usable self with
  | None => (not_initialized, [])
  | Some c =>
      let call := SubscriptionFetch subscription_id in
      match (subscription <- c call ;;
             s <- py_get subscription "status" JNull ;;
             Ok (JObj [("success", JBool true); ("status", s); ("data", subscription)])) with
      | Ok r => (r, [call])
      | Raise e => (error_response (exn_str e), [call])
      end
  end.

End RazorpayProvider.

Module PayPalProvider.

Record t : Type := mk { initialized : bool }.

Definition create_subscription (self : t) (plan_id : string) (customer_info : json)
    (app_id : string) : json :=
  if negb (initialized self) then error_response "PayPal client not initialized"
  else error_response "PayPal integration not fully implemented".

End PayPalProvider.

(* ================================================================== *)
(** ** service.py *)

Module PaymentService.

(** The provider objects held by the service ([self.razorpay], [self.paypal]),
    seen through the methods the service calls on them.  A method returns a
    document or raises. *)
Record t : Type := mk
  { razorpay_create_subscription : string -> json -> string -> res json;
    razorpay_cancel_subscription : string -> bool -> res json;
    paypal_create_subscription : string -> json -> string -> res json }.

(** [__init__]: the service built on the two providers of the package. *)
Definition new (razorpay : RazorpayProvider.t) (paypal : PayPalProvider.t) : t :=
  mk (fun plan_id customer_info app_id =>
        Ok (fst (RazorpayProvider.create_subscription razorpay plan_id customer_info app_id None)))
     (fun subscription_id cancel_at_cycle_end =>
        Ok (fst (RazorpayProvider.cancel_subscription razorpay subscription_id cancel_at_cycle_end)))
     (fun plan_id customer_info app_id =>
        Ok (PayPalProvider.create_subscription paypal plan_id customer_info app_id)).

Definition status_result (status message : string) : json :=
  JObj [("status", JStr status); ("message", JStr message)].

Definition error_result (message : string) : json := status_result "error" message.

(** A local variable read where no assignment has reached it. *)
Definition local {A} (name : string) (value : option A) : res A :=
  match value with
  | Some v => Ok v
  | None => Raise (UnboundLocalError name)
  end.

Definition find_plan (w : world) (plan_id : string) : option Plan.t :=
  find (fun p => String.eqb (Plan.id p) plan_id) (subscription_plans w).

(** [WHERE user_id = %s AND app_id = %s AND status = 'active'] *)
Definition active_for (user_id app_id : string) (s : Subscription.t) : bool :=
  String.eqb (Subscription.user_id s) user_id
  && sql_eq (Subscription.app_id s) (Some app_id)
  && String.eqb (Subscription.status s) "active".

(** [WHERE razorpay_subscription_id = %s] *)
Definition has_razorpay_id (rid : option string) (s : Subscription.t) : bool :=
  sql_eq (Subscription.razorpay_subscription_id s) rid.

Definition update_where (sel : Subscription.t -> bool)
    (f : Subscription.t -> Subscription.t) (w : world) : world :=
  set_subscriptions w (map (fun s => if sel s then f s else s) (user_subscriptions w)).

(** [_create_resource_usage_record]: a row with both counters at 0, on a
    connection of its own; it returns [False] instead of raising.  [app_id] is
    a NOT NULL column of the table. *)
Definition _create_resource_usage_record (w : world) (user_id subscription_id : string)
    (app_id : option string) (period_start period_end : datetime) : world * bool :=
  match app_id with
  | Some app =>
      (set_usage w
         (resource_usage w ++
          [Usage.mk (S (List.length (resource_usage w))) user_id subscription_id app
                    period_start period_end 0 0]),
       true)
  | None => (w, false)
  end.

(** [payment_gateways[0] if payment_gateways else 'razorpay'] *)
Definition first_gateway (payment_gateways : json) : res json :=
  if negb (py_truthy payment_gateways) then Ok (JStr "razorpay")
  else match payment_gateways with
       | JArr (g :: _) => Ok g
       | JStr (String c _) => Ok (JStr (String c EmptyString))
       | JObj _ => Raise (KeyError "0")
       | _ => Raise (TypeError ("'" ++ type_name payment_gateways ++ "' object is not subscriptable"))
       end.

Section Operations.

(** The library functions the service calls and the model does not unfold:
    [datetime.isoformat]; [datetime.fromtimestamp], which raises ValueError,
    OverflowError or OSError for a timestamp it cannot represent; [int] on a
    string ([None] is its ValueError); and MySQL's
    [DATE_ADD(t, INTERVAL n MONTH)], whose result is NULL ([None]) where the
    server has none. *)
Variable isoformat : datetime -> string.
Variable fromtimestamp : Z -> res datetime.
Variable int_of_str : string -> option Z.
Variable date_add_month : datetime -> Z -> option datetime.

(** [create_subscription] at the instant [now]; [new_id] is the value of
    [generate_id('sub_')]. *)
Definition create_subscription (self : t) (w : world) (user_id plan_id app_id : string)
    (now : datetime) (new_id : string) : outcome json :=
  match find_plan w plan_id with
  | None => Raises w (ValueError ("Plan with ID " ++ plan_id ++ " not found"))
  | Some plan =>
      let '(existing_subscription, unread) :=
        fetchone (filter (active_for user_id app_id) (user_subscriptions w)) in
      if Plan.amount plan =? 0 then
        (* free plan: a database entry only *)
        let written :=
          match existing_subscription with
          | Some existing =>
              (* the next statement is the UPDATE, or else the commit *)
              if unread then Raise unread_error
              else if negb (String.eqb (Subscription.plan_id existing) plan_id) then
                Ok (update_where
                      (fun s => String.eqb (Subscription.id s) (Subscription.id existing))
                      (fun s => Subscription.mk (Subscription.id s) (Subscription.user_id s)
                                  plan_id
                                  (Subscription.razorpay_subscription_id s)
                                  (Subscription.paypal_subscription_id s)
                                  (Subscription.status s)
                                  (Some now)
                                  (match Plan.interval_count plan with
                                   | Some n => date_add_month now n
                                   | None => None
                                   end)
                                  (Subscription.app_id s) (Subscription.metadata s))
                      w,
                    Subscription.id existing, None, None)
              else Ok (w, Subscription.id existing, None, None)
          | None =>
              let current_period_start := now in
              current_period_end <-
                helpers.calculate_period_end current_period_start
                  (Plan.interval plan) (Plan.interval_count plan) ;;
              Ok (set_subscriptions w
                    (user_subscriptions w ++
                     [Subscription.mk new_id user_id plan_id None None "active"
                        (Some current_period_start) (Some current_period_end)
                        (Some app_id) None]),
                  new_id, Some current_period_start, Some current_period_end)
          end in
        match written with
        | Raise e => Raises w e
        | Ok (w1, subscription_id, current_period_start, current_period_end) =>
            (* conn.commit(); then the arguments of the call are evaluated *)
            match (ps <- local "current_period_start" current_period_start ;;
                   pe <- local "current_period_end" current_period_end ;;
                   Ok (ps, pe)) with
            | Raise e => Raises w1 e
            | Ok (ps, pe) =>
                let w2 := fst (_create_resource_usage_record w1 user_id subscription_id
                                 (Some app_id) ps pe) in
                Returns w2
                  (JObj [("id", JStr subscription_id); ("user_id", JStr user_id);
                         ("plan_id", JStr plan_id); ("status", JStr "active");
                         ("app_id", JStr app_id)])
            end
        end
      else
        (* paid plan; the next statement is the SELECT on users *)
        if unread then Raises w unread_error
        else
        let '(user, unread_users) :=
          fetchone (filter (fun u => String.eqb (User.id u) user_id
                                     || sql_eq (User.google_uid u) (Some user_id))
                           (users w)) in
        match user with
        | None => Raises w (ValueError ("User with ID " ++ user_id ++ " not found"))
        | Some user =>
            let payment_gateways :=
              parse_json_field (Plan.payment_gateways plan) (JArr [JStr "razorpay"]) in
            let customer_info :=
              JObj [("user_id", JStr user_id); ("email", opt_json (User.email user));
                    ("name", opt_json (User.display_name user))] in
            match first_gateway payment_gateways with
            | Raise e => Raises w e
            | Ok (JStr gateway) =>
                let provider_call :=
                  if String.eqb gateway "razorpay" then
                    let gateway_plan_id :=
                      if text_truthy (Plan.razorpay_plan_id plan)
                      then match Plan.razorpay_plan_id plan with Some p => p | None => plan_id end
                      else plan_id in
                    Some (razorpay_create_subscription self gateway_plan_id customer_info app_id,
                          "Failed to create Razorpay subscription")
                  else if String.eqb gateway "paypal" then
                    match Plan.paypal_plan_id plan with
                    | Some gateway_plan_id =>
                        if String.eqb gateway_plan_id "" then None
                        else Some (paypal_create_subscription self gateway_plan_id customer_info app_id,
                                   "Failed to create PayPal subscription")
                    | None => None
                    end
                  else None in
                match provider_call with
                | None =>
                    if String.eqb gateway "paypal"
                    then Raises w (ValueError "PayPal plan ID not found for this plan")
                    else Raises w (ValueError ("Unsupported payment gateway: " ++ gateway))
                | Some (Raise e, _) => Raises w e
                | Some (Ok response, failed) =>
                    match (err <- py_get response "error" JNull ;;
                           msg <- py_get response "message" (JStr failed) ;;
                           sub <- py_get response "id" JNull ;;
                           url <- py_get response "short_url" JNull ;;
                           Ok (err, msg, sub, url)) with
                    | Raise e => Raises w e
                    | Ok (err, msg, gateway_sub_id, short_url) =>
                        if py_truthy err then
                          match msg with
                          | JStr m => Raises w (ValueError m)
                          | _ => Outside
                          end
                        else if unread_users then Raises w unread_error
                        else
                          let razorpay_subscription_id :=
                            if String.eqb gateway "razorpay" then gateway_sub_id else JNull in
                          let paypal_subscription_id :=
                            if String.eqb gateway "paypal" then gateway_sub_id else JNull in
                          match sql_text razorpay_subscription_id,
                                sql_text paypal_subscription_id with
                          | Some rid, Some pid =>
                              let w1 :=
                                set_subscriptions w
                                  (user_subscriptions w ++
                                   [Subscription.mk new_id user_id plan_id rid pid "created"
                                      None None (Some app_id) (Some response)]) in
                              match DatabaseManager.log_event w1 "subscription_created"
                                      gateway_sub_id (JStr user_id) response gateway true with
                              | None => Outside
                              | Some w2 =>
                                  Returns w2
                                    (JObj [("id", JStr new_id);
                                           ("razorpay_subscription_id", razorpay_subscription_id);
                                           ("paypal_subscription_id", paypal_subscription_id);
                                           ("status", JStr "created");
                                           ("short_url", short_url);
                                           ("user_id", JStr user_id);
                                           ("plan_id", JStr plan_id);
                                           ("app_id", JStr app_id);
                                           ("gateway", JStr gateway)])
                              end
                          | _, _ => Outside
                          end
                    end
                end
            | Ok _ => Outside
            end
        end
  end.

(** Python-level control flow over [outcome]. *)
Definition try_res {A B} (w : world) (r : res A) (k : A -> outcome B) : outcome B :=
  match r with
  | Ok a => k a
  | Raise e => Raises w e
  end.

(** [except Exception as e: return {'status': 'error', 'message': str(e)}] *)
Definition except_Exception (o : outcome json) : outcome json :=
  match o with
  | Raises w e => Returns w (error_result (exn_str e))
  | _ => o
  end.

Definition set_status (status : string) (s : Subscription.t) : Subscription.t :=
  Subscription.mk (Subscription.id s) (Subscription.user_id s) (Subscription.plan_id s)
    (Subscription.razorpay_subscription_id s) (Subscription.paypal_subscription_id s)
    status (Subscription.current_period_start s) (Subscription.current_period_end s)
    (Subscription.app_id s) (Subscription.metadata s).

Definition set_period (period_start period_end : datetime) (s : Subscription.t)
  : Subscription.t :=
  Subscription.mk (Subscription.id s) (Subscription.user_id s) (Subscription.plan_id s)
    (Subscription.razorpay_subscription_id s) (Subscription.paypal_subscription_id s)
    (Subscription.status s) (Some period_start) (Some period_end)
    (Subscription.app_id s) (Subscription.metadata s).

(** [metadata = JSON_MERGE_PATCH(IFNULL(metadata, '{}'), %s)] *)
Definition patch_metadata (patch : json) (s : Subscription.t) : Subscription.t :=
  Subscription.mk (Subscription.id s) (Subscription.user_id s) (Subscription.plan_id s)
    (Subscription.razorpay_subscription_id s) (Subscription.paypal_subscription_id s)
    (Subscription.status s) (Subscription.current_period_start s)
    (Subscription.current_period_end s) (Subscription.app_id s)
    (merge_metadata (Subscription.metadata s) patch).

(** [payload.get('payload', {}).get('subscription', {}).get('entity', {})] and
    its ['id']. *)
Definition subscription_entity (payload : json) : res (json * json) :=
  p <- py_get payload "payload" (JObj []) ;;
  s <- py_get p "subscription" (JObj []) ;;
  subscription_data <- py_get s "entity" (JObj []) ;;
  razorpay_subscription_id <- py_get subscription_data "id" JNull ;;
  Ok (subscription_data, razorpay_subscription_id).

(** [SELECT ... WHERE razorpay_subscription_id = %s]: the rows selected, and
    the first of them. *)
Definition carrying (w : world) (rid : option string) : list Subscription.t :=
  filter (has_razorpay_id rid) (user_subscriptions w).

Definition find_by_razorpay_id (w : world) (rid : option string) : option Subscription.t :=
  find (has_razorpay_id rid) (user_subscriptions w).

Definition _handle_razorpay_subscription_authenticated (w : world) (payload : json)
  : outcome json :=
  except_Exception
    (try_res w (subscription_entity payload) (fun '(subscription_data, razorpay_subscription_id) =>
     if negb (py_truthy razorpay_subscription_id)
     then Returns w (error_result "Missing subscription ID")
     else
       match sql_text razorpay_subscription_id with
       | None => Outside
       | Some rid =>
           let '(subscription, unread) := fetchone (carrying w rid) in
           match subscription with
           | None => Returns w (error_result "Subscription not found")
           | Some subscription =>
               (* the next statement is the UPDATE *)
               if unread then Raises w unread_error
               else
                 Returns
                   (update_where
                      (fun s => has_razorpay_id rid s
                                && negb (String.eqb (Subscription.status s) "active"))
                      (fun s => patch_metadata subscription_data
                                  (set_status "authenticated" s))
                      w)
                   (status_result "success" "Subscription authenticated")
           end
       end)).

(** [int(x)]: it raises ValueError or TypeError only. *)
Definition py_int (x : json) : res Z :=
  match x with
  | JNum n => Ok n
  | JBool b => Ok (if b then 1 else 0)
  | JStr s =>
      match int_of_str s with
      | Some n => Ok n
      | None => Raise (ValueError ("invalid literal for int() with base 10: '" ++ s ++ "'"))
      end
  | _ => Raise (TypeError ("int() argument must be a string, a bytes-like object or a real number, not '"
                           ++ type_name x ++ "'"))
  end.

(** The plan joined to the subscriptions carrying the provider id (where the
    handler reads it, one row carries the id). *)
Definition plan_details (w : world) (rid : option string) : option Plan.t :=
  hd_error
    (flat_map (fun s => match find_plan w (Subscription.plan_id s) with
                        | Some p => [p]
                        | None => []
                        end)
              (filter (has_razorpay_id rid) (user_subscriptions w))).

(** [start_date]: now, or the [start_at] of the payload where it converts; a
    ValueError or a TypeError of the conversion is caught, any other exception
    is not. *)
Definition start_date_of (start_at : json) (now : datetime) : res datetime :=
  if py_truthy start_at then
    match py_int start_at with
    | Ok start_timestamp =>
        match fromtimestamp start_timestamp with
        | Ok t => Ok t
        | Raise (ValueError _) => Ok now
        | Raise (TypeError _) => Ok now
        | Raise e => Raise e
        end
    | Raise _ => Ok now
    end
  else Ok now.

Definition _handle_razorpay_subscription_activated (w : world) (payload : json)
    (now : datetime) : outcome json :=
  except_Exception
    (try_res w (subscription_entity payload) (fun '(subscription_data, razorpay_subscription_id) =>
     if negb (py_truthy razorpay_subscription_id)
     then Returns w (error_result "Missing subscription ID")
     else
       match sql_text razorpay_subscription_id with
       | None => Outside
       | Some rid =>
           let '(subscription, unread) := fetchone (carrying w rid) in
           match subscription with
           | None => Returns w (error_result "Subscription not found")
           | Some subscription =>
               try_res w (py_get subscription_data "start_at" JNull) (fun start_at =>
               try_res w (start_date_of start_at now) (fun start_date =>
               (* the next statement is the SELECT of the plan *)
               if unread then Raises w unread_error
               else
               try_res w
                 (match plan_details w rid with
                  | Some plan =>
                      helpers.calculate_period_end start_date
                        (Plan.interval plan) (Plan.interval_count plan)
                  | None => d <- timedelta 30 ;; datetime_add start_date d
                  end) (fun period_end =>
               let w1 :=
                 update_where (has_razorpay_id rid)
                   (fun s => patch_metadata subscription_data
                               (set_period start_date period_end (set_status "active" s)))
                   w in
               let w2 :=
                 fst (_create_resource_usage_record w1
                        (Subscription.user_id subscription) (Subscription.id subscription)
                        (Subscription.app_id subscription) start_date period_end) in
               Returns w2
                 (JObj [("status", JStr "success");
                        ("message", JStr "Subscription activated");
                        ("period_start", JStr (isoformat start_date));
                        ("period_end", JStr (isoformat period_end))]))))
           end
       end)).

(** What the charged handler reads from the payload before it opens the
    database: the subscription data, its id, the payment entity, and the
    invoice and payment ids. *)
Definition charged_fields (payload : json) : res (json * json * json * json * json) :=
  p <- py_get payload "payload" (JObj []) ;;
  subscription_data <- py_get p "subscription" (JObj []) ;;
  nested <- py_contains "entity" subscription_data ;;
  subscription_data <- (if nested then py_get subscription_data "entity" (JObj [])
                        else Ok subscription_data) ;;
  invoice_data <- py_get p "invoice" (JObj []) ;;
  payment <- py_get p "payment" (JObj []) ;;
  payment_data <- py_get payment "entity" (JObj []) ;;
  razorpay_subscription_id <- py_get subscription_data "id" JNull ;;
  razorpay_invoice_id <- (if py_truthy payment_data then py_get payment_data "invoice_id" JNull
                          else Ok JNull) ;;
  razorpay_payment_id <- (if py_truthy payment_data then py_get payment_data "id" JNull
                          else Ok JNull) ;;
  Ok (subscription_data, razorpay_subscription_id, payment_data,
      razorpay_invoice_id, razorpay_payment_id).

(** The status written to the invoice: [payment_data.get('status', 'pending')],
    with ['captured'] turned into ['Paid']. *)
Definition invoice_status (payment_data : json) : res json :=
  status <- py_get payment_data "status" (JStr "pending") ;;
  Ok (if py_eq_str status "captured" then JStr "Paid" else status).

(** What the invoice INSERT of the charged handler binds to [amount],
    [currency] and [status]: the values, or the error of the server for a NULL
    in the NOT NULL columns [amount] and [status]; [None] for a value that is
    neither of the column's type nor null. *)
Definition invoice_columns (amount currency status : json)
  : option (res (Z * option string * string)) :=
  match amount, sql_text currency, status with
  | JNum amount, Some currency, JStr status => Some (Ok (amount, currency, status))
  | JNull, Some _, JStr _ | JNull, Some _, JNull =>
      Some (Raise (IntegrityError "1048 (23000): Column 'amount' cannot be null"))
  | JNum _, Some _, JNull =>
      Some (Raise (IntegrityError "1048 (23000): Column 'status' cannot be null"))
  | _, _, _ => None
  end.

(** The charged handler at the instant [now]; [new_invoice_id] is the value of
    [generate_id('inv_')]. *)
Definition _handle_razorpay_subscription_charged (w : world) (payload : json)
    (now : datetime) (new_invoice_id : string) : outcome json :=
  except_Exception
    (try_res w (charged_fields payload)
       (fun '(subscription_data, razorpay_subscription_id, payment_data,
              razorpay_invoice_id, razorpay_payment_id) =>
     (* a missing id is logged and the handler goes on *)
     match sql_text razorpay_subscription_id with
     | None => Outside
     | Some rid =>
         let '(subscription, unread) := fetchone (carrying w rid) in
         match subscription with
         | None => Returns w (error_result "Subscription not found")
         | Some subscription =>
             (* the next statement is the SELECT of the plan *)
             if unread then Raises w unread_error
             else
             let new_start := now in
             let plan := find_plan w (Subscription.plan_id subscription) in
             try_res w
               (helpers.calculate_period_end new_start
                  (match plan with Some p => Plan.interval p | None => "month" end)
                  (match plan with Some p => Plan.interval_count p | None => Some 1 end))
               (fun new_end =>
             (* the UPDATE, pending until the commit *)
             let w1 :=
               update_where (has_razorpay_id rid)
                 (fun s => patch_metadata (JObj [("subscription", subscription_data)])
                             (set_period new_start new_end (set_status "active" s)))
                 w in
             (* the usage record, committed on a connection of its own *)
             let w2 :=
               fst (_create_resource_usage_record w1
                      (Subscription.user_id subscription) (Subscription.id subscription)
                      (Subscription.app_id subscription) new_start new_end) in
             (* what stays when the connection is dropped before the commit *)
             let rolled_back :=
               fst (_create_resource_usage_record w
                      (Subscription.user_id subscription) (Subscription.id subscription)
                      (Subscription.app_id subscription) new_start new_end) in
             let result :=
               JObj [("status", JStr "success");
                     ("message", JStr "Subscription renewed and usage reset");
                     ("new_period_start", JStr (isoformat new_start));
                     ("new_period_end", JStr (isoformat new_end))] in
             if py_truthy razorpay_invoice_id then
               try_res rolled_back
                       (amount <- py_get payment_data "amount" (JNum 0) ;;
                        currency <- py_get payment_data "currency" (JStr "INR") ;;
                        status <- invoice_status payment_data ;;
                        Ok (amount, currency, status))
                 (fun '(amount, currency, status) =>
                  match sql_text razorpay_invoice_id, invoice_columns amount currency status,
                        sql_text razorpay_payment_id with
                  | Some invoice, Some (Ok (amount, currency, status)), Some payment =>
                      Returns
                        (set_invoices w2
                           (subscription_invoices w2 ++
                            [Invoice.mk new_invoice_id (Subscription.id subscription)
                               (Subscription.user_id subscription) invoice amount currency
                               status payment (Subscription.app_id subscription)]))
                        result
                  | Some _, Some (Raise e), Some _ => Raises rolled_back e
                  | _, _, _ => Outside
                  end)
             else Returns w2 result)
         end
     end)).

Definition mark_handler (status message : string) (w : world) (payload : json)
  : outcome json :=
  try_res w (subscription_entity payload) (fun '(subscription_data, razorpay_subscription_id) =>
  if negb (py_truthy razorpay_subscription_id)
  then Returns w (error_result "Missing subscription ID")
  else
    except_Exception
      (match sql_text razorpay_subscription_id with
       | None => Outside
       | Some rid =>
           let '(subscription, unread) := fetchone (carrying w rid) in
           match subscription with
           | None => Returns w (error_result "Subscription not found")
           | Some subscription =>
               (* the next statement is the UPDATE *)
               if unread then Raises w unread_error
               else
                 Returns
                   (update_where (has_razorpay_id rid)
                      (fun s => patch_metadata subscription_data (set_status status s)) w)
                   (status_result "success" message)
           end
       end)).

(** In these two handlers the payload is read before the [try]. *)
Definition _handle_razorpay_subscription_completed (w : world) (payload : json)
  : outcome json :=
  mark_handler "completed" "Subscription marked as completed" w payload.

Definition _handle_razorpay_subscription_cancelled (w : world) (payload : json)
  : outcome json :=
  mark_handler "cancelled" "Subscription marked as cancelled" w payload.

(** The entity id and the user id that [handle_webhook] reads for the event
    log, with the membership tests and subscripts of the source. *)
Definition webhook_ids (provider : string) (payload : json) : res (json * json) :=
  if String.eqb provider "razorpay" then
    has_payload <- py_contains "payload" payload ;;
    if has_payload then
      p <- py_index payload "payload" ;;
      has_payment <- py_contains "payment" p ;;
      if has_payment then
        payment <- py_index p "payment" ;;
        entity_id <- py_get payment "id" JNull ;;
        Ok (entity_id, JNull)
      else
        has_subscription <- py_contains "subscription" p ;;
        if has_subscription then
          subscription <- py_index p "subscription" ;;
          entity_id <- py_get subscription "id" JNull ;;
          has_notes <- py_contains "notes" subscription ;;
          if has_notes then
            notes <- py_index subscription "notes" ;;
            user_id <- py_get notes "user_id" JNull ;;
            Ok (entity_id, user_id)
          else Ok (entity_id, JNull)
        else Ok (JNull, JNull)
    else Ok (JNull, JNull)
  else Ok (JNull, JNull).

(** The handler an event is routed to. *)
Definition route_event (w : world) (provider event_type : string) (payload : json)
    (now : datetime) (new_invoice_id : string) : outcome json :=
  if String.eqb provider "razorpay" then
    if String.eqb event_type "subscription.authenticated" then
      _handle_razorpay_subscription_authenticated w payload
    else if String.eqb event_type "subscription.activated" then
      _handle_razorpay_subscription_activated w payload now
    else if String.eqb event_type "subscription.charged" then
      _handle_razorpay_subscription_charged w payload now new_invoice_id
    else if String.eqb event_type "subscription.completed" then
      _handle_razorpay_subscription_completed w payload
    else if String.eqb event_type "subscription.cancelled" then
      _handle_razorpay_subscription_cancelled w payload
    else Returns w (status_result "ignored" ("Unhandled event type: " ++ event_type))
  else if String.eqb provider "paypal" then
    Returns w (status_result "ignored" "PayPal webhook handling not implemented")
  else Returns w (error_result ("Unknown provider: " ++ provider)).

(** [handle_webhook].  An event type that is not a string is outside the model
    (the source formats it into the second log entry and the message). *)
Definition handle_webhook (w : world) (payload : json) (provider : string)
    (now : datetime) (new_invoice_id : string) : outcome json :=
  except_Exception
    (try_res w (py_get payload "event" JNull) (fun event =>
     if negb (py_truthy event)
     then Returns w (error_result "Invalid webhook payload")
     else
       match event with
       | JStr event_type =>
           try_res w (webhook_ids provider payload) (fun '(entity_id, user_id) =>
           match DatabaseManager.log_event w event_type entity_id user_id payload
                   provider false with
           | None => Outside
           | Some w1 =>
               match route_event w1 provider event_type payload now new_invoice_id with
               | Returns w2 result =>
                   match DatabaseManager.log_event w2 (event_type ++ "_processed")
                           entity_id user_id result provider true with
                   | None => Outside
                   | Some w3 =>
                       Returns w3
                         (JObj [("status", JStr "success");
                                ("message", JStr ("Processed " ++ event_type ++ " event"));
                                ("result", result)])
                   end
               | Raises w2 e => Raises w2 e
               | Outside => Outside
               end
           end)
       | _ => Outside
       end)).

(** [cancel_subscription] at the instant [now]. *)
Definition cancel_subscription (self : t) (w : world) (user_id subscription_id : string)
    (now : datetime) : outcome json :=
  match find (fun s => String.eqb (Subscription.id s) subscription_id
                       && String.eqb (Subscription.user_id s) user_id)
             (user_subscriptions w) with
  | None => Raises w (ValueError "Subscription not found or not owned by user")
  | Some subscription =>
      (* the provider is asked to cancel at the end of the cycle; whatever it
         answers or raises is logged, and the function goes on *)
      let _ :=
        if text_truthy (Subscription.razorpay_subscription_id subscription) then
          match Subscription.razorpay_subscription_id subscription with
          | Some rid =>
              match (result <- razorpay_cancel_subscription self rid true ;;
                     py_get result "error" JNull) with
              | Ok err => py_truthy err
              | Raise _ => true
              end
          | None => false
          end
        else false in
      let current_time_str := isoformat now in
      let w1 :=
        update_where (fun s => String.eqb (Subscription.id s) subscription_id)
          (patch_metadata (JObj [("cancellation_scheduled", JBool true);
                                 ("cancelled_at", JStr current_time_str)]))
          w in
      let end_date_str :=
        match Subscription.current_period_end subscription with
        | Some period_end => JStr (isoformat period_end)
        | None => JNull
        end in
      Returns w1
        (JObj [("id", JStr subscription_id);
               ("status", JStr "active");
               ("cancellation_scheduled", JBool true);
               ("end_date", end_date_str);
               ("message",
                JStr "Subscription will remain active until the end of the current billing period")])
  end.

(** [ORDER BY key DESC LIMIT 1]: the first row, in table order, among those
    with the greatest key; NULL sorts below every value. *)
Definition key_lt (a b : option Z) : bool :=
  match a, b with
  | None, Some _ => true
  | Some x, Some y => x <? y
  | _, None => false
  end.

Fixpoint order_desc_first {A} (key : A -> option Z) (l : list A) : option A :=
  match l with
  | [] => None
  | x :: rest =>
      match order_desc_first key rest with
      | Some y => if key_lt (key x) (key y) then Some y else Some x
      | None => Some x
      end
  end.

(** [WHERE user_id = %s AND subscription_id = %s AND app_id = %s
     AND NOW() BETWEEN billing_period_start AND billing_period_end] *)
Definition current_usage_of (user_id subscription_id app_id : string) (now : datetime)
    (u : Usage.t) : bool :=
  String.eqb (Usage.user_id u) user_id
  && String.eqb (Usage.subscription_id u) subscription_id
  && String.eqb (Usage.app_id u) app_id
  && (Usage.billing_period_start u <=? now)
  && (now <=? Usage.billing_period_end u).

Definition usage_result (document_pages perplexity_requests : Z) : json :=
  JObj [("document_pages", JNum document_pages);
        ("perplexity_requests", JNum perplexity_requests)].

(** [get_resource_usage] at the instant [now]. *)
Definition get_resource_usage (w : world) (user_id app_id : string) (now : datetime)
  : json :=
  match order_desc_first Subscription.current_period_end
          (filter (active_for user_id app_id) (user_subscriptions w)) with
  | Some subscription_result =>
      match order_desc_first (fun u => Some (Usage.billing_period_start u))
              (filter (current_usage_of user_id (Subscription.id subscription_result) app_id now)
                      (resource_usage w)) with
      | Some usage_result_row =>
          usage_result (Usage.document_pages_count usage_result_row)
                       (Usage.perplexity_requests_count usage_result_row)
      | None => usage_result 0 0
      end
  | None => usage_result 0 0
  end.

(** [activate_subscription] at the instant [now]; [subscription_id] is the
    Razorpay id and [new_invoice_id] the value of [generate_id('inv_')]. *)
Definition activate_subscription (w : world) (user_id subscription_id : string)
    (payment_id : option string) (now : datetime) (new_invoice_id : string)
  : outcome json :=
  except_Exception
    (let '(subscription, unread) := fetchone (carrying w (Some subscription_id)) in
     match subscription with
     | None => Returns w (error_result "Subscription not found")
     | Some subscription =>
         (* the next statement is the SELECT of the plan *)
         if unread then Raises w unread_error
         else
         match find_plan w (Subscription.plan_id subscription) with
         | None => Returns w (error_result "Plan not found")
         | Some plan =>
             let start_date := now in
             try_res w
               (helpers.calculate_period_end start_date (Plan.interval plan)
                  (Plan.interval_count plan))
               (fun period_end =>
             let w1 :=
               update_where (has_razorpay_id (Some subscription_id))
                 (fun s => set_period start_date period_end (set_status "active" s)) w in
             let w2 :=
               fst (_create_resource_usage_record w1 user_id (Subscription.id subscription)
                      (Subscription.app_id subscription) start_date period_end) in
             let w3 :=
               if text_truthy payment_id then
                 set_invoices w2
                   (subscription_invoices w2 ++
                    [Invoice.mk new_invoice_id (Subscription.id subscription) user_id
                       (Some "manual_activation") (Plan.amount plan) (Some "INR") "paid"
                       payment_id (Subscription.app_id subscription)])
               else w2 in
             match DatabaseManager.log_event w3 "manual_activation" (JStr subscription_id)
                     (JStr user_id) (JObj [("payment_id", opt_json payment_id)])
                     "razorpay" true with
             | Some w4 => Returns w4 (status_result "success" "Subscription activated")
             | None => Outside
             end)
         end
     end).
(** What the lookups of the service return: a subscription row joined with its
    plan ([SELECT us.*, sp... JOIN]), a dictionary, or [None]. *)
Inductive answer : Type :=
| Row (subscription : Subscription.t) (plan : Plan.t)
| Dict (d : json)
| PyNone.

(** [WHERE us.user_id = %s AND us.app_id = %s AND us.status = 'created'] *)
Definition created_for (user_id app_id : string) (s : Subscription.t) : bool :=
  String.eqb (Subscription.user_id s) user_id
  && sql_eq (Subscription.app_id s) (Some app_id)
  && String.eqb (Subscription.status s) "created".

(** The selected subscriptions joined with their plans, in table order. *)
Definition joined (w : world) (sel : Subscription.t -> bool)
  : list (Subscription.t * Plan.t) :=
  flat_map (fun s => match find_plan w (Subscription.plan_id s) with
                     | Some p => [(s, p)]
                     | None => []
                     end)
           (filter sel (user_subscriptions w)).

(** [ORDER BY us.created_at DESC LIMIT 1].  [created_at] is the instant of the
    insertion, so the rows of the table are in its order; of rows inserted
    within the same second, which MySQL may return in either order, the later
    row of the table is taken. *)
Definition latest_joined (w : world) (sel : Subscription.t -> bool)
  : option (Subscription.t * Plan.t) :=
  hd_error (rev (joined w sel)).

(** [get_user_subscription] at the instant [now]; [new_id] is the value
    [generate_id] would give to the free subscription it provisions. *)
Definition get_user_subscription (self : t) (w : world) (user_id app_id : string)
    (now : datetime) (new_id : string) : outcome answer :=
  match latest_joined w (active_for user_id app_id) with
  | Some (subscription, plan) => Returns w (Row subscription plan)
  | None =>
      (* no active subscription: a pending one *)
      match latest_joined w (created_for user_id app_id) with
      | Some (subscription, plan) => Returns w (Row subscription plan)
      | None =>
          (* no subscription: the free plan is provisioned *)
          let free_plan_id := "plan_free_" ++ app_id in
          match create_subscription self w user_id free_plan_id app_id now new_id with
          | Returns w' d => Returns w' (Dict d)
          | Raises w' e => Raises w' e
          | Outside => Outside
          end
      end
  end.

(** [create_paypal_subscription] at the instant [now]; [new_id] is the value of
    [generate_id('sub_')].  It catches every exception and answers with the
    error, so it always returns. *)
Definition create_paypal_subscription (w : world)
    (user_id plan_id paypal_subscription_id app_id : string)
    (now : datetime) (new_id : string) : world * answer :=
  match find (fun p => String.eqb (Plan.id p) plan_id
                       && sql_eq (Plan.app_id p) (Some app_id))
             (subscription_plans w) with
  | None => (w, Dict (JObj [("error", JStr "Plan not found")]))
  | Some plan =>
      let '(existing_subscription, unread) :=
        fetchone (filter (active_for user_id app_id) (user_subscriptions w)) in
      let start_date := now in
      let written :=
        period_end <- helpers.calculate_period_end start_date (Plan.interval plan)
                        (Plan.interval_count plan) ;;
        match existing_subscription with
        | Some existing =>
            (* the next statement is the UPDATE *)
            if unread then Raise unread_error
            else
              Ok (update_where
                    (fun s => String.eqb (Subscription.id s) (Subscription.id existing))
                    (fun s => Subscription.mk (Subscription.id s) (Subscription.user_id s)
                                plan_id (Subscription.razorpay_subscription_id s)
                                (Some paypal_subscription_id) "active"
                                (Some start_date) (Some period_end)
                                (Subscription.app_id s) (Subscription.metadata s))
                    w,
                  Subscription.id existing)
        | None =>
            let inserted :=
              set_subscriptions w
                (user_subscriptions w ++
                 [Subscription.mk new_id user_id plan_id None (Some paypal_subscription_id)
                    "active" (Some start_date) (Some period_end) (Some app_id) None]) in
            Ok (fst (_create_resource_usage_record inserted user_id new_id (Some app_id)
                       start_date period_end),
                new_id)
        end in
      match written with
      | Raise e => (w, Dict (JObj [("error", JStr (exn_str e))]))
      | Ok (w1, subscription_id) =>
          (w1,
           match hd_error (joined w1 (fun s => String.eqb (Subscription.id s)
                                                          subscription_id)) with
           | Some (subscription, joined_plan) => Row subscription joined_plan
           | None => PyNone
           end)
      end
  end.

(** [SET column = column + %s WHERE id = %s] on the usage table. *)
Definition add_to_usage (usage_id : nat) (document_pages perplexity_requests : Z)
    (w : world) : world :=
  set_usage w
    (map (fun u => if Nat.eqb (Usage.id u) usage_id
                   then Usage.mk (Usage.id u) (Usage.user_id u) (Usage.subscription_id u)
                          (Usage.app_id u) (Usage.billing_period_start u)
                          (Usage.billing_period_end u)
                          (Usage.document_pages_count u + document_pages)
                          (Usage.perplexity_requests_count u + perplexity_requests)
                   else u)
         (resource_usage w)).

(** [increment_resource_usage] at the instant [now].  It returns [False]
    instead of raising.  The usage rows of the period are selected without a
    limit: when several are current, the UPDATE is refused for the unread
    rows, and nothing is added.  The text of the UPDATE is built from
    [resource_type]: for a string other than the two counters what the
    statement does is outside the model ([None]).  Where no usage row is
    current the row inserted takes its period from the subscription, and the
    table refuses a NULL period. *)
Definition increment_resource_usage (w : world) (user_id app_id resource_type : string)
    (count : Z) (now : datetime) : option (world * bool) :=
  match order_desc_first Subscription.current_period_end
          (filter (active_for user_id app_id) (user_subscriptions w)) with
  | None => Some (w, false)
  | Some subscription =>
      let '(usage_record, unread) :=
        fetchone (filter (current_usage_of user_id (Subscription.id subscription)
                            app_id now) (resource_usage w)) in
      match usage_record with
      | Some usage_record =>
          if unread then Some (w, false)
          else if String.eqb resource_type "document_pages"
          then Some (add_to_usage (Usage.id usage_record) count 0 w, true)
          else if String.eqb resource_type "perplexity_requests"
          then Some (add_to_usage (Usage.id usage_record) 0 count w, true)
          else None
      | None =>
          let counts :=
            set_key (resource_type ++ "_count") count
              [("document_pages_count", 0); ("perplexity_requests_count", 0)] in
          match Subscription.current_period_start subscription,
                Subscription.current_period_end subscription,
                lookup "document_pages_count" counts,
                lookup "perplexity_requests_count" counts with
          | Some period_start, Some period_end, Some document_pages, Some perplexity_requests =>
              Some (set_usage w
                      (resource_usage w ++
                       [Usage.mk (S (List.length (resource_usage w))) user_id
                          (Subscription.id subscription) app_id period_start period_end
                          document_pages perplexity_requests]),
                    true)
          | _, _, _, _ => Some (w, false)
          end
      end
  end.

(** [get_billing_history]: the invoices of the user, each joined with the
    subscriptions of the app that have its subscription id (an invoice comes
    once for each), [ORDER BY i.invoice_date DESC].  [invoice_date] is the
    instant of the insertion, so the latest row of the table comes first. *)
Definition get_billing_history (w : world) (user_id app_id : string) : list Invoice.t :=
  rev (flat_map
         (fun i => map (fun _ => i)
                       (filter (fun s => String.eqb (Invoice.subscription_id i)
                                                    (Subscription.id s)
                                         && sql_eq (Subscription.app_id s) (Some app_id))
                               (user_subscriptions w)))
         (filter (fun i => String.eqb (Invoice.user_id i) user_id)
                 (subscription_invoices w))).
End Operations.

End PaymentService.

(* ================================================================== *)
(** ** webhooks/razorpay_handler.py *)

Module razorpay_handler.

(** The parts of the Flask request the handler reads: the
    [X-Razorpay-Signature] header, the raw body, and [request.json] (the parsed
    body, or the exception Flask raises for a body that is not JSON). *)
Record request : Type := mk_request
  { signature_header : option string;
    data : string;
    parsed : res json }.

Definition is_ascii (s : string) : bool :=
  forallb (fun c => Nat.ltb (Ascii.nat_of_ascii c) 128) (list_ascii_of_string s).

(** [hmac.compare_digest] on two [str] *)
Definition compare_digest (a b : string) : res bool :=
  if is_ascii a && is_ascii b then Ok (String.eqb a b)
  else Raise (TypeError "comparing strings with non-ASCII characters is not supported").

(** [str(x)] where the handler formats the event type: a string, or one of the
    falsy values. *)
Definition format_event (event : json) : option string :=
  match event with
  | JStr s => Some s
  | JNull => Some "None"
  | JBool false => Some "False"
  | JNum 0 => Some "0"
  | JArr [] => Some "[]"
  | JObj [] => Some "{}"
  | _ => None
  end.

Section Handler.

(** [hmac.new(key, msg, hashlib.sha256).hexdigest()] and the secret of
    [config.py]. *)
Variable hmac_sha256_hexdigest : string -> string -> string.
Variable RAZORPAY_WEBHOOK_SECRET : string.

Variable isoformat : datetime -> string.
Variable fromtimestamp : Z -> res datetime.
Variable int_of_str : string -> option Z.

Definition verify_razorpay_signature (payload signature : string) : res bool :=
  let webhook_secret := RAZORPAY_WEBHOOK_SECRET in
  if String.eqb webhook_secret "" then Ok false
  else
    let expected_signature := hmac_sha256_hexdigest webhook_secret payload in
    compare_digest expected_signature signature.

(** What the handler does once the signature check is behind it. *)
Definition process_webhook (w : world) (req : request) (now : datetime)
    (new_invoice_id : string) : outcome (json * Z) :=
  let body :=
    webhook_data <- parsed req ;;
    event_type <- py_get webhook_data "event" JNull ;;
    _ <- (if py_truthy event_type then
            match event_type with
            | JStr s =>
                if String.prefix "subscription." s then
                  p <- py_get webhook_data "payload" (JObj []) ;;
                  subscription_data <- py_get p "subscription" (JObj []) ;;
                  subscription_id <- py_get subscription_data "id" JNull ;;
                  Ok tt
                else Ok tt
            | _ => Raise (AttributeError (type_name event_type) "startswith")
            end
          else Ok tt) ;;
    Ok (webhook_data, event_type) in
  match body with
  | Raise e => Returns w (JObj [("error", JStr (exn_str e))], 500)
  | Ok (webhook_data, event_type) =>
      match PaymentService.handle_webhook isoformat fromtimestamp int_of_str
              w webhook_data "razorpay" now new_invoice_id with
      | Returns w1 result =>
          match format_event event_type with
          | Some shown =>
              Returns w1
                (JObj [("status", JStr "success");
                       ("message", JStr ("Processed " ++ shown ++ " event"));
                       ("result", result)], 200)
          | None => Outside
          end
      | Raises w1 e => Returns w1 (JObj [("error", JStr (exn_str e))], 500)
      | Outside => Outside
      end
  end.

Definition handle_razorpay_webhook (w : world) (req : request) (now : datetime)
    (new_invoice_id : string) : outcome (json * Z) :=
  let webhook_signature := signature_header req in
  let payload := data req in
  match webhook_signature with
  | Some signature =>
      if negb (String.eqb signature "") then
        match verify_razorpay_signature payload signature with
        | Raise e => Returns w (JObj [("error", JStr (exn_str e))], 500)
        | Ok false => Returns w (JObj [("error", JStr "Invalid signature")], 400)
        | Ok true => process_webhook w req now new_invoice_id
        end
      else process_webhook w req now new_invoice_id
  | None => process_webhook w req now new_invoice_id
  end.

End Handler.

End razorpay_handler.

(* ================================================================== *)
(** ** webhooks/paypal_handler.py *)

Module paypal_handler.

Section Handler.

Variable isoformat : datetime -> string.
Variable fromtimestamp : Z -> res datetime.
Variable int_of_str : string -> option Z.

(** [verify_paypal_webhook_signature]: a placeholder that accepts everything. *)
Definition verify_paypal_webhook_signature (payload : json) : bool := true.

(** [handle_paypal_webhook] on [request.json] (the parsed body, or the
    exception Flask raises).  An event type that is not a string is outside
    the model (the source formats it into the message). *)
Definition handle_paypal_webhook (w : world) (parsed : res json) (now : datetime)
    (new_invoice_id : string) : outcome (json * Z) :=
  match parsed with
  | Raise e => Returns w (JObj [("error", JStr (exn_str e))], 500)
  | Ok webhook_data =>
      if negb (verify_paypal_webhook_signature webhook_data)
      then Returns w (JObj [("error", JStr "Invalid signature")], 400)
      else
        match py_get webhook_data "event_type" JNull with
        | Raise e => Returns w (JObj [("error", JStr (exn_str e))], 500)
        | Ok event_type =>
            if negb (py_truthy event_type)
            then Returns w (JObj [("error", JStr "Invalid webhook payload")], 400)
            else
              match PaymentService.handle_webhook isoformat fromtimestamp int_of_str
                      w webhook_data "paypal" now new_invoice_id with
              | Returns w1 result =>
                  match event_type with
                  | JStr shown =>
                      Returns w1
                        (JObj [("status", JStr "success");
                               ("message", JStr ("Processed " ++ shown ++ " event"));
                               ("result", result)], 200)
                  | _ => Outside
                  end
              | Raises w1 e => Returns w1 (JObj [("error", JStr (exn_str e))], 500)
              | Outside => Outside
              end
        end
  end.

End Handler.

End paypal_handler.

(* ================================================================== *)
(** ** routes.py *)

Module routes.

(** Each route takes [request.json] (the parsed body, or the exception Flask
    raises) and answers with a body and a status code; it catches every
    exception.  A field the route hands to the service is a string: for a
    truthy value of another type the answer is outside the model. *)
Definition error_body (e : exn) : json := JObj [("error", JStr (exn_str e))].

Section Routes.

Variable hmac_sha256_hexdigest : string -> string -> string.
Variable RAZORPAY_WEBHOOK_SECRET : string.
Variable date_add_month : datetime -> Z -> option datetime.
Variable isoformat : datetime -> string.

(** [POST /create] *)
Definition create_subscription (self : PaymentService.t) (w : world) (body : res json)
    (now : datetime) (new_id : string) : outcome (json * Z) :=
  match (data <- body ;;
         user_id <- py_get data "user_id" JNull ;;
         plan_id <- py_get data "plan_id" JNull ;;
         app_id <- py_get data "app_id" (JStr "marketfit") ;;
         Ok (user_id, plan_id, app_id)) with
  | Raise e => Returns w (error_body e, 500)
  | Ok (user_id, plan_id, app_id) =>
      if negb (py_truthy user_id) || negb (py_truthy plan_id)
      then Returns w (JObj [("error", JStr "User ID and Plan ID are required")], 400)
      else
        match user_id, plan_id, app_id with
        | JStr user_id, JStr plan_id, JStr app_id =>
            match PaymentService.create_subscription date_add_month self w
                    user_id plan_id app_id now new_id with
            | Returns w' subscription =>
                Returns w' (JObj [("subscription", subscription)], 200)
            | Raises w' e => Returns w' (error_body e, 500)
            | Outside => Outside
            end
        | _, _, _ => Outside
        end
  end.

(** [POST /cancel/<subscription_id>] *)
Definition cancel_subscription (self : PaymentService.t) (w : world)
    (subscription_id : string) (body : res json) (now : datetime) : outcome (json * Z) :=
  match (data <- body ;; py_get data "user_id" JNull) with
  | Raise e => Returns w (error_body e, 500)
  | Ok user_id =>
      if negb (py_truthy user_id)
      then Returns w (JObj [("error", JStr "User ID is required")], 400)
      else
        match user_id with
        | JStr user_id =>
            match PaymentService.cancel_subscription isoformat self w
                    user_id subscription_id now with
            | Returns w' result => Returns w' (JObj [("result", result)], 200)
            | Raises w' e => Returns w' (error_body e, 500)
            | Outside => Outside
            end
        | _ => Outside
        end
  end.

(** [POST /verify-payment]: the signature is checked over
    ["{payment_id}|{subscription_id}"], then the subscription is activated. *)
Definition verify_payment (w : world) (body : res json) (now : datetime)
    (new_invoice_id : string) : outcome (json * Z) :=
  match (data <- body ;;
         payment_id <- py_get data "razorpay_payment_id" JNull ;;
         subscription_id <- py_get data "razorpay_subscription_id" JNull ;;
         signature <- py_get data "razorpay_signature" JNull ;;
         user_id <- py_get data "user_id" JNull ;;
         Ok (payment_id, subscription_id, signature, user_id)) with
  | Raise e => Returns w (error_body e, 500)
  | Ok (payment_id, subscription_id, signature, user_id) =>
      if negb (py_truthy payment_id) || negb (py_truthy subscription_id)
         || negb (py_truthy signature) || negb (py_truthy user_id)
      then Returns w (JObj [("error", JStr "Missing required parameters")], 400)
      else
        match payment_id, subscription_id, signature, user_id with
        | JStr payment_id, JStr subscription_id, JStr signature, JStr user_id =>
            let payload := payment_id ++ "|" ++ subscription_id in
            match razorpay_handler.verify_razorpay_signature hmac_sha256_hexdigest
                    RAZORPAY_WEBHOOK_SECRET payload signature with
            | Raise e => Returns w (error_body e, 500)
            | Ok false => Returns w (JObj [("error", JStr "Invalid signature")], 400)
            | Ok true =>
                match PaymentService.activate_subscription w user_id subscription_id
                        (Some payment_id) now new_invoice_id with
                | Returns w' result => Returns w' (JObj [("result", result)], 200)
                | Raises w' e => Returns w' (error_body e, 500)
                | Outside => Outside
                end
            end
        | _, _, _, _ => Outside
        end
  end.

(** [POST /increment-usage] *)
Definition increment_usage (w : world) (body : res json) (now : datetime)
  : outcome (json * Z) :=
  match (data <- body ;;
         user_id <- py_get data "user_id" JNull ;;
         app_id <- py_get data "app_id" (JStr "marketfit") ;;
         resource_type <- py_get data "resource_type" JNull ;;
         count <- py_get data "count" (JNum 1) ;;
         Ok (user_id, app_id, resource_type, count)) with
  | Raise e => Returns w (error_body e, 500)
  | Ok (user_id, app_id, resource_type, count) =>
      if negb (py_truthy user_id && py_truthy resource_type)
      then Returns w (JObj [("error", JStr "User ID and resource type are required")], 400)
      else
        match user_id, app_id, resource_type, count with
        | JStr user_id, JStr app_id, JStr resource_type, JNum count =>
            match PaymentService.increment_resource_usage w user_id app_id
                    resource_type count now with
            | Some (w', result) => Returns w' (JObj [("success", JBool result)], 200)
            | None => Outside
            end
        | _, _, _, _ => Outside
        end
  end.

End Routes.

End routes.


(* ================================================================== *)
(** ** scripts/sync_subscriptions.py *)

Module scripts.

(** [WHERE status IN ('active', 'created', 'authenticated', 'halted')], with
    [AND app_id = %s] when an app id is given. *)
Definition to_sync (app_id : option string) (s : Subscription.t) : bool :=
  existsb (String.eqb (Subscription.status s))
          ["active"; "created"; "authenticated"; "halted"]
  && (if text_truthy app_id then sql_eq (Subscription.app_id s) app_id else true).

(** The two counters of the loop, and the requests sent to Razorpay. *)
Record progress : Type := mk_progress
  { synced_count : nat;
    failed_count : nat;
    requests : list RazorpayProvider.api_call }.

(** One turn of the loop.  A subscription with no provider id is skipped; the
    status fetched from Razorpay is logged, with or without [--dry-run], and
    nothing is written. *)
Definition sync_one (razorpay : RazorpayProvider.t) (dry_run : bool) (p : progress)
    (subscription : Subscription.t) : progress :=
  if text_truthy (Subscription.razorpay_subscription_id subscription) then
    match Subscription.razorpay_subscription_id subscription with
    | Some provider_sub_id =>
        let '(result, sent) := RazorpayProvider.fetch_subscription razorpay provider_sub_id in
        let requests := (requests p ++ sent)%list in
        match py_get result "error" JNull with
        | Raise _ => mk_progress (synced_count p) (S (failed_count p)) requests
        | Ok err =>
            if py_truthy err
            then mk_progress (synced_count p) (S (failed_count p)) requests
            else if negb dry_run
                 then mk_progress (S (synced_count p)) (failed_count p) requests
                 else mk_progress (S (synced_count p)) (failed_count p) requests
        end
    | None => p
    end
  else if text_truthy (Subscription.paypal_subscription_id subscription) then
    mk_progress (S (synced_count p)) (failed_count p) (requests p)
  else p.

(** [sync_subscriptions] with the Razorpay provider of the service it builds:
    the two counters it returns, and the requests it has sent. *)
Definition sync_subscriptions (razorpay : RazorpayProvider.t) (w : world)
    (app_id : option string) (dry_run : bool) : progress :=
  fold_left (sync_one razorpay dry_run)
            (filter (to_sync app_id) (user_subscriptions w))
            (mk_progress 0 0 []).

End scripts.
(* ================================================================== *)
(** ** Notions used by the properties *)

(** The number of rows of a (user, app) pair whose status is ['active']. *)
Definition active_count (w : world) (user_id app_id : string) : nat :=
  List.length (filter (PaymentService.active_for user_id app_id) (user_subscriptions w)).

Definition at_most_one_active (w : world) : Prop :=
  forall user_id app_id : string, (active_count w user_id app_id <= 1)%nat.

(** The active rows of a pair that carry no Razorpay subscription id: the
    rows the free path of [create_subscription] inserts. *)
Definition free_active_for (user_id app_id : string) (s : Subscription.t) : bool :=
  PaymentService.active_for user_id app_id s
  && match Subscription.razorpay_subscription_id s with
     | None => true
     | Some _ => false
     end.

Definition at_most_one_free_active (w : world) : Prop :=
  forall user_id app_id : string,
    (List.length (filter (free_active_for user_id app_id) (user_subscriptions w)) <= 1)%nat.

(** What [create_subscription] writes: an UPDATE that keeps the user, the app,
    the status and the Razorpay id of every row, or an INSERT of a row that is
    not active, or of an active row without Razorpay id for a pair that has no
    active row. *)
Definition creation_write (l l' : list Subscription.t) : Prop :=
  l' = l
  \/ (exists (sel : Subscription.t -> bool) (f : Subscription.t -> Subscription.t),
        l' = map (fun s => if sel s then f s else s) l
        /\ forall s, Subscription.user_id (f s) = Subscription.user_id s
                     /\ Subscription.app_id (f s) = Subscription.app_id s
                     /\ Subscription.status (f s) = Subscription.status s
                     /\ Subscription.razorpay_subscription_id (f s)
                        = Subscription.razorpay_subscription_id s)
  \/ (exists r,
        l' = (l ++ [r])%list
        /\ forall user_id app_id,
             PaymentService.active_for user_id app_id r = true ->
             filter (PaymentService.active_for user_id app_id) l = []).

(** What an activation or a charge writes: an UPDATE of rows that carry a
    Razorpay id, which keeps their user, their app and that id. *)
Definition activation_write (l l' : list Subscription.t) : Prop :=
  l' = l
  \/ (exists (rid : option string) (f : Subscription.t -> Subscription.t),
        l' = map (fun s => if PaymentService.has_razorpay_id rid s then f s else s) l
        /\ forall s, Subscription.user_id (f s) = Subscription.user_id s
                     /\ Subscription.app_id (f s) = Subscription.app_id s
                     /\ Subscription.razorpay_subscription_id (f s)
                        = Subscription.razorpay_subscription_id s).






(** The operations of the at-most-one-active property, with the inputs each
    takes from its environment (the service and its providers, the clock, the
    generated ids). *)
Inductive operation : Type :=
| Create (self : PaymentService.t) (user_id plan_id app_id : string)
         (now : datetime) (new_id : string)
| Activate (user_id subscription_id : string) (payment_id : option string)
           (now : datetime) (new_invoice_id : string)
| Activated (payload : json) (now : datetime)
| Charged (payload : json) (now : datetime) (new_invoice_id : string).

(** The tables an operation leaves, whether it returned or raised. *)
Definition world_after {A} (o : outcome A) : option world :=
  match o with
  | Returns w _ => Some w
  | Raises w _ => Some w
  | Outside => None
  end.

Definition is_creation (op : operation) : bool :=
  match op with
  | Create _ _ _ _ _ _ => true
  | _ => false
  end.

Section Runs.

Variable isoformat : datetime -> string.
Variable fromtimestamp : Z -> res datetime.
Variable int_of_str : string -> option Z.
Variable date_add_month : datetime -> Z -> option datetime.

Definition apply_operation (w : world) (op : operation) : option world :=
  match op with
  | Create self user_id plan_id app_id now new_id =>
      world_after (PaymentService.create_subscription date_add_month self w
                     user_id plan_id app_id now new_id)
  | Activate user_id subscription_id payment_id now new_invoice_id =>
      world_after (PaymentService.activate_subscription w user_id subscription_id
                     payment_id now new_invoice_id)
  | Activated payload now =>
      world_after (PaymentService._handle_razorpay_subscription_activated
                     isoformat fromtimestamp int_of_str w payload now)
  | Charged payload now new_invoice_id =>
      world_after (PaymentService._handle_razorpay_subscription_charged
                     isoformat w payload now new_invoice_id)
  end.

Fixpoint run (w : world) (ops : list operation) : option world :=
  match ops with
  | [] => Some w
  | op :: rest =>
      match apply_operation w op with
      | Some w1 => run w1 rest
      | None => None
      end
  end.

End Runs.

(* ================================================================== *)
(** ** Notions used by the further properties *)

(** One member of a merge patch applied to the members accumulated so far. *)
Definition merge_step (acc : list (string * json)) (member : string * json)
  : list (string * json) :=
  match snd member with
  | JNull => remove_key (fst member) acc
  | v => set_key (fst member)
           (json_merge_patch (match lookup (fst member) acc with
                              | Some t => t
                              | None => JNull
                              end) v)
           acc
  end.

(** The members of a JSON value taken as a merge target: those of an object,
    none for anything else. *)
Definition members_of (j : json) : list (string * json) :=
  match j with
  | JObj m => m
  | _ => []
  end.

Definition is_prefix {A} (a b : list A) : Prop := exists more, b = (a ++ more)%list.

(** The columns of a subscription and of a usage row that identify it: for a
    subscription its id, its user, its app and its Razorpay id (the PayPal id
    is not one of them: [create_paypal_subscription] rewrites it on the row it
    reuses); for a usage row its id, its user, its subscription, its app and
    its billing period. *)
Definition subscription_key (s : Subscription.t)
  : string * string * option string * option string :=
  (Subscription.id s, Subscription.user_id s, Subscription.app_id s,
   Subscription.razorpay_subscription_id s).

Definition usage_key (u : Usage.t) : nat * string * string * string * datetime * datetime :=
  (Usage.id u, Usage.user_id u, Usage.subscription_id u, Usage.app_id u,
   Usage.billing_period_start u, Usage.billing_period_end u).

(** [w'] grows out of [w]: the users are the same; the plans, the invoices and
    the events of [w] are still there, unchanged and in place, possibly
    followed by new ones; so are the subscriptions and the usage rows, as far
    as their identifying columns go. *)
Definition grows (w w' : world) : Prop :=
  users w' = users w
  /\ is_prefix (subscription_plans w) (subscription_plans w')
  /\ is_prefix (subscription_invoices w) (subscription_invoices w')
  /\ is_prefix (subscription_events_log w) (subscription_events_log w')
  /\ is_prefix (map subscription_key (user_subscriptions w))
               (map subscription_key (user_subscriptions w'))
  /\ is_prefix (map usage_key (resource_usage w)) (map usage_key (resource_usage w')).

(** The tables an outcome leaves grow out of [w]. *)
Definition outcome_grows {A} (w : world) (o : outcome A) : Prop :=
  match o with
  | Returns w' _ => grows w w'
  | Raises w' _ => grows w w'
  | Outside => True
  end.

(** The entry points of the service, each with the inputs it takes from its
    environment. *)
Inductive call : Type :=
| InitTables
| CreateSubscription (self : PaymentService.t) (user_id plan_id app_id : string)
                     (now : datetime) (new_id : string)
| CreatePaypalSubscription (user_id plan_id paypal_subscription_id app_id : string)
                           (now : datetime) (new_id : string)
| GetUserSubscription (self : PaymentService.t) (user_id app_id : string)
                      (now : datetime) (new_id : string)
| HandleWebhook (payload : json) (provider : string) (now : datetime)
                (new_invoice_id : string)
| CancelSubscription (self : PaymentService.t) (user_id subscription_id : string)
                     (now : datetime)
| ActivateSubscription (user_id subscription_id : string) (payment_id : option string)
                       (now : datetime) (new_invoice_id : string)
| IncrementResourceUsage (user_id app_id resource_type : string) (count : Z)
                         (now : datetime).

(** [increment_resource_usage] builds the text of its UPDATE from
    [resource_type]; the call names a counter when that string is one of the
    two counters of the usage table. *)
Definition names_counter (c : call) : bool :=
  match c with
  | IncrementResourceUsage _ _ resource_type _ _ =>
      String.eqb resource_type "document_pages"
      || String.eqb resource_type "perplexity_requests"
  | _ => true
  end.

Section Calls.

Variable isoformat : datetime -> string.
Variable fromtimestamp : Z -> res datetime.
Variable int_of_str : string -> option Z.
Variable date_add_month : datetime -> Z -> option datetime.

(** The tables a call leaves, whether it returned or raised; [None] when the
    call is outside the model. *)
Definition perform (w : world) (c : call) : option world :=
  match c with
  | InitTables => Some (fst (DatabaseManager.init_tables w))
  | CreateSubscription self user_id plan_id app_id now new_id =>
      world_after (PaymentService.create_subscription date_add_month self w
                     user_id plan_id app_id now new_id)
  | CreatePaypalSubscription user_id plan_id paypal_subscription_id app_id now new_id =>
      Some (fst (PaymentService.create_paypal_subscription w user_id plan_id
                   paypal_subscription_id app_id now new_id))
  | GetUserSubscription self user_id app_id now new_id =>
      world_after (PaymentService.get_user_subscription date_add_month self w
                     user_id app_id now new_id)
  | HandleWebhook payload provider now new_invoice_id =>
      world_after (PaymentService.handle_webhook isoformat fromtimestamp int_of_str
                     w payload provider now new_invoice_id)
  | CancelSubscription self user_id subscription_id now =>
      world_after (PaymentService.cancel_subscription isoformat self w
                     user_id subscription_id now)
  | ActivateSubscription user_id subscription_id payment_id now new_invoice_id =>
      world_after (PaymentService.activate_subscription w user_id subscription_id
                     payment_id now new_invoice_id)
  | IncrementResourceUsage user_id app_id resource_type count now =>
      option_map fst (PaymentService.increment_resource_usage w user_id app_id
                        resource_type count now)
  end.

Fixpoint perform_all (w : world) (calls : list call) : option world :=
  match calls with
  | [] => Some w
  | c :: rest =>
      match perform w c with
      | Some w1 => perform_all w1 rest
      | None => None
      end
  end.

End Calls.


(** The events [handle_webhook] routes to a handler. *)
Definition handled_events : list string :=
  ["subscription.authenticated"; "subscription.activated"; "subscription.charged";
   "subscription.completed"; "subscription.cancelled"].

(** [w'] differs from [w] in the event log at most. *)
Definition same_rows (w w' : world) : Prop :=
  subscription_plans w' = subscription_plans w
  /\ users w' = users w
  /\ user_subscriptions w' = user_subscriptions w
  /\ subscription_invoices w' = subscription_invoices w
  /\ resource_usage w' = resource_usage w.

(** The subscription carries a provider id, Razorpay's or PayPal's. *)
Definition has_provider_id (s : Subscription.t) : bool :=
  text_truthy (Subscription.razorpay_subscription_id s)
  || text_truthy (Subscription.paypal_subscription_id s).

(** The subscription id the Razorpay endpoint reads for its log, from the
    payload of a [subscription.*] event, can be read. *)
Definition subscription_id_readable (body : json) : Prop :=
  exists p s i,
    py_get body "payload" (JObj []) = Ok p
    /\ py_get p "subscription" (JObj []) = Ok s
    /\ py_get s "id" JNull = Ok i.
(* ================================================================== *)
(** ** Sample data *)

Module Sample.

Definition isoformat (t : datetime) : string := "".
Definition fromtimestamp (seconds : Z) : res datetime := Ok (seconds * 1000000).
Definition int_of_str (s : string) : option Z := None.
Definition date_add_month (t : datetime) (n : Z) : option datetime :=
  Some (t + timedelta_days (31 * n)).
Definition hmac_sha256_hexdigest (key msg : string) : string := "".

(** A provider without credentials. *)
Definition no_credentials : RazorpayProvider.t :=
  fst (RazorpayProvider.init_client "" "" (fun _ _ => Raise (RuntimeError "unreachable"))).

Definition free_plan : Plan.t :=
  Plan.mk "plan_free_marketfit" 0 "month" (Some 1) (Some "marketfit")
    (Some (JArr [JStr "razorpay"])) None None.

Definition pro_plan : Plan.t :=
  Plan.mk "plan_pro" 49900 "month" (Some 1) (Some "marketfit")
    (Some (JArr [JStr "razorpay"])) None (Some "plan_rzp_pro").

Definition yearly_plan : Plan.t :=
  Plan.mk "plan_year" 499000 "year" (Some 1) (Some "marketfit")
    (Some (JArr [JStr "razorpay"])) None (Some "plan_rzp_year").

Definition u1 : User.t := User.mk "u1" None (Some "u1@example.com") (Some "User One").

(** The plans and one user; no subscription yet. *)
Definition fresh_world : world :=
  mk_world [free_plan; pro_plan; yearly_plan] [u1] [] [] [] [].

(** User u1 holds a paid subscription, active, with Razorpay id sub_R1. *)
Definition paid_subscription : Subscription.t :=
  Subscription.mk "sub_1" "u1" "plan_pro" (Some "sub_R1") None "active"
    (Some 0) (Some (timedelta_days 30)) (Some "marketfit") None.

Definition subscribed_world : world :=
  mk_world [free_plan; pro_plan; yearly_plan] [u1] [paid_subscription] [] [] [].

(** An event for the subscription [rid], in Razorpay's layout. *)
Definition subscription_event (event rid : string) : json :=
  JObj [("event", JStr event);
        ("payload",
         JObj [("subscription",
                JObj [("entity", JObj [("id", JStr rid); ("plan_id", JStr "plan_rzp_pro")])])])].

(** A charge of the subscription [rid] with its payment entity. *)
Definition charged_event (rid : string) (payment_entity : json) : json :=
  JObj [("event", JStr "subscription.charged");
        ("payload",
         JObj [("subscription", JObj [("entity", JObj [("id", JStr rid)])]);
               ("payment", JObj [("entity", payment_entity)])])].

Definition captured_payment : json :=
  JObj [("id", JStr "pay_1"); ("invoice_id", JStr "inv_R1"); ("amount", JNum 49900);
        ("currency", JStr "INR"); ("status", JStr "captured")].

(** A service whose Razorpay provider answers every creation with the
    subscription sub_R1. *)
Definition answering_service : PaymentService.t :=
  PaymentService.mk
    (fun _ _ _ => Ok (JObj [("id", JStr "sub_R1"); ("status", JStr "created");
                            ("short_url", JStr "https://rzp.io/i/abc"); ("data", JObj [])]))
    (fun _ _ => Ok (JObj [("success", JBool true)]))
    (fun _ _ _ => Ok (error_response "PayPal integration not fully implemented")).

(** The upgrade of a user from the free plan to a paid one. *)
Definition upgrade : list operation :=
  [Create answering_service "u1" "plan_free_marketfit" "marketfit" 0 "sub_free";
   Create answering_service "u1" "plan_pro" "marketfit" 1000 "sub_paid";
   Activated (subscription_event "subscription.activated" "sub_R1") 2000].



(** User u1 holds a yearly subscription, active, with 7 pages and 3 requests
    used, and a second subscription sub_R2 that was created and not yet paid. *)
Definition yearly_subscription : Subscription.t :=
  Subscription.mk "sub_Y" "u1" "plan_year" (Some "sub_R1") None "active"
    (Some 0) (Some (timedelta_days 365)) (Some "marketfit") None.

Definition pending_subscription : Subscription.t :=
  Subscription.mk "sub_M" "u1" "plan_pro" (Some "sub_R2") None "created"
    None None (Some "marketfit") None.

Definition two_subscriptions_world : world :=
  mk_world [free_plan; pro_plan; yearly_plan] [u1]
    [yearly_subscription; pending_subscription] [] []
    [Usage.mk 1 "u1" "sub_Y" "marketfit" 0 (timedelta_days 365) 7 3].



(** A service whose Razorpay provider raises on every call. *)
Definition failing_service : PaymentService.t :=
  PaymentService.mk (fun _ _ _ => Raise (RuntimeError "connection refused"))
                    (fun _ _ => Raise (RuntimeError "connection refused"))
                    (fun _ _ _ => Raise (RuntimeError "connection refused")).


(** A day of calls: the tables are initialised, a user subscribes to a paid
    plan, pays, uses the service, and schedules a cancellation. *)
Definition busy_day : list call :=
  [InitTables;
   GetUserSubscription answering_service "u1" "marketfit" 0 "sub_free";
   CreateSubscription answering_service "u1" "plan_pro" "marketfit" 1000 "sub_paid";
   HandleWebhook (subscription_event "subscription.activated" "sub_R1") "razorpay"
     2000 "inv_0";
   HandleWebhook (charged_event "sub_R1" captured_payment) "razorpay" 3000 "inv_1";
   IncrementResourceUsage "u1" "marketfit" "document_pages" 5 4000;
   CancelSubscription answering_service "u1" "sub_paid" 5000;
   ActivateSubscription "u1" "sub_R1" (Some "pay_2") 6000 "inv_2";
   CreatePaypalSubscription "u1" "plan_pro" "I-PAYPAL" "marketfit" 7000 "sub_pp"].

(** A Razorpay provider whose client answers every request with the
    subscription sub_R1. *)
Definition live_razorpay : RazorpayProvider.t :=
  RazorpayProvider.mk
    (Some (fun _ => Ok (JObj [("id", JStr "sub_R1"); ("status", JStr "created");
                              ("short_url", JStr "https://rzp.io/i/abc")])))
    true.

(** The paid subscription of u1 with the usage row of its period. *)
Definition metered_world : world :=
  mk_world [free_plan; pro_plan; yearly_plan] [u1] [paid_subscription] [] []
    [Usage.mk 1 "u1" "sub_1" "marketfit" 0 (timedelta_days 30) 7 3].

(** A keyed digest that stands for HMAC-SHA256 where a signature has to
    verify. *)
Definition keyed_digest (key msg : string) : string := key ++ ":" ++ msg.

(** The body of a [/verify-payment] request for the payment pay_1 of the
    subscription sub_R1, signed under the secret [whsec]. *)
Definition signed_payment : json :=
  JObj [("razorpay_payment_id", JStr "pay_1");
        ("razorpay_subscription_id", JStr "sub_R1");
        ("razorpay_signature", JStr "whsec:pay_1|sub_R1");
        ("user_id", JStr "u1")].

(** A notification in PayPal's layout. *)
Definition paypal_notification : json :=
  JObj [("id", JStr "WH-1"); ("event_type", JStr "BILLING.SUBSCRIPTION.ACTIVATED");
        ("resource", JObj [("id", JStr "I-PAYPAL")])].

(** A webhook request with no signature header: the cancellation of the
    subscription sub_R1. *)
Definition unsigned_cancellation : razorpay_handler.request :=
  razorpay_handler.mk_request None "{}"
    (Ok (subscription_event "subscription.cancelled" "sub_R1")).

End Sample.


(* ================================================================== *)
(** ** PeriodCalculator *)

Lemma timedelta_ok : forall days,
  Z.abs days <= 999999999 -> timedelta days = Ok (days * 86400000000).
Proof.
  intros days H. unfold timedelta, timedelta_days.
  destruct (Z.leb_spec (Z.abs days) 999999999); [reflexivity | lia].
Qed.

Lemma timedelta_overflow : forall days,
  999999999 < Z.abs days -> exists msg, timedelta days = Raise (OverflowError msg).
Proof.
  intros days H. unfold timedelta.
  destruct (Z.leb_spec (Z.abs days) 999999999); [lia | eexists; reflexivity].
Qed.

Lemma datetime_add_ok : forall t d,
  -62135596800000000 <= t + d <= 253402300799999999 -> datetime_add t d = Ok (t + d).
Proof.
  intros t d [Hlo Hhi]. unfold datetime_add, datetime_min, datetime_max.
  destruct (Z.leb_spec (-62135596800000000) (t + d)); [| lia].
  destruct (Z.leb_spec (t + d) 253402300799999999); [reflexivity | lia].
Qed.

Lemma datetime_add_overflow : forall t d,
  t + d < -62135596800000000 \/ 253402300799999999 < t + d ->
  datetime_add t d = Raise (OverflowError "date value out of range").
Proof.
  intros t d H. unfold datetime_add, datetime_min, datetime_max.
  destruct (Z.leb_spec (-62135596800000000) (t + d));
    destruct (Z.leb_spec (t + d) 253402300799999999); simpl; try reflexivity; lia.
Qed.

(** The period a plan's interval gives, in days. *)
Lemma calculate_period_end_days : forall start interval count,
  helpers.calculate_period_end start interval (Some count)
  = (d <- timedelta (if String.eqb interval "month" then 30 * count
                     else if String.eqb interval "year" then 365 * count
                     else 30) ;;
     datetime_add start d).
Proof.
  intros start interval count. unfold helpers.calculate_period_end.
  destruct (String.eqb interval "month"); [reflexivity |].
  destruct (String.eqb interval "year"); reflexivity.
Qed.

(** C9 (amended): for every start date and positive count,
    [calculate_period_end] returns the start plus [30 * count] days for the
    interval ['month'], plus [365 * count] days for ['year'], and plus 30 days
    (the count taken as 1) for any other interval, a day being 86400000000
    microseconds, provided the days number at most 999999999 and the end is no
    later than [datetime.max] (9999-12-31 23:59:59.999999); otherwise it raises
    OverflowError. *)
Theorem calculate_period_end_spec :
  forall (start : datetime) (interval : string) (count : Z),
    0 < count ->
    -62135596800000000 <= start ->
    let days := if String.eqb interval "month" then 30 * count
                else if String.eqb interval "year" then 365 * count
                else 30 in
    (days <= 999999999 ->
     start + days * 86400000000 <= 253402300799999999 ->
     helpers.calculate_period_end start interval (Some count)
     = Ok (start + days * 86400000000))
    /\ (999999999 < days \/ 253402300799999999 < start + days * 86400000000 ->
        exists msg,
          helpers.calculate_period_end start interval (Some count)
          = Raise (OverflowError msg)).
Proof.
  intros start interval count Hcount Hstart days.
  assert (Hdays : 0 < days).
  { subst days. destruct (String.eqb interval "month"); [lia |].
    destruct (String.eqb interval "year"); lia. }
  rewrite calculate_period_end_days. fold days. split.
  - intros Hfew Hend. rewrite timedelta_ok by lia. simpl.
    apply datetime_add_ok. lia.
  - intros [Hmany | Hlate].
    + destruct (timedelta_overflow days) as [msg E]; [lia |].
      exists msg. rewrite E. reflexivity.
    + destruct (Z.le_gt_cases days 999999999) as [Hfew | Hmany].
      * rewrite timedelta_ok by lia. simpl.
        rewrite datetime_add_overflow by lia. eexists. reflexivity.
      * destruct (timedelta_overflow days) as [msg E]; [lia |].
        exists msg. rewrite E. reflexivity.
Qed.

Lemma calculate_period_end_spec_witness :
  helpers.calculate_period_end 1704067200000000 "month" (Some 12)
  = Ok (1704067200000000 + 30 * 12 * 86400000000).
Proof.
  apply (proj1 (calculate_period_end_spec 1704067200000000 "month" 12
                  ltac:(lia) ltac:(lia))); simpl; lia.
Defined.

(** C9, as stated, fails: from 2024-01-01, for the interval ['year'] and the
    positive count 30000, the end would lie after year 9999 and
    [calculate_period_end] raises OverflowError. *)
Lemma calculate_period_end_counterexample :
  0 < 30000
  /\ helpers.calculate_period_end 1704067200000000 "year" (Some 30000)
     = Raise (OverflowError "date value out of range").
Proof. split; [lia | reflexivity]. Qed.

(* ================================================================== *)
(** ** RazorpayProvider *)

Lemma init_client_without_credentials :
  forall key_id key_secret new_client,
    key_id = "" \/ key_secret = "" ->
    RazorpayProvider.init_client key_id key_secret new_client
    = (RazorpayProvider.mk None false, false).
Proof.
  intros key_id key_secret new_client [-> | ->]; unfold RazorpayProvider.init_client.
  - reflexivity.
  - rewrite orb_true_r. reflexivity.
Qed.

Lemma unusable_provider : forall self : RazorpayProvider.t,
  RazorpayProvider.initialized self = false \/ RazorpayProvider.client self = None ->
  RazorpayProvider.usable self = None.
Proof.
  intros self [H | H]; unfold RazorpayProvider.usable; rewrite H; [reflexivity |].
  destruct (RazorpayProvider.initialized self); reflexivity.
Qed.

(** C10: a RazorpayProvider whose client is not initialized (the state the
    constructor leaves when a credential is missing) answers
    [create_subscription], [cancel_subscription] and [fetch_subscription] with
    [{'error': True, 'message': 'Razorpay client not initialized'}] and sends no
    request to Razorpay. *)
Theorem uninitialized_provider_reports_failure :
  forall (self : RazorpayProvider.t) plan_id customer_info app_id additional_notes
         subscription_id cancel_at_cycle_end,
    RazorpayProvider.initialized self = false \/ RazorpayProvider.client self = None ->
    let failure := JObj [("error", JBool true);
                         ("message", JStr "Razorpay client not initialized")] in
    RazorpayProvider.create_subscription self plan_id customer_info app_id additional_notes
    = (failure, [])
    /\ RazorpayProvider.cancel_subscription self subscription_id cancel_at_cycle_end
       = (failure, [])
    /\ RazorpayProvider.fetch_subscription self subscription_id = (failure, []).
Proof.
  intros self plan_id customer_info app_id additional_notes subscription_id flag H failure.
  apply unusable_provider in H.
  unfold RazorpayProvider.create_subscription, RazorpayProvider.cancel_subscription,
    RazorpayProvider.fetch_subscription.
  rewrite H. repeat split.
Qed.

Lemma uninitialized_provider_reports_failure_witness :
  RazorpayProvider.create_subscription Sample.no_credentials "plan_pro"
    (JObj [("user_id", JStr "u1")]) "marketfit" None
  = (JObj [("error", JBool true); ("message", JStr "Razorpay client not initialized")], [])
  /\ RazorpayProvider.cancel_subscription Sample.no_credentials "sub_R1" true
     = (JObj [("error", JBool true); ("message", JStr "Razorpay client not initialized")], [])
  /\ RazorpayProvider.fetch_subscription Sample.no_credentials "sub_R1"
     = (JObj [("error", JBool true); ("message", JStr "Razorpay client not initialized")], []).
Proof.
  apply (uninitialized_provider_reports_failure Sample.no_credentials
           "plan_pro" (JObj [("user_id", JStr "u1")]) "marketfit" None "sub_R1" true).
  left. reflexivity.
Defined.


(* ================================================================== *)
(** ** Razorpay webhook endpoint *)

Section WebhookEndpoint.

Variable hmac_sha256_hexdigest : string -> string -> string.
Variable RAZORPAY_WEBHOOK_SECRET : string.
Variable isoformat : datetime -> string.
Variable fromtimestamp : Z -> res datetime.
Variable int_of_str : string -> option Z.

Lemma process_webhook_never_400 : forall w req now new_invoice_id w' body,
  razorpay_handler.process_webhook isoformat fromtimestamp int_of_str w req now new_invoice_id
  = Returns w' (body, 400) -> False.
Proof.
  intros w req now new_invoice_id w' body.
  unfold razorpay_handler.process_webhook.
  match goal with |- context [match ?b with Ok _ => _ | Raise _ => _ end] => destruct b as [[wd et] | e] end.
  - destruct (PaymentService.handle_webhook isoformat fromtimestamp int_of_str w wd
                "razorpay" now new_invoice_id) as [w1 r | w1 e |];
      [destruct (razorpay_handler.format_event et) | |]; intro H; inversion H.
  - intro H; inversion H.
Qed.

(** What the endpoint answers once the signature check is behind it, for a
    body whose event the service takes. *)
Lemma process_webhook_hands_over :
  forall w req now new_invoice_id body event_type w' result,
    razorpay_handler.parsed req = Ok body ->
    py_get body "event" JNull = Ok (JStr event_type) ->
    (String.prefix "subscription." event_type = true -> subscription_id_readable body) ->
    PaymentService.handle_webhook isoformat fromtimestamp int_of_str
      w body "razorpay" now new_invoice_id = Returns w' result ->
    razorpay_handler.process_webhook isoformat fromtimestamp int_of_str
      w req now new_invoice_id
    = Returns w'
        (JObj [("status", JStr "success");
               ("message", JStr ("Processed " ++ event_type ++ " event"));
               ("result", result)], 200).
Proof.
  intros w req now new_invoice_id body event_type w' result Hbody Hevent Hread Hservice.
  unfold razorpay_handler.process_webhook. rewrite Hbody. cbn [bind]. rewrite Hevent.
  cbn [bind py_truthy].
  assert (Pre : (if negb (String.eqb event_type "")
                 then if String.prefix "subscription." event_type
                      then p <- py_get body "payload" (JObj []) ;;
                           subscription_data <- py_get p "subscription" (JObj []) ;;
                           subscription_id <- py_get subscription_data "id" JNull ;;
                           Ok tt
                      else Ok tt
                 else Ok tt) = Ok tt).
  { destruct (negb (String.eqb event_type "")); [| reflexivity].
    destruct (String.prefix "subscription." event_type); [| reflexivity].
    destruct (Hread eq_refl) as [p [s [i [Hp [Hs Hi]]]]].
    rewrite Hp. cbn [bind]. rewrite Hs. cbn [bind]. rewrite Hi. reflexivity. }
  rewrite Pre. cbn [bind]. rewrite Hservice. reflexivity.
Qed.

(** C3: a Razorpay webhook request without the [X-Razorpay-Signature] header
    is processed as if authentic.  Its answer and the tables it leaves are
    those of the same request carrying a signature that verifies; and an event
    the service takes is handed to [handle_webhook], whose result is answered
    with status 200 and whose changes to the tables stay.  An answer with
    status 400 comes only from a request whose header is present (and not
    empty) and whose signature the verification rejected. *)
Theorem missing_signature_skips_verification :
  forall (w : world) (req : razorpay_handler.request) (now : datetime)
         (new_invoice_id : string),
    (razorpay_handler.signature_header req = None ->
     (forall signature,
        razorpay_handler.verify_razorpay_signature hmac_sha256_hexdigest
          RAZORPAY_WEBHOOK_SECRET (razorpay_handler.data req) signature = Ok true ->
        razorpay_handler.handle_razorpay_webhook hmac_sha256_hexdigest
          RAZORPAY_WEBHOOK_SECRET isoformat fromtimestamp int_of_str w req now new_invoice_id
        = razorpay_handler.handle_razorpay_webhook hmac_sha256_hexdigest
            RAZORPAY_WEBHOOK_SECRET isoformat fromtimestamp int_of_str w
            (razorpay_handler.mk_request (Some signature) (razorpay_handler.data req)
               (razorpay_handler.parsed req))
            now new_invoice_id)
     /\ (forall body event_type w' result,
           razorpay_handler.parsed req = Ok body ->
           py_get body "event" JNull = Ok (JStr event_type) ->
           (String.prefix "subscription." event_type = true ->
            subscription_id_readable body) ->
           PaymentService.handle_webhook isoformat fromtimestamp int_of_str
             w body "razorpay" now new_invoice_id = Returns w' result ->
           razorpay_handler.handle_razorpay_webhook hmac_sha256_hexdigest
             RAZORPAY_WEBHOOK_SECRET isoformat fromtimestamp int_of_str
             w req now new_invoice_id
           = Returns w'
               (JObj [("status", JStr "success");
                      ("message", JStr ("Processed " ++ event_type ++ " event"));
                      ("result", result)], 200)))
    /\ (forall w' body,
          razorpay_handler.handle_razorpay_webhook hmac_sha256_hexdigest
            RAZORPAY_WEBHOOK_SECRET isoformat fromtimestamp int_of_str w req now new_invoice_id
          = Returns w' (body, 400) ->
          exists signature,
            razorpay_handler.signature_header req = Some signature
            /\ signature <> ""
            /\ razorpay_handler.verify_razorpay_signature hmac_sha256_hexdigest
                 RAZORPAY_WEBHOOK_SECRET (razorpay_handler.data req) signature = Ok false
            /\ body = JObj [("error", JStr "Invalid signature")]).
Proof.
  intros w req now new_invoice_id. split.
  - intro H. split.
    + intros signature V. unfold razorpay_handler.handle_razorpay_webhook.
      rewrite H. cbn [razorpay_handler.signature_header razorpay_handler.data].
      rewrite V.
      assert (P : forall r r',
                 razorpay_handler.parsed r = razorpay_handler.parsed r' ->
                 razorpay_handler.process_webhook isoformat fromtimestamp int_of_str
                   w r now new_invoice_id
                 = razorpay_handler.process_webhook isoformat fromtimestamp int_of_str
                     w r' now new_invoice_id).
      { intros r r' E. unfold razorpay_handler.process_webhook. rewrite E. reflexivity. }
      destruct (negb (String.eqb signature "")); apply P; reflexivity.
    + intros body event_type w' result Hbody Hevent Hread Hservice.
      unfold razorpay_handler.handle_razorpay_webhook. rewrite H.
      eapply process_webhook_hands_over; eassumption.
  - intros w' body. unfold razorpay_handler.handle_razorpay_webhook.
    destruct (razorpay_handler.signature_header req) as [signature |].
    + destruct (String.eqb_spec signature "") as [E | NE]; simpl.
      * intro H. exfalso. eapply process_webhook_never_400; eassumption.
      * destruct (razorpay_handler.verify_razorpay_signature hmac_sha256_hexdigest
                    RAZORPAY_WEBHOOK_SECRET (razorpay_handler.data req) signature)
          as [[|] | e] eqn:V; intro H.
        -- exfalso. eapply process_webhook_never_400; eassumption.
        -- inversion H; subst. exists signature. repeat split; auto.
        -- inversion H.
    + intro H. exfalso. eapply process_webhook_never_400; eassumption.
Qed.

End WebhookEndpoint.

Lemma missing_signature_skips_verification_witness :
  exists w' result,
    razorpay_handler.handle_razorpay_webhook Sample.hmac_sha256_hexdigest "whsec"
      Sample.isoformat Sample.fromtimestamp Sample.int_of_str
      Sample.subscribed_world Sample.unsigned_cancellation 5000 "inv_1"
    = Returns w'
        (JObj [("status", JStr "success");
               ("message", JStr ("Processed " ++ "subscription.cancelled" ++ " event"));
               ("result", result)], 200)
    /\ map Subscription.status (user_subscriptions Sample.subscribed_world) = ["active"]
    /\ map Subscription.status (user_subscriptions w') = ["cancelled"].
Proof.
  eexists. eexists. split; [| split].
  - apply (proj2 (proj1 (missing_signature_skips_verification Sample.hmac_sha256_hexdigest
                           "whsec" Sample.isoformat Sample.fromtimestamp Sample.int_of_str
                           Sample.subscribed_world Sample.unsigned_cancellation 5000 "inv_1")
                    eq_refl)
             (Sample.subscription_event "subscription.cancelled" "sub_R1")
             "subscription.cancelled").
    + reflexivity.
    + reflexivity.
    + intros _. unfold subscription_id_readable. do 3 eexists.
      repeat split; reflexivity.
    + vm_compute. reflexivity.
  - reflexivity.
  - reflexivity.
Defined.

(* ================================================================== *)
(** ** Lists, dictionaries and the metadata patch *)

Lemma find_none_of {A} (f : A -> bool) (l : list A) :
  (forall x, In x l -> f x = false) -> find f l = None.
Proof.
  induction l as [| a l IH]; intro H; simpl; [reflexivity |].
  rewrite (H a (or_introl eq_refl)). apply IH. intros x Hx. apply H. right. exact Hx.
Qed.

Lemma find_some_of {A} (f : A -> bool) (l : list A) (x : A) :
  In x l -> f x = true -> exists y, find f l = Some y.
Proof.
  induction l as [| a l IH]; intros Hin Hf; [contradiction |]. simpl.
  destruct (f a) eqn:Fa; [eexists; reflexivity |].
  destruct Hin as [-> | Hin]; [congruence | auto].
Qed.

Lemma lookup_set_key_same {A} (k : string) (v : A) (m : list (string * A)) :
  lookup k (set_key k v m) = Some v.
Proof.
  induction m as [| [k' v'] m IH]; simpl.
  - rewrite String.eqb_refl. reflexivity.
  - destruct (String.eqb k k') eqn:E; simpl.
    + rewrite String.eqb_refl. reflexivity.
    + rewrite E. exact IH.
Qed.

Lemma lookup_set_key_other {A} (k k' : string) (v : A) (m : list (string * A)) :
  k <> k' -> lookup k (set_key k' v m) = lookup k m.
Proof.
  intro NE. induction m as [| [k0 v0] m IH]; simpl.
  - destruct (String.eqb_spec k k'); [contradiction | reflexivity].
  - destruct (String.eqb_spec k' k0) as [-> | N0]; simpl.
    + destruct (String.eqb_spec k k0); [contradiction | reflexivity].
    + destruct (String.eqb k k0); [reflexivity | exact IH].
Qed.

(** The cancellation patch leaves [cancellation_scheduled] true in the merged
    metadata, whatever the metadata held. *)
Lemma cancellation_patch_sets_flag : forall (metadata : option json) (stamp : string),
  exists m,
    merge_metadata metadata
      (JObj [("cancellation_scheduled", JBool true); ("cancelled_at", JStr stamp)])
    = Some (JObj m)
    /\ lookup "cancellation_scheduled" m = Some (JBool true).
Proof.
  intros metadata stamp. unfold merge_metadata. simpl.
  eexists. split; [reflexivity |].
  rewrite lookup_set_key_other by discriminate.
  apply lookup_set_key_same.
Qed.

Lemma find_none_filter_nil {A} (p : A -> bool) (l : list A) :
  find p l = None -> filter p l = [].
Proof.
  induction l as [| a l IH]; simpl; [reflexivity |].
  destruct (p a); [discriminate | exact IH].
Qed.

Section ServiceProperties.

Variable isoformat : datetime -> string.
Variable fromtimestamp : Z -> res datetime.
Variable int_of_str : string -> option Z.
Variable date_add_month : datetime -> Z -> option datetime.

(* ------------------------------------------------------------------ *)
(** *** Events for a subscription the store does not know *)

Lemma no_row_carries : forall (w : world) (rid : string),
  (forall s, In s (user_subscriptions w) ->
             Subscription.razorpay_subscription_id s <> Some rid) ->
  PaymentService.find_by_razorpay_id w (Some rid) = None.
Proof.
  intros w rid H. unfold PaymentService.find_by_razorpay_id.
  apply find_none_of. intros s Hs. specialize (H s Hs).
  unfold PaymentService.has_razorpay_id, sql_eq.
  destruct (Subscription.razorpay_subscription_id s) as [c |]; [| reflexivity].
  destruct (String.eqb_spec c rid); [subst; contradiction | reflexivity].
Qed.

Lemma no_row_carrying : forall (w : world) (rid : string),
  (forall s, In s (user_subscriptions w) ->
             Subscription.razorpay_subscription_id s <> Some rid) ->
  PaymentService.carrying w (Some rid) = [].
Proof.
  intros w rid H. unfold PaymentService.carrying.
  apply find_none_filter_nil. apply (no_row_carries w rid H).
Qed.

(** C4: when the provider subscription id of a webhook event matches no local
    row, each of the five handlers returns
    [{'status': 'error', 'message': 'Subscription not found'}] (a result, not
    an exception) and leaves every table as it was.  The id is the one each
    handler reads: the subscription entity's for four of them, and for the
    charged handler the id of the entity or, without an entity, of the
    subscription object. *)
Theorem unknown_subscription_is_reported :
  forall (w : world) (payload : json) (now : datetime) (new_invoice_id rid : string),
    rid <> "" ->
    (forall s, In s (user_subscriptions w) ->
               Subscription.razorpay_subscription_id s <> Some rid) ->
    let reported :=
      Returns w (JObj [("status", JStr "error"); ("message", JStr "Subscription not found")]) in
    (forall entity,
       PaymentService.subscription_entity payload = Ok (entity, JStr rid) ->
       PaymentService._handle_razorpay_subscription_authenticated w payload = reported
       /\ PaymentService._handle_razorpay_subscription_activated
            isoformat fromtimestamp int_of_str w payload now = reported
       /\ PaymentService._handle_razorpay_subscription_completed w payload = reported
       /\ PaymentService._handle_razorpay_subscription_cancelled w payload = reported)
    /\ (forall data payment invoice_id payment_id,
          PaymentService.charged_fields payload
          = Ok (data, JStr rid, payment, invoice_id, payment_id) ->
          PaymentService._handle_razorpay_subscription_charged
            isoformat w payload now new_invoice_id = reported).
Proof.
  intros w payload now new_invoice_id rid Hrid Hnone reported.
  apply no_row_carrying in Hnone.
  assert (Htruthy : py_truthy (JStr rid) = true).
  { simpl. destruct (String.eqb_spec rid ""); [contradiction | reflexivity]. }
  split.
  - intros entity Hentity.
    unfold PaymentService._handle_razorpay_subscription_authenticated,
      PaymentService._handle_razorpay_subscription_activated,
      PaymentService._handle_razorpay_subscription_completed,
      PaymentService._handle_razorpay_subscription_cancelled,
      PaymentService.mark_handler.
    rewrite Hentity. unfold PaymentService.try_res.
    rewrite Htruthy. cbn [negb sql_text]. rewrite Hnone.
    repeat split.
  - intros data payment invoice_id payment_id Hcharged.
    unfold PaymentService._handle_razorpay_subscription_charged.
    rewrite Hcharged. unfold PaymentService.try_res.
    cbn [sql_text]. rewrite Hnone. reflexivity.
Qed.

(* ------------------------------------------------------------------ *)
(** *** Cancellation *)

Lemma patch_metadata_status : forall patch s,
  Subscription.status (PaymentService.patch_metadata patch s) = Subscription.status s.
Proof. reflexivity. Qed.

Lemma update_where_statuses : forall sel f w,
  (forall s, Subscription.status (f s) = Subscription.status s) ->
  map Subscription.status (user_subscriptions (PaymentService.update_where sel f w))
  = map Subscription.status (user_subscriptions w).
Proof.
  intros sel f w Hf. unfold PaymentService.update_where. simpl.
  rewrite map_map. apply map_ext. intro s. destruct (sel s); [apply Hf | reflexivity].
Qed.

(** C6: [cancel_subscription] on a subscription that exists and belongs to the
    user returns [{status: 'active', cancellation_scheduled: True, ...}]
    whatever the provider's cancel call does, be it a success, an error
    document or an exception: nothing of it reaches the caller.  Every row
    keeps its status (an active subscription stays active), and the metadata of
    the cancelled subscription holds [cancellation_scheduled = true]. *)
Theorem cancel_survives_provider_failure :
  forall (self : PaymentService.t) (w : world) (user_id subscription_id : string)
         (now : datetime) (owned : Subscription.t),
    In owned (user_subscriptions w) ->
    Subscription.id owned = subscription_id ->
    Subscription.user_id owned = user_id ->
    exists w' end_date,
      PaymentService.cancel_subscription isoformat self w user_id subscription_id now
      = Returns w'
          (JObj [("id", JStr subscription_id);
                 ("status", JStr "active");
                 ("cancellation_scheduled", JBool true);
                 ("end_date", end_date);
                 ("message",
                  JStr "Subscription will remain active until the end of the current billing period")])
      /\ map Subscription.status (user_subscriptions w')
         = map Subscription.status (user_subscriptions w)
      /\ (forall s, In s (user_subscriptions w') ->
                    Subscription.id s = subscription_id ->
                    exists m, Subscription.metadata s = Some (JObj m)
                              /\ lookup "cancellation_scheduled" m = Some (JBool true)).
Proof.
  intros self w user_id subscription_id now owned Hin Hid Huser.
  unfold PaymentService.cancel_subscription.
  destruct (find_some_of
              (fun s => String.eqb (Subscription.id s) subscription_id
                        && String.eqb (Subscription.user_id s) user_id)
              (user_subscriptions w) owned Hin) as [found Hfound].
  { rewrite Hid, Huser, !String.eqb_refl. reflexivity. }
  rewrite Hfound.
  eexists. eexists. split; [reflexivity |]. split.
  - apply update_where_statuses. intro s. apply patch_metadata_status.
  - intros s Hs Hsid. unfold PaymentService.update_where in Hs. simpl in Hs.
    apply in_map_iff in Hs. destruct Hs as [s0 [Hs0 _]].
    destruct (String.eqb_spec (Subscription.id s0) subscription_id) as [E | NE].
    + subst s. simpl. apply cancellation_patch_sets_flag.
    + subst s. contradiction.
Qed.


End ServiceProperties.

Lemma unknown_subscription_is_reported_witness :
  let event := Sample.subscription_event "subscription.charged" "sub_unknown" in
  let reported :=
    Returns Sample.subscribed_world
      (JObj [("status", JStr "error"); ("message", JStr "Subscription not found")]) in
  (PaymentService._handle_razorpay_subscription_authenticated Sample.subscribed_world event
   = reported
   /\ PaymentService._handle_razorpay_subscription_activated
        Sample.isoformat Sample.fromtimestamp Sample.int_of_str
        Sample.subscribed_world event 0 = reported
   /\ PaymentService._handle_razorpay_subscription_completed Sample.subscribed_world event
      = reported
   /\ PaymentService._handle_razorpay_subscription_cancelled Sample.subscribed_world event
      = reported)
  /\ PaymentService._handle_razorpay_subscription_charged
       Sample.isoformat Sample.subscribed_world event 0 "inv_1" = reported.
Proof.
  assert (H := unknown_subscription_is_reported
                 Sample.isoformat Sample.fromtimestamp Sample.int_of_str
                 Sample.subscribed_world
                 (Sample.subscription_event "subscription.charged" "sub_unknown")
                 0 "inv_1" "sub_unknown").
  destruct H as [Hfour Hcharged].
  - discriminate.
  - intros s [<- | []]. discriminate.
  - split.
    + apply (Hfour (JObj [("id", JStr "sub_unknown"); ("plan_id", JStr "plan_rzp_pro")])).
      reflexivity.
    + apply (Hcharged (JObj [("id", JStr "sub_unknown"); ("plan_id", JStr "plan_rzp_pro")])
               (JObj []) JNull JNull).
      reflexivity.
Defined.

Lemma cancel_survives_provider_failure_witness :
  exists w' end_date,
    PaymentService.cancel_subscription Sample.isoformat Sample.failing_service
      Sample.subscribed_world "u1" "sub_1" 0
    = Returns w'
        (JObj [("id", JStr "sub_1");
               ("status", JStr "active");
               ("cancellation_scheduled", JBool true);
               ("end_date", end_date);
               ("message",
                JStr "Subscription will remain active until the end of the current billing period")])
    /\ map Subscription.status (user_subscriptions w')
       = map Subscription.status (user_subscriptions Sample.subscribed_world)
    /\ (forall s, In s (user_subscriptions w') ->
                  Subscription.id s = "sub_1" ->
                  exists m, Subscription.metadata s = Some (JObj m)
                            /\ lookup "cancellation_scheduled" m = Some (JBool true)).
Proof.
  apply (cancel_survives_provider_failure Sample.isoformat Sample.failing_service
           Sample.subscribed_world "u1" "sub_1" 0 Sample.paid_subscription).
  - left. reflexivity.
  - reflexivity.
  - reflexivity.
Defined.


(* ------------------------------------------------------------------ *)
(** *** Free plans *)

Lemma fetchone_single {A} (row : A) : fetchone [row] = (Some row, false).
Proof. reflexivity. Qed.

(** Asking for a free plan when the pair has one active subscription reaches
    the call of [_create_resource_usage_record] with [current_period_start]
    unassigned: the call raises, after the commit, and no row is inserted. *)
Lemma free_plan_over_active_raises :
  forall date_add_month self w user_id plan_id app_id now new_id plan existing,
    PaymentService.find_plan w plan_id = Some plan ->
    Plan.amount plan = 0 ->
    filter (PaymentService.active_for user_id app_id) (user_subscriptions w) = [existing] ->
    exists w',
      PaymentService.create_subscription date_add_month self w user_id plan_id app_id now new_id
      = Raises w' (UnboundLocalError "current_period_start")
      /\ List.length (user_subscriptions w') = List.length (user_subscriptions w).
Proof.
  intros date_add_month self w user_id plan_id app_id now new_id plan existing
         Hplan Hfree Hexisting.
  unfold PaymentService.create_subscription.
  rewrite Hplan, Hfree, Hexisting, fetchone_single. cbn [Z.eqb].
  destruct (negb (String.eqb (Subscription.plan_id existing) plan_id)); simpl;
    eexists; (split; [reflexivity |]); [| reflexivity].
  apply length_map.
Qed.

(** C2, on the code: the first call for a user, a free plan and an app
    inserts the subscription and returns its id; the second call with the same
    arguments inserts no row (the table still holds one) but raises
    UnboundLocalError instead of returning that id. *)
Lemma second_free_creation_raises :
  exists w1 first,
    PaymentService.create_subscription Sample.date_add_month Sample.answering_service
      Sample.fresh_world "u1" "plan_free_marketfit" "marketfit" 0 "sub_1"
    = Returns w1 first
    /\ py_get first "id" JNull = Ok (JStr "sub_1")
    /\ PaymentService.create_subscription Sample.date_add_month Sample.answering_service
         w1 "u1" "plan_free_marketfit" "marketfit" 1000 "sub_2"
       = Raises w1 (UnboundLocalError "current_period_start")
    /\ List.length (user_subscriptions w1) = 1%nat.
Proof.
  eexists. eexists. split; [reflexivity |]. split; [reflexivity |].
  split; reflexivity.
Qed.


(* ================================================================== *)
(** ** The invoice of a charge *)


Section Charge.

Variable isoformat : datetime -> string.


End Charge.



(* ------------------------------------------------------------------ *)
(** *** The event log *)

(** Case analysis on what the goal matches on, innermost first. *)
Ltac break_goal :=
  repeat match goal with
         | |- context [match ?x with _ => _ end] =>
             lazymatch x with
             | context [match _ with _ => _ end] => fail
             | _ => destruct x eqn:?; cbv beta iota
             end
         end.


Lemma except_never_raises : forall o w e,
  PaymentService.except_Exception o = Raises w e -> False.
Proof. intros [w' r | w' e' |] w e; simpl; discriminate. Qed.

Section EventLog.

Variable isoformat : datetime -> string.
Variable fromtimestamp : Z -> res datetime.
Variable int_of_str : string -> option Z.






(** A handler lets an exception escape only in one case: the event is routed
    to the completed or the cancelled handler and the subscription entity
    cannot be read from the payload. *)
Lemma route_event_raises : forall w provider event_type payload now new_invoice_id w' e,
  PaymentService.route_event isoformat fromtimestamp int_of_str
    w provider event_type payload now new_invoice_id = Raises w' e ->
  provider = "razorpay"
  /\ (event_type = "subscription.completed" \/ event_type = "subscription.cancelled")
  /\ PaymentService.subscription_entity payload = Raise e
  /\ w' = w.
Proof.
  intros w provider event_type payload now new_invoice_id w' e.
  unfold PaymentService.route_event.
  destruct (String.eqb_spec provider "razorpay") as [-> |];
    [| destruct (String.eqb provider "paypal"); discriminate].
  destruct (String.eqb event_type "subscription.authenticated");
    [intro H; apply except_never_raises in H; contradiction |].
  destruct (String.eqb event_type "subscription.activated");
    [intro H; apply except_never_raises in H; contradiction |].
  destruct (String.eqb event_type "subscription.charged");
    [intro H; apply except_never_raises in H; contradiction |].
  assert (Hmark : forall status message,
            PaymentService.mark_handler status message w payload = Raises w' e ->
            PaymentService.subscription_entity payload = Raise e /\ w' = w).
  { intros status message. unfold PaymentService.mark_handler, PaymentService.try_res.
    destruct (PaymentService.subscription_entity payload) as [[data rid] | e'].
    - destruct (negb (py_truthy rid)); [discriminate |].
      intro H; apply except_never_raises in H; contradiction.
    - intro H; inversion H; subst. split; reflexivity. }
  destruct (String.eqb_spec event_type "subscription.completed") as [-> |].
  - intro H. apply Hmark in H. destruct H. repeat split; auto.
  - destruct (String.eqb_spec event_type "subscription.cancelled") as [-> |];
      [| discriminate].
    intro H. apply Hmark in H. destruct H. repeat split; auto.
Qed.


End EventLog.



(* ------------------------------------------------------------------ *)
(** *** Active rows per (user, app) pair *)

Lemma filter_map_length {A B} (p : B -> bool) (g : A -> B) (l : list A) :
  List.length (filter p (map g l)) = List.length (filter (fun x => p (g x)) l).
Proof.
  induction l as [| a l IH]; simpl; [reflexivity |].
  destruct (p (g a)); simpl; rewrite IH; reflexivity.
Qed.

Lemma usage_record_keeps_subscriptions : forall w user_id subscription_id app_id ps pe,
  user_subscriptions
    (fst (PaymentService._create_resource_usage_record w user_id subscription_id app_id ps pe))
  = user_subscriptions w.
Proof. intros. destruct app_id; reflexivity. Qed.

Lemma log_event_keeps_subscriptions :
  forall w event_type entity_id user_id data provider processed w',
    DatabaseManager.log_event w event_type entity_id user_id data provider processed
    = Some w' ->
    user_subscriptions w' = user_subscriptions w.
Proof.
  intros until w'. unfold DatabaseManager.log_event.
  destruct (sql_text entity_id); [| discriminate].
  destruct (sql_text user_id); [| discriminate].
  destruct data; try discriminate.
  intro H; inversion H; reflexivity.
Qed.

Lemma creation_write_keeps_one_active : forall w w',
  creation_write (user_subscriptions w) (user_subscriptions w') ->
  at_most_one_active w -> at_most_one_active w'.
Proof.
  intros w w' [E | [[sel [f [E Hf]]] | [r [E Hr]]]] Hinv user_id app_id;
    specialize (Hinv user_id app_id); unfold active_count in *; rewrite E.
  - exact Hinv.
  - rewrite filter_map_length.
    erewrite filter_ext; [exact Hinv |].
    intro s. destruct (sel s); [| reflexivity].
    unfold PaymentService.active_for. destruct (Hf s) as [-> [-> [-> _]]]. reflexivity.
  - rewrite filter_app, length_app. simpl.
    destruct (PaymentService.active_for user_id app_id r) eqn:Er; simpl; [| lia].
    rewrite (Hr user_id app_id Er). simpl. lia.
Qed.

Lemma filter_free_nil : forall user_id app_id l,
  filter (PaymentService.active_for user_id app_id) l = [] ->
  filter (free_active_for user_id app_id) l = [].
Proof.
  intros user_id app_id l. induction l as [| s l IH]; simpl; [reflexivity |].
  unfold free_active_for at 1.
  destruct (PaymentService.active_for user_id app_id s); [discriminate |].
  simpl. exact IH.
Qed.

Lemma creation_write_keeps_one_free_active : forall w w',
  creation_write (user_subscriptions w) (user_subscriptions w') ->
  at_most_one_free_active w -> at_most_one_free_active w'.
Proof.
  intros w w' [E | [[sel [f [E Hf]]] | [r [E Hr]]]] Hinv user_id app_id;
    specialize (Hinv user_id app_id); rewrite E.
  - exact Hinv.
  - rewrite filter_map_length.
    erewrite filter_ext; [exact Hinv |].
    intro s. destruct (sel s); [| reflexivity].
    unfold free_active_for, PaymentService.active_for.
    destruct (Hf s) as [-> [-> [-> ->]]]. reflexivity.
  - rewrite filter_app, length_app. simpl.
    destruct (free_active_for user_id app_id r) eqn:Er; simpl; [| lia].
    unfold free_active_for in Er. apply andb_true_iff in Er. destruct Er as [Er _].
    rewrite (filter_free_nil _ _ _ (Hr user_id app_id Er)). simpl. lia.
Qed.

Lemma activation_write_keeps_one_free_active : forall w w',
  activation_write (user_subscriptions w) (user_subscriptions w') ->
  at_most_one_free_active w -> at_most_one_free_active w'.
Proof.
  intros w w' [E | [rid [f [E Hf]]]] Hinv user_id app_id;
    specialize (Hinv user_id app_id); rewrite E; [exact Hinv |].
  rewrite filter_map_length.
  erewrite filter_ext; [exact Hinv |].
  intro s. unfold PaymentService.has_razorpay_id, sql_eq.
  destruct (Subscription.razorpay_subscription_id s) as [carried |] eqn:Ecarried;
    [| reflexivity].
  destruct rid as [rid |]; [| reflexivity].
  destruct (String.eqb carried rid); [| reflexivity].
  unfold free_active_for. destruct (Hf s) as [_ [_ ->]]. rewrite Ecarried.
  rewrite !andb_false_r. reflexivity.
Qed.

Lemma filter_length_le {A} (p q : A -> bool) (l : list A) :
  (forall x, p x = true -> q x = true) ->
  (List.length (filter p l) <= List.length (filter q l))%nat.
Proof.
  intro Hpq. induction l as [| a l IH]; simpl; [lia |].
  destruct (p a) eqn:Ep.
  - rewrite (Hpq a Ep). simpl. lia.
  - destruct (q a); simpl; lia.
Qed.

Lemma at_most_one_active_free : forall w,
  at_most_one_active w -> at_most_one_free_active w.
Proof.
  intros w Hinv user_id app_id. specialize (Hinv user_id app_id).
  unfold active_count in Hinv.
  eapply Nat.le_trans; [| exact Hinv].
  apply filter_length_le. intros s E. unfold free_active_for in E.
  apply andb_true_iff in E. tauto.
Qed.

Ltac break_hyp H :=
  repeat match type of H with
         | context [match ?x with _ => _ end] =>
             lazymatch x with
             | context [match _ with _ => _ end] => fail
             | _ => destruct x eqn:?; cbv beta iota in H
             end
         end.

Section ActiveRows.

Variable isoformat : datetime -> string.
Variable fromtimestamp : Z -> res datetime.
Variable int_of_str : string -> option Z.
Variable date_add_month : datetime -> Z -> option datetime.

Lemma create_subscription_writes :
  forall self w user_id plan_id app_id now new_id w',
    world_after (PaymentService.create_subscription date_add_month self w
                   user_id plan_id app_id now new_id) = Some w' ->
    creation_write (user_subscriptions w) (user_subscriptions w').
Proof.
  intros self w user_id plan_id app_id now new_id w'.
  unfold PaymentService.create_subscription.
  destruct (PaymentService.find_plan w plan_id) as [plan |];
    [| simpl; intro H; inversion H; subst; left; reflexivity].
  destruct (filter (PaymentService.active_for user_id app_id) (user_subscriptions w))
    as [| existing [| second more]] eqn:Hactive; cbv beta iota zeta delta [fetchone hd_error].
  - (* the pair has no active row *)
    destruct (Plan.amount plan =? 0).
    + destruct (helpers.calculate_period_end now (Plan.interval plan)
                  (Plan.interval_count plan)) as [period_end | e];
        cbn [bind PaymentService.local world_after]; intro H; inversion H; subst;
        [| left; reflexivity].
      right; right. eexists. split; [reflexivity |].
      intros u a E. unfold PaymentService.active_for in E. cbn in E.
      apply andb_true_iff in E. destruct E as [E _].
      apply andb_true_iff in E. destruct E as [Eu Ea].
      apply String.eqb_eq in Eu. apply String.eqb_eq in Ea. subst. exact Hactive.
    + intro H. break_hyp H; cbn [world_after] in H; try discriminate;
        inversion H; subst; try (left; reflexivity).
      all: right; right; eexists; split;
        [erewrite log_event_keeps_subscriptions by eassumption; reflexivity |].
      all: intros u a E; unfold PaymentService.active_for in E; cbn in E;
        rewrite andb_false_r in E; discriminate.
  - (* one active row *)
    destruct (Plan.amount plan =? 0).
    + destruct (negb (String.eqb (Subscription.plan_id existing) plan_id));
        cbn [bind PaymentService.local world_after]; intro H; inversion H; subst;
        [| left; reflexivity].
      right; left. eexists. eexists. split; [reflexivity |].
      intro s. cbn. auto.
    + intro H. break_hyp H; cbn [world_after] in H; try discriminate;
        inversion H; subst; try (left; reflexivity).
      all: right; right; eexists; split;
        [erewrite log_event_keeps_subscriptions by eassumption; reflexivity |].
      all: intros u a E; unfold PaymentService.active_for in E; cbn in E;
        rewrite andb_false_r in E; discriminate.
  - (* several active rows: the next statement raises *)
    destruct (Plan.amount plan =? 0); cbn [world_after];
      intro H; inversion H; subst; left; reflexivity.
Qed.

Lemma activate_subscription_writes :
  forall w user_id subscription_id payment_id now new_invoice_id w',
    world_after (PaymentService.activate_subscription w user_id subscription_id
                   payment_id now new_invoice_id) = Some w' ->
    activation_write (user_subscriptions w) (user_subscriptions w').
Proof.
  intros w user_id subscription_id payment_id now new_invoice_id w'.
  unfold PaymentService.activate_subscription, PaymentService.try_res.
  intro H. break_hyp H; cbn [world_after PaymentService.except_Exception] in H;
    try discriminate; inversion H; subst; try (left; reflexivity).
  all: right; eexists; eexists; split;
    [erewrite log_event_keeps_subscriptions by eassumption;
     destruct (text_truthy payment_id); cbn [user_subscriptions set_invoices];
     rewrite usage_record_keeps_subscriptions; reflexivity |].
  all: intro row; cbn; auto.
Qed.

Lemma activated_writes : forall w payload now w',
  world_after (PaymentService._handle_razorpay_subscription_activated
                 isoformat fromtimestamp int_of_str w payload now) = Some w' ->
  activation_write (user_subscriptions w) (user_subscriptions w').
Proof.
  intros w payload now w'.
  unfold PaymentService._handle_razorpay_subscription_activated, PaymentService.try_res.
  intro H. break_hyp H; cbn [world_after PaymentService.except_Exception] in H;
    try discriminate; inversion H; subst; try (left; reflexivity).
  all: right; eexists; eexists; split;
    [rewrite usage_record_keeps_subscriptions; reflexivity |].
  all: intro row; cbn; auto.
Qed.

Lemma charged_writes : forall w payload now new_invoice_id w',
  world_after (PaymentService._handle_razorpay_subscription_charged
                 isoformat w payload now new_invoice_id) = Some w' ->
  activation_write (user_subscriptions w) (user_subscriptions w').
Proof.
  intros w payload now new_invoice_id w'.
  unfold PaymentService._handle_razorpay_subscription_charged, PaymentService.try_res.
  intro H. break_hyp H; cbn [world_after PaymentService.except_Exception] in H;
    try discriminate; inversion H; subst;
    try (left; reflexivity);
    try (left; apply usage_record_keeps_subscriptions).
  all: right; eexists; eexists; split;
    [cbn [user_subscriptions set_invoices];
     rewrite usage_record_keeps_subscriptions; reflexivity |].
  all: intro row; cbn; auto.
Qed.

Lemma operation_keeps_one_free_active : forall op w w',
  apply_operation isoformat fromtimestamp int_of_str date_add_month w op = Some w' ->
  at_most_one_free_active w -> at_most_one_free_active w'.
Proof.
  intros [self user_id plan_id app_id now new_id
         | user_id subscription_id payment_id now new_invoice_id
         | payload now
         | payload now new_invoice_id] w w' H; cbn [apply_operation] in H.
  - apply creation_write_keeps_one_free_active.
    eapply create_subscription_writes; exact H.
  - apply activation_write_keeps_one_free_active.
    eapply activate_subscription_writes; exact H.
  - apply activation_write_keeps_one_free_active.
    eapply activated_writes; exact H.
  - apply activation_write_keeps_one_free_active.
    eapply charged_writes; exact H.
Qed.

(** C1 (amended): starting from a state where every (user, app) pair has at
    most one active row, any sequence of [create_subscription],
    [activate_subscription], [subscription.activated] and
    [subscription.charged] operations leaves, in every pair, at most one
    active row that carries no Razorpay subscription id: the subscription to a
    free plan is never duplicated, and every further active row of a pair is a
    paid subscription.  After a sequence of [create_subscription] calls alone
    the pair has at most one active row in all. *)
Theorem one_active_subscription_preserved :
  forall (ops : list operation) (w w' : world),
    at_most_one_active w ->
    run isoformat fromtimestamp int_of_str date_add_month w ops = Some w' ->
    at_most_one_free_active w'
    /\ (forallb is_creation ops = true -> at_most_one_active w').
Proof.
  intros ops w w' Hinv Hrun. split.
  - apply at_most_one_active_free in Hinv.
    revert w w' Hinv Hrun. induction ops as [| op rest IH]; intros w w' Hinv Hrun.
    + simpl in Hrun. inversion Hrun; subst. exact Hinv.
    + simpl in Hrun.
      destruct (apply_operation isoformat fromtimestamp int_of_str date_add_month w op)
        as [w1 |] eqn:Hstep; [| discriminate].
      apply (IH w1 w'); [| exact Hrun].
      eapply operation_keeps_one_free_active; eassumption.
  - revert w w' Hinv Hrun. induction ops as [| op rest IH]; intros w w' Hinv Hrun Hops.
    + simpl in Hrun. inversion Hrun; subst. exact Hinv.
    + simpl in Hrun, Hops. apply andb_true_iff in Hops. destruct Hops as [Hop Hrest].
      destruct (apply_operation isoformat fromtimestamp int_of_str date_add_month w op)
        as [w1 |] eqn:Hstep; [| discriminate].
      apply (IH w1 w'); [| exact Hrun | exact Hrest].
      destruct op; try discriminate Hop. cbn [apply_operation] in Hstep.
      eapply creation_write_keeps_one_active; [| exact Hinv].
      eapply create_subscription_writes; exact Hstep.
Qed.

End ActiveRows.

(** C1, as stated, fails: a user on the free plan who subscribes to a paid
    plan and whose payment is confirmed by [subscription.activated] ends with
    two active rows, the free one and the paid one. *)
Lemma one_active_subscription_counterexample :
  at_most_one_active Sample.fresh_world
  /\ exists w',
       run Sample.isoformat Sample.fromtimestamp Sample.int_of_str Sample.date_add_month
         Sample.fresh_world Sample.upgrade = Some w'
       /\ map Subscription.status (user_subscriptions w') = ["active"; "active"]
       /\ active_count w' "u1" "marketfit" = 2%nat.
Proof.
  split.
  - intros user_id app_id. cbn. lia.
  - eexists. split; [reflexivity |]. split; reflexivity.
Qed.

(** The amended C1 on that upgrade: of the two active rows it leaves, one
    only carries no Razorpay subscription id. *)
Lemma one_active_subscription_preserved_witness :
  exists w',
    run Sample.isoformat Sample.fromtimestamp Sample.int_of_str Sample.date_add_month
      Sample.fresh_world Sample.upgrade = Some w'
    /\ map Subscription.razorpay_subscription_id (user_subscriptions w')
       = [None; Some "sub_R1"]
    /\ at_most_one_free_active w'.
Proof.
  eexists. split; [reflexivity |]. split; [reflexivity |].
  refine (proj1 (one_active_subscription_preserved
                   Sample.isoformat Sample.fromtimestamp Sample.int_of_str
                   Sample.date_add_month Sample.upgrade Sample.fresh_world _ _ _)).
  - intros user_id app_id. cbn. lia.
  - reflexivity.
Defined.

(* ------------------------------------------------------------------ *)
(** *** Usage after a renewal *)





(** The only row of a result is a row of the table, and no other row of the
    table is selected. *)
Lemma carrying_single : forall w rid subscription,
  PaymentService.carrying w rid = [subscription] ->
  In subscription (user_subscriptions w)
  /\ PaymentService.has_razorpay_id rid subscription = true
  /\ forall s, In s (user_subscriptions w) ->
               PaymentService.has_razorpay_id rid s = true -> s = subscription.
Proof.
  intros w rid subscription Hone. unfold PaymentService.carrying in Hone.
  assert (Hin : In subscription (filter (PaymentService.has_razorpay_id rid)
                                        (user_subscriptions w))).
  { rewrite Hone. left. reflexivity. }
  apply filter_In in Hin. destruct Hin as [Hin Hcarries].
  split; [exact Hin |]. split; [exact Hcarries |].
  intros s Hs Hc.
  assert (Hs' : In s (filter (PaymentService.has_razorpay_id rid) (user_subscriptions w))).
  { apply filter_In. split; assumption. }
  rewrite Hone in Hs'. destruct Hs' as [<- | []]. reflexivity.
Qed.

Section Renewal.

Variable isoformat : datetime -> string.



End Renewal.




(* ================================================================== *)
(** ** Further properties: signatures and the webhook endpoint *)

Lemma compare_digest_true : forall a b,
  razorpay_handler.compare_digest a b = Ok true ->
  a = b /\ razorpay_handler.is_ascii b = true.
Proof.
  intros a b. unfold razorpay_handler.compare_digest.
  destruct (razorpay_handler.is_ascii a) eqn:Ha; [| discriminate].
  destruct (razorpay_handler.is_ascii b) eqn:Hb; [| discriminate]. simpl.
  destruct (String.eqb_spec a b); [| discriminate]. auto.
Qed.

(** X1: [verify_razorpay_signature] accepts exactly when a webhook secret is
    configured, the signature is the hex digest of the payload under that
    secret, and the signature is ASCII.  With an empty secret nothing is
    accepted. *)
Theorem verify_razorpay_signature_accepts :
  forall (hmac_sha256_hexdigest : string -> string -> string)
         (secret payload signature : string),
    razorpay_handler.verify_razorpay_signature hmac_sha256_hexdigest secret payload signature
    = Ok true
    <-> secret <> ""
        /\ hmac_sha256_hexdigest secret payload = signature
        /\ razorpay_handler.is_ascii signature = true.
Proof.
  intros hmac secret payload signature.
  unfold razorpay_handler.verify_razorpay_signature. split.
  - destruct (String.eqb_spec secret "") as [-> | NE]; [discriminate |].
    intro H. apply compare_digest_true in H. destruct H as [E A]. auto.
  - intros [NE [E A]].
    destruct (String.eqb_spec secret ""); [contradiction |].
    unfold razorpay_handler.compare_digest. rewrite E, A, String.eqb_refl. reflexivity.
Qed.

Lemma handle_webhook_never_raises :
  forall isoformat fromtimestamp int_of_str w payload provider now new_invoice_id w' e,
    PaymentService.handle_webhook isoformat fromtimestamp int_of_str
      w payload provider now new_invoice_id = Raises w' e -> False.
Proof.
  intros until e. unfold PaymentService.handle_webhook. apply except_never_raises.
Qed.

(** X2: the Razorpay endpoint always answers: it lets no exception escape, its
    status code is 200, 400 or 500, and whenever the code is not 200 the
    tables are left as they were. *)
Theorem razorpay_webhook_always_answers :
  forall (hmac_sha256_hexdigest : string -> string -> string) (secret : string)
         isoformat fromtimestamp int_of_str
         (w : world) (req : razorpay_handler.request) (now : datetime)
         (new_invoice_id : string),
    match razorpay_handler.handle_razorpay_webhook hmac_sha256_hexdigest secret
            isoformat fromtimestamp int_of_str w req now new_invoice_id with
    | Returns w' (body, code) =>
        (code = 200 \/ code = 400 \/ code = 500) /\ (code = 200 \/ w' = w)
    | Raises _ _ => False
    | Outside => True
    end.
Proof.
  intros hmac secret isoformat fromtimestamp int_of_str w req now new_invoice_id.
  assert (Hprocess :
            match razorpay_handler.process_webhook isoformat fromtimestamp int_of_str
                    w req now new_invoice_id with
            | Returns w' (body, code) =>
                (code = 200 \/ code = 400 \/ code = 500) /\ (code = 200 \/ w' = w)
            | Raises _ _ => False
            | Outside => True
            end).
  { unfold razorpay_handler.process_webhook.
    match goal with
    | |- context [match ?b with Ok _ => _ | Raise _ => _ end] =>
        destruct b as [[webhook_data event_type] | e]
    end; [| simpl; auto].
    destruct (PaymentService.handle_webhook isoformat fromtimestamp int_of_str
                w webhook_data "razorpay" now new_invoice_id) as [w1 r | w1 e |] eqn:H.
    - destruct (razorpay_handler.format_event event_type); simpl; auto.
    - exfalso. eapply handle_webhook_never_raises; exact H.
    - exact I. }
  unfold razorpay_handler.handle_razorpay_webhook.
  destruct (razorpay_handler.signature_header req) as [signature |]; [| exact Hprocess].
  destruct (negb (String.eqb signature "")); [| exact Hprocess].
  destruct (razorpay_handler.verify_razorpay_signature hmac secret
              (razorpay_handler.data req) signature) as [[|] | e];
    [exact Hprocess | simpl; auto | simpl; auto].
Qed.

(* ================================================================== *)
(** ** Further properties: the metadata patch *)

Lemma json_merge_patch_object : forall (target : json) (patch : list (string * json)),
  json_merge_patch target (JObj patch)
  = JObj (fold_left merge_step patch (members_of target)).
Proof.
  intros target patch. simpl. f_equal.
  change (match target with JObj tm => tm | _ => [] end) with (members_of target).
  generalize (members_of target). induction patch as [| [k v] rest IH]; intro acc.
  - reflexivity.
  - simpl. rewrite IH. f_equal. unfold merge_step. simpl. destruct v; reflexivity.
Qed.

Lemma lookup_remove_key_same {A} (k : string) (m : list (string * A)) :
  lookup k (remove_key k m) = None.
Proof.
  induction m as [| [k' v'] m IH]; simpl; [reflexivity |].
  destruct (String.eqb k k') eqn:E; [exact IH |]. simpl. rewrite E. exact IH.
Qed.

Lemma lookup_remove_key_other {A} (k k' : string) (m : list (string * A)) :
  k <> k' -> lookup k (remove_key k' m) = lookup k m.
Proof.
  intro NE. induction m as [| [k0 v0] m IH]; simpl; [reflexivity |].
  destruct (String.eqb_spec k' k0) as [-> | N0].
  - destruct (String.eqb_spec k k0); [contradiction | exact IH].
  - simpl. destruct (String.eqb k k0); [reflexivity | exact IH].
Qed.

Lemma merge_step_other : forall acc k v k',
  k' <> k -> lookup k' (merge_step acc (k, v)) = lookup k' acc.
Proof.
  intros acc k v k' NE. unfold merge_step. simpl.
  destruct v; try (apply lookup_set_key_other; exact NE).
  apply lookup_remove_key_other. exact NE.
Qed.

Lemma merge_step_same : forall acc k v,
  lookup k (merge_step acc (k, v))
  = match v with
    | JNull => None
    | _ => Some (json_merge_patch
                   (match lookup k acc with Some old => old | None => JNull end) v)
    end.
Proof.
  intros acc k v. unfold merge_step. cbn [fst snd].
  destruct v; first [apply lookup_remove_key_same | apply lookup_set_key_same].
Qed.

Lemma merge_steps_untouched : forall patch acc k,
  lookup k patch = None ->
  lookup k (fold_left merge_step patch acc) = lookup k acc.
Proof.
  induction patch as [| [k0 v0] rest IH]; intros acc k H; [reflexivity |].
  simpl in H. destruct (String.eqb_spec k k0) as [E | NE]; [discriminate |].
  simpl. rewrite IH by exact H. apply merge_step_other. exact NE.
Qed.

(** X3: [JSON_MERGE_PATCH] works member by member.  A key the patch does not
    mention keeps the value the target had.  For a key the patch mentions
    once, a null value removes the key, a value that is not an object replaces
    what the target had, and an object is merged into what the target had
    under that key. *)
Theorem json_merge_patch_by_member :
  forall (target : json) (patch : list (string * json)) (k : string),
    exists merged,
      json_merge_patch target (JObj patch) = JObj merged
      /\ (lookup k patch = None -> lookup k merged = lookup k (members_of target))
      /\ (forall before v after,
            patch = (before ++ (k, v) :: after)%list ->
            lookup k before = None ->
            lookup k after = None ->
            match v with
            | JNull => lookup k merged = None
            | JObj _ =>
                lookup k merged
                = Some (json_merge_patch
                          (match lookup k (members_of target) with
                           | Some old => old
                           | None => JNull
                           end) v)
            | _ => lookup k merged = Some v
            end).
Proof.
  intros target patch k. rewrite json_merge_patch_object.
  eexists. split; [reflexivity |]. split.
  - apply merge_steps_untouched.
  - intros before v after -> Hbefore Hafter.
    rewrite fold_left_app. simpl.
    rewrite merge_steps_untouched by exact Hafter.
    pose proof (merge_steps_untouched before (members_of target) k Hbefore) as Hold.
    rewrite merge_step_same, Hold. destruct v; reflexivity.
Qed.

Lemma json_merge_patch_by_member_witness :
  exists merged,
    json_merge_patch (JObj [("plan", JStr "pro"); ("cancellation_scheduled", JBool true)])
      (JObj [("plan", JNull); ("status", JStr "active")])
    = JObj merged
    /\ lookup "cancellation_scheduled" merged = Some (JBool true).
Proof.
  destruct (json_merge_patch_by_member
              (JObj [("plan", JStr "pro"); ("cancellation_scheduled", JBool true)])
              [("plan", JNull); ("status", JStr "active")] "cancellation_scheduled")
    as [merged [E [Hkeep _]]].
  exists merged. split; [exact E |]. apply Hkeep. reflexivity.
Defined.

(* ================================================================== *)
(** ** Further properties: what the tables keep *)


Lemma prefix_refl {A} (a : list A) : is_prefix a a.
Proof. exists []. symmetry. apply app_nil_r. Qed.

Lemma prefix_app {A} (a more : list A) : is_prefix a (a ++ more).
Proof. exists more. reflexivity. Qed.

Lemma prefix_trans {A} (a b c : list A) : is_prefix a b -> is_prefix b c -> is_prefix a c.
Proof.
  intros [m1 ->] [m2 ->]. exists (m1 ++ m2)%list. symmetry. apply app_assoc.
Qed.

Lemma grows_refl : forall w, grows w w.
Proof. intro w. unfold grows. repeat split; apply prefix_refl. Qed.

Lemma grows_trans : forall a b c, grows a b -> grows b c -> grows a c.
Proof.
  intros a b c [U1 [P1 [I1 [E1 [S1 G1]]]]] [U2 [P2 [I2 [E2 [S2 G2]]]]].
  unfold grows. repeat split; try (eapply prefix_trans; eassumption). congruence.
Qed.

Lemma map_key_update {K} (key : Subscription.t -> K) (sel : Subscription.t -> bool)
    (f : Subscription.t -> Subscription.t) (l : list Subscription.t) :
  (forall s, key (f s) = key s) ->
  map key (map (fun s => if sel s then f s else s) l) = map key l.
Proof.
  intro Hf. rewrite map_map. apply map_ext. intro s.
  destruct (sel s); [apply Hf | reflexivity].
Qed.

Lemma grows_update_where : forall sel f w,
  (forall s, subscription_key (f s) = subscription_key s) ->
  grows w (PaymentService.update_where sel f w).
Proof.
  intros sel f w Hf. unfold grows, PaymentService.update_where. simpl.
  repeat split; try apply prefix_refl.
  rewrite map_key_update by exact Hf. apply prefix_refl.
Qed.

Lemma grows_insert_subscription : forall w l,
  grows w (set_subscriptions w (user_subscriptions w ++ l)).
Proof.
  intros w l. unfold grows. simpl. repeat split; try apply prefix_refl.
  rewrite map_app. apply prefix_app.
Qed.

Lemma grows_insert_invoice : forall w l,
  grows w (set_invoices w (subscription_invoices w ++ l)).
Proof.
  intros w l. unfold grows. simpl. repeat split; try apply prefix_refl. apply prefix_app.
Qed.

Lemma grows_insert_usage : forall w l,
  grows w (set_usage w (resource_usage w ++ l)).
Proof.
  intros w l. unfold grows. simpl. repeat split; try apply prefix_refl.
  rewrite map_app. apply prefix_app.
Qed.

Lemma grows_usage_record : forall w user_id subscription_id app_id ps pe,
  grows w (fst (PaymentService._create_resource_usage_record w user_id subscription_id
                  app_id ps pe)).
Proof.
  intros. destruct app_id; simpl; [apply grows_insert_usage | apply grows_refl].
Qed.

Lemma grows_log_event : forall w event_type entity_id user_id data provider processed w',
  DatabaseManager.log_event w event_type entity_id user_id data provider processed = Some w' ->
  grows w w'.
Proof.
  intros until w'. unfold DatabaseManager.log_event.
  destruct (sql_text entity_id); [| discriminate].
  destruct (sql_text user_id); [| discriminate].
  destruct data; try discriminate.
  intro H. inversion H. unfold grows. simpl.
  repeat split; try apply prefix_refl. apply prefix_app.
Qed.

Lemma grows_add_to_usage : forall usage_id a b w,
  grows w (PaymentService.add_to_usage usage_id a b w).
Proof.
  intros. unfold grows, PaymentService.add_to_usage. simpl.
  repeat split; try apply prefix_refl.
  rewrite map_map. exists []. rewrite app_nil_r. apply map_ext.
  intro u. destruct (Nat.eqb (Usage.id u) usage_id); reflexivity.
Qed.

Lemma prefix_insert_ignore : forall p plans,
  is_prefix plans (DatabaseManager.insert_ignore p plans).
Proof.
  intros p plans. unfold DatabaseManager.insert_ignore.
  destruct (existsb _ plans); [apply prefix_refl | apply prefix_app].
Qed.

Lemma grows_init_tables : forall w, grows w (fst (DatabaseManager.init_tables w)).
Proof.
  intro w. unfold grows, DatabaseManager.init_tables. simpl.
  repeat split; try apply prefix_refl.
  eapply prefix_trans; apply prefix_insert_ignore.
Qed.

Ltac grow :=
  repeat first
    [ apply grows_refl
    | exact I
    | assumption
    | match goal with
      | |- grows ?a (set_invoices ?m (subscription_invoices ?m ++ _)) =>
          apply (grows_trans a m); [| apply grows_insert_invoice]
      | |- grows ?a (set_subscriptions ?m (user_subscriptions ?m ++ _)) =>
          apply (grows_trans a m); [| apply grows_insert_subscription]
      | |- grows ?a (set_usage ?m (resource_usage ?m ++ _)) =>
          apply (grows_trans a m); [| apply grows_insert_usage]
      | |- grows ?a (fst (PaymentService._create_resource_usage_record ?m _ _ _ _ _)) =>
          apply (grows_trans a m); [| apply grows_usage_record]
      | |- grows ?a (PaymentService.update_where _ _ ?m) =>
          apply (grows_trans a m);
          [| apply grows_update_where; intro; reflexivity]
      | |- grows ?a (PaymentService.add_to_usage _ _ _ ?m) =>
          apply (grows_trans a m); [| apply grows_add_to_usage]
      | H : DatabaseManager.log_event ?m _ _ _ _ _ _ = Some ?w' |- grows ?a ?w' =>
          apply (grows_trans a m); [| exact (grows_log_event _ _ _ _ _ _ _ _ H)]
      end ].

Section Frames.

Variable isoformat : datetime -> string.
Variable fromtimestamp : Z -> res datetime.
Variable int_of_str : string -> option Z.
Variable date_add_month : datetime -> Z -> option datetime.

Ltac reduce :=
  cbv beta iota zeta delta [outcome_grows PaymentService.local bind PaymentService.try_res];
  cbn [fst snd].

Ltac read_outcomes :=
  repeat match goal with
         | H : Ok _ = Ok _ |- _ => inversion H; clear H; subst
         | H : Raise _ = Ok _ |- _ => discriminate H
         | H : Ok _ = Raise _ |- _ => discriminate H
         | H : (_, _) = (_, _) |- _ => inversion H; clear H; subst
         end.

Lemma grows_create_subscription : forall self w user_id plan_id app_id now new_id,
  outcome_grows w (PaymentService.create_subscription date_add_month self w
                     user_id plan_id app_id now new_id).
Proof.
  intros. unfold PaymentService.create_subscription, bind, PaymentService.local.
  break_goal; read_outcomes; reduce; grow.
Qed.

Lemma grows_except : forall w o,
  outcome_grows w o -> outcome_grows w (PaymentService.except_Exception o).
Proof. intros w [w' r | w' e |]; simpl; auto. Qed.

Lemma grows_authenticated : forall w payload,
  outcome_grows w (PaymentService._handle_razorpay_subscription_authenticated w payload).
Proof.
  intros. unfold PaymentService._handle_razorpay_subscription_authenticated.
  apply grows_except. unfold PaymentService.try_res.
  break_goal; reduce; grow.
Qed.

Lemma grows_activated : forall w payload now,
  outcome_grows w (PaymentService._handle_razorpay_subscription_activated
                     isoformat fromtimestamp int_of_str w payload now).
Proof.
  intros. unfold PaymentService._handle_razorpay_subscription_activated.
  apply grows_except. unfold PaymentService.try_res.
  break_goal; reduce; grow.
Qed.

Lemma grows_charged : forall w payload now new_invoice_id,
  outcome_grows w (PaymentService._handle_razorpay_subscription_charged
                     isoformat w payload now new_invoice_id).
Proof.
  intros. unfold PaymentService._handle_razorpay_subscription_charged.
  apply grows_except. unfold PaymentService.try_res.
  break_goal; reduce; grow.
Qed.

Lemma grows_mark_handler : forall status message w payload,
  outcome_grows w (PaymentService.mark_handler status message w payload).
Proof.
  intros. unfold PaymentService.mark_handler, PaymentService.try_res.
  destruct (PaymentService.subscription_entity payload) as [[data rid] | e];
    [| simpl; apply grows_refl].
  destruct (negb (py_truthy rid)); [simpl; apply grows_refl |].
  apply grows_except. break_goal; reduce; grow.
Qed.

Lemma grows_route_event : forall w provider event_type payload now new_invoice_id,
  outcome_grows w (PaymentService.route_event isoformat fromtimestamp int_of_str
                     w provider event_type payload now new_invoice_id).
Proof.
  intros. unfold PaymentService.route_event.
  repeat match goal with
         | |- context [if ?b then _ else _] => destruct b
         end;
    first [ apply grows_authenticated | apply grows_activated | apply grows_charged
          | apply grows_mark_handler | simpl; apply grows_refl ].
Qed.

Lemma grows_handle_webhook : forall w payload provider now new_invoice_id,
  outcome_grows w (PaymentService.handle_webhook isoformat fromtimestamp int_of_str
                     w payload provider now new_invoice_id).
Proof.
  intros. unfold PaymentService.handle_webhook.
  apply grows_except. unfold PaymentService.try_res.
  destruct (py_get payload "event" JNull) as [event | e]; [| simpl; apply grows_refl].
  destruct (negb (py_truthy event)); [simpl; apply grows_refl |].
  destruct event; try exact I.
  destruct (PaymentService.webhook_ids provider payload) as [[entity_id user_id] | e];
    [| simpl; apply grows_refl].
  destruct (DatabaseManager.log_event w s entity_id user_id payload provider false)
    as [w1 |] eqn:L1; [| exact I].
  pose proof (grows_route_event w1 provider s payload now new_invoice_id) as R.
  destruct (PaymentService.route_event isoformat fromtimestamp int_of_str
              w1 provider s payload now new_invoice_id) as [w2 result | w2 e |];
    simpl in *; try exact I.
  - destruct (DatabaseManager.log_event w2 _ entity_id user_id result provider true)
      as [w3 |] eqn:L2; [| exact I].
    simpl. apply grows_trans with w2; [| eapply grows_log_event; eassumption].
    apply grows_trans with w1; [eapply grows_log_event; eassumption | exact R].
  - apply grows_trans with w1; [eapply grows_log_event; eassumption | exact R].
Qed.

Lemma grows_cancel_subscription : forall self w user_id subscription_id now,
  outcome_grows w (PaymentService.cancel_subscription isoformat self w
                     user_id subscription_id now).
Proof.
  intros. unfold PaymentService.cancel_subscription.
  destruct (find _ (user_subscriptions w)); reduce; grow.
Qed.

Lemma grows_activate_subscription : forall w user_id subscription_id payment_id now inv,
  outcome_grows w (PaymentService.activate_subscription w user_id subscription_id
                     payment_id now inv).
Proof.
  intros. unfold PaymentService.activate_subscription.
  apply grows_except. unfold PaymentService.try_res.
  cbv zeta. destruct (text_truthy payment_id); break_goal; reduce; grow.
Qed.

Lemma grows_create_paypal_subscription :
  forall w user_id plan_id paypal_subscription_id app_id now new_id,
  grows w (fst (PaymentService.create_paypal_subscription w user_id plan_id
                  paypal_subscription_id app_id now new_id)).
Proof.
  intros. unfold PaymentService.create_paypal_subscription, bind.
  break_goal; read_outcomes; reduce; grow.
Qed.

Lemma grows_get_user_subscription : forall self w user_id app_id now new_id,
  outcome_grows w (PaymentService.get_user_subscription date_add_month self w
                     user_id app_id now new_id).
Proof.
  intros. unfold PaymentService.get_user_subscription.
  destruct (PaymentService.latest_joined w (PaymentService.active_for user_id app_id))
    as [[s p] |]; [simpl; apply grows_refl |].
  destruct (PaymentService.latest_joined w (PaymentService.created_for user_id app_id))
    as [[s p] |]; [simpl; apply grows_refl |].
  pose proof (grows_create_subscription self w user_id ("plan_free_" ++ app_id) app_id
                now new_id) as C.
  destruct (PaymentService.create_subscription date_add_month self w user_id
              ("plan_free_" ++ app_id) app_id now new_id); exact C.
Qed.

Lemma grows_increment_resource_usage : forall w user_id app_id resource_type count now w' r,
  PaymentService.increment_resource_usage w user_id app_id resource_type count now
    = Some (w', r) ->
  grows w w'.
Proof.
  intros until r. unfold PaymentService.increment_resource_usage.
  intro H. break_hyp H; inversion H; subst; grow.
Qed.

Lemma grows_perform : forall w c w',
  perform isoformat fromtimestamp int_of_str date_add_month w c = Some w' -> grows w w'.
Proof.
  intros w c w'. destruct c; simpl.
  - intro H. inversion H. apply grows_init_tables.
  - pose proof (grows_create_subscription self w user_id plan_id app_id now new_id) as G.
    destruct (PaymentService.create_subscription _ _ _ _ _ _ _ _);
      simpl in *; intro H; inversion H; subst; exact G.
  - intro H. inversion H. apply grows_create_paypal_subscription.
  - pose proof (grows_get_user_subscription self w user_id app_id now new_id) as G.
    destruct (PaymentService.get_user_subscription _ _ _ _ _ _ _);
      simpl in *; intro H; inversion H; subst; exact G.
  - pose proof (grows_handle_webhook w payload provider now new_invoice_id) as G.
    destruct (PaymentService.handle_webhook _ _ _ _ _ _ _ _);
      simpl in *; intro H; inversion H; subst; exact G.
  - pose proof (grows_cancel_subscription self w user_id subscription_id now) as G.
    destruct (PaymentService.cancel_subscription _ _ _ _ _ _);
      simpl in *; intro H; inversion H; subst; exact G.
  - pose proof (grows_activate_subscription w user_id subscription_id payment_id now
                  new_invoice_id) as G.
    destruct (PaymentService.activate_subscription _ _ _ _ _ _);
      simpl in *; intro H; inversion H; subst; exact G.
  - destruct (PaymentService.increment_resource_usage w user_id app_id resource_type
                count now) as [[w1 r] |] eqn:E; simpl; intro H; inversion H; subst.
    eapply grows_increment_resource_usage; eassumption.
Qed.

(** A call that names a counter is inside the model. *)
Lemma counter_increment_is_modelled : forall w user_id app_id resource_type count now,
  names_counter (IncrementResourceUsage user_id app_id resource_type count now) = true ->
  exists w' r,
    PaymentService.increment_resource_usage w user_id app_id resource_type count now
    = Some (w', r).
Proof.
  intros w user_id app_id resource_type count now Hnamed. cbn [names_counter] in Hnamed.
  unfold PaymentService.increment_resource_usage.
  destruct (String.eqb resource_type "document_pages");
    [| cbn [orb] in Hnamed; rewrite Hnamed];
    break_goal; eexists; eexists; reflexivity.
Qed.

(** X4: no call of the service deletes or re-keys a row, as long as every
    [increment_resource_usage] names one of the two counters (the text of its
    UPDATE is built from that argument).  After any sequence of such calls
    that stays inside the model the users are the same; the plans, the
    invoices and the events that were there are still there, unchanged and in
    place; and so are the subscriptions, as far as their id, user, app and
    Razorpay id go, and the usage rows, as far as their id, user,
    subscription, app and billing period go. *)
Theorem service_calls_keep_rows : forall calls w w',
  forallb names_counter calls = true ->
  perform_all isoformat fromtimestamp int_of_str date_add_month w calls = Some w' ->
  grows w w'.
Proof.
  induction calls as [| c rest IH]; intros w w' Hnamed; simpl.
  - intro H. inversion H. apply grows_refl.
  - simpl in Hnamed. apply andb_true_iff in Hnamed. destruct Hnamed as [_ Hrest].
    destruct (perform isoformat fromtimestamp int_of_str date_add_month w c)
      as [w1 |] eqn:E; [| discriminate].
    intro H. apply grows_trans with w1; [eapply grows_perform; eassumption | auto].
Qed.

End Frames.

Lemma service_calls_keep_rows_witness :
  exists w',
    perform_all Sample.isoformat Sample.fromtimestamp Sample.int_of_str
      Sample.date_add_month Sample.fresh_world Sample.busy_day = Some w'
    /\ grows Sample.fresh_world w'.
Proof.
  eexists. split; [vm_compute; reflexivity |].
  apply (service_calls_keep_rows Sample.isoformat Sample.fromtimestamp Sample.int_of_str
           Sample.date_add_month Sample.busy_day); vm_compute; reflexivity.
Defined.

(* ================================================================== *)
(** ** Further properties: webhooks *)


Lemma same_rows_refl : forall w, same_rows w w.
Proof. intro w. unfold same_rows. repeat split. Qed.

Lemma same_rows_trans : forall a b c, same_rows a b -> same_rows b c -> same_rows a c.
Proof.
  unfold same_rows. intros a b c [P1 [U1 [S1 [I1 G1]]]] [P2 [U2 [S2 [I2 G2]]]].
  repeat split; congruence.
Qed.

Lemma log_event_same_rows : forall w event_type entity_id user_id data provider processed w',
  DatabaseManager.log_event w event_type entity_id user_id data provider processed = Some w' ->
  same_rows w w'.
Proof.
  intros until w'. unfold DatabaseManager.log_event.
  destruct (sql_text entity_id); [| discriminate].
  destruct (sql_text user_id); [| discriminate].
  destruct data; try discriminate.
  intro H. inversion H. unfold same_rows. simpl. repeat split.
Qed.

Section Webhooks.

Variable isoformat : datetime -> string.
Variable fromtimestamp : Z -> res datetime.
Variable int_of_str : string -> option Z.

Lemma route_event_unhandled : forall w provider event_type payload now new_invoice_id,
  provider <> "razorpay" \/ ~ In event_type handled_events ->
  exists r, PaymentService.route_event isoformat fromtimestamp int_of_str
              w provider event_type payload now new_invoice_id = Returns w r.
Proof.
  intros w provider event_type payload now new_invoice_id H.
  unfold PaymentService.route_event.
  destruct (String.eqb_spec provider "razorpay") as [E | NE].
  - destruct H as [H | H]; [contradiction |].
    repeat match goal with
           | |- context [String.eqb event_type ?e] =>
               destruct (String.eqb_spec event_type e) as [-> | ?];
               [exfalso; apply H; simpl; tauto |]
           end.
    eexists. reflexivity.
  - destruct (String.eqb provider "paypal"); eexists; reflexivity.
Qed.

(** What [handle_webhook] leaves when the event is routed to no handler. *)
Lemma handle_webhook_unrouted :
  forall w payload provider now new_invoice_id w' r,
  PaymentService.handle_webhook isoformat fromtimestamp int_of_str
    w payload provider now new_invoice_id = Returns w' r ->
  (provider <> "razorpay"
   \/ forall event_type, py_get payload "event" JNull = Ok (JStr event_type) ->
                         ~ In event_type handled_events) ->
  same_rows w w'.
Proof.
  intros w payload provider now new_invoice_id w' r H U.
  unfold PaymentService.handle_webhook, PaymentService.try_res in H.
  destruct (py_get payload "event" JNull) as [event | e] eqn:Ev.
  2: { simpl in H. inversion H. apply same_rows_refl. }
  destruct (negb (py_truthy event)).
  { simpl in H. inversion H. apply same_rows_refl. }
  destruct event as [| | | event_type | |]; try discriminate.
  destruct (PaymentService.webhook_ids provider payload) as [[entity_id user_id] | e].
  2: { simpl in H. inversion H. apply same_rows_refl. }
  destruct (DatabaseManager.log_event w event_type entity_id user_id payload provider false)
    as [w1 |] eqn:L1; [| discriminate].
  destruct (route_event_unhandled w1 provider event_type payload now new_invoice_id)
    as [result R].
  { destruct U as [U | U]; [left; exact U | right; apply U; reflexivity]. }
  rewrite R in H.
  destruct (DatabaseManager.log_event w1 _ entity_id user_id result provider true)
    as [w2 |] eqn:L2; [| discriminate].
  simpl in H. inversion H; subst.
  eapply same_rows_trans; eapply log_event_same_rows; eassumption.
Qed.

(** X5: an event that is not routed to a handler changes no row.  Whatever
    [handle_webhook] returns for a provider other than Razorpay (PayPal
    included), or for a Razorpay event other than the five it handles, the
    plans, users, subscriptions, invoices and usage rows are those it found;
    the event log alone may have grown. *)
Theorem unhandled_event_changes_no_row :
  forall w payload provider now new_invoice_id w' r,
  PaymentService.handle_webhook isoformat fromtimestamp int_of_str
    w payload provider now new_invoice_id = Returns w' r ->
  (provider <> "razorpay"
   \/ forall event_type, py_get payload "event" JNull = Ok (JStr event_type) ->
                         ~ In event_type handled_events) ->
  same_rows w w'.
Proof. exact handle_webhook_unrouted. Qed.

(** X6: [subscription.authenticated] arriving late does not demote a
    subscription: every row that is active when the handler starts is in the
    table it leaves, in place and unchanged. *)
Theorem authenticated_keeps_active_rows : forall w payload,
  match PaymentService._handle_razorpay_subscription_authenticated w payload with
  | Returns w' _ =>
      Forall2 (fun s s' => Subscription.status s = "active" -> s' = s)
              (user_subscriptions w) (user_subscriptions w')
  | Raises _ _ => False
  | Outside => True
  end.
Proof.
  intros w payload.
  unfold PaymentService._handle_razorpay_subscription_authenticated,
    PaymentService.try_res.
  assert (Same : forall l : list Subscription.t,
             Forall2 (fun s s' => Subscription.status s = "active" -> s' = s) l l).
  { induction l; constructor; auto. }
  destruct (PaymentService.subscription_entity payload) as [[data rid] | e]; simpl.
  2: { apply Same. }
  destruct (negb (py_truthy rid)); simpl.
  { apply Same. }
  destruct (sql_text rid) as [id |]; simpl; [| exact I].
  unfold fetchone.
  destruct (PaymentService.carrying w id) as [| found [| second more]]; simpl;
    try apply Same.
  induction (user_subscriptions w) as [| s rest IH]; simpl; constructor; auto.
  intro A. destruct (PaymentService.has_razorpay_id id s); simpl; [| reflexivity].
  rewrite A. reflexivity.
Qed.

End Webhooks.

Lemma unhandled_event_changes_no_row_witness :
  exists w' r,
    PaymentService.handle_webhook Sample.isoformat Sample.fromtimestamp Sample.int_of_str
      Sample.subscribed_world (Sample.subscription_event "subscription.paused" "sub_R1")
      "razorpay" 0 "inv_1" = Returns w' r
    /\ same_rows Sample.subscribed_world w'.
Proof.
  eexists. eexists. split; [vm_compute; reflexivity |].
  eapply (unhandled_event_changes_no_row Sample.isoformat Sample.fromtimestamp
            Sample.int_of_str Sample.subscribed_world
            (Sample.subscription_event "subscription.paused" "sub_R1") "razorpay" 0 "inv_1").
  - vm_compute. reflexivity.
  - right. intros event_type E. vm_compute in E. inversion E. subst.
    simpl. intuition discriminate.
Defined.

(* ================================================================== *)
(** ** Further properties: cancellation and renewal *)


(* ================================================================== *)
(** ** Further properties: cancellation and renewal *)

Lemma filter_map_commute {A} (p : A -> bool) (g : A -> A) (l : list A) :
  (forall x, p (g x) = p x) -> filter p (map g l) = map g (filter p l).
Proof.
  intro Hp. induction l as [| a l IH]; simpl; [reflexivity |].
  rewrite Hp. destruct (p a); simpl; rewrite IH; reflexivity.
Qed.

Section Cancellation.

Variable isoformat : datetime -> string.



End Cancellation.


Section Creation.

Variable date_add_month : datetime -> Z -> option datetime.

(** X8: a creation that fails leaves the tables as they were.  Whenever
    [create_subscription] raises anything but the UnboundLocalError of the
    free-plan path (an unknown plan or user, an unsupported gateway, a provider
    that refuses or raises), no table has changed. *)
Theorem failed_creation_changes_nothing :
  forall self w user_id plan_id app_id now new_id w' e,
    PaymentService.create_subscription date_add_month self w user_id plan_id app_id
      now new_id = Raises w' e ->
    (forall name, e <> UnboundLocalError name) ->
    w' = w.
Proof.
  intros self w user_id plan_id app_id now new_id w' e H NotUnbound.
  unfold PaymentService.create_subscription in H.
  destruct (PaymentService.find_plan w plan_id) as [plan |];
    [| inversion H; reflexivity].
  unfold fetchone in H.
  destruct (filter (PaymentService.active_for user_id app_id) (user_subscriptions w))
    as [| existing [| second more]]; cbn [hd_error] in H;
    (destruct (Plan.amount plan =? 0);
     [| break_hyp H; try discriminate; inversion H; reflexivity]).
  - destruct (helpers.calculate_period_end now (Plan.interval plan)
                (Plan.interval_count plan));
      simpl in H; [discriminate | inversion H; reflexivity].
  - destruct (negb (String.eqb (Subscription.plan_id existing) plan_id));
      simpl in H; inversion H; subst; exfalso; eapply NotUnbound; reflexivity.
  - inversion H; reflexivity.
Qed.

(** X9: a paid subscription is created only through an initialised Razorpay
    provider.  With the providers of the package, whenever
    [create_subscription] returns, either the plan is free, or its first
    gateway is Razorpay and the Razorpay client is in place; a plan whose
    first gateway is PayPal never gets a subscription. *)
Theorem paid_creation_needs_razorpay :
  forall razorpay paypal w user_id plan_id app_id now new_id w' r plan,
    PaymentService.create_subscription date_add_month
      (PaymentService.new razorpay paypal) w user_id plan_id app_id now new_id
    = Returns w' r ->
    PaymentService.find_plan w plan_id = Some plan ->
    Plan.amount plan = 0
    \/ (PaymentService.first_gateway
          (parse_json_field (Plan.payment_gateways plan) (JArr [JStr "razorpay"]))
        = Ok (JStr "razorpay")
        /\ exists client, RazorpayProvider.usable razorpay = Some client).
Proof.
  intros razorpay paypal w user_id plan_id app_id now new_id w' r plan H Hplan.
  unfold PaymentService.create_subscription in H. rewrite Hplan in H.
  destruct (Plan.amount plan =? 0) eqn:Free; [left; apply Z.eqb_eq; exact Free | right].
  destruct (fetchone (filter (PaymentService.active_for user_id app_id)
                        (user_subscriptions w))) as [existing unread].
  destruct unread; [discriminate |].
  destruct (fetchone (filter _ (users w))) as [[user |] unread_users]; [| discriminate].
  destruct (PaymentService.first_gateway _) as [[| | | gateway | |] | e];
    try discriminate.
  destruct (String.eqb gateway "razorpay") eqn:G.
  - apply String.eqb_eq in G. subst gateway. split; [reflexivity |].
    destruct (RazorpayProvider.usable razorpay) as [client |] eqn:U;
      [eexists; reflexivity | exfalso].
    cbn [PaymentService.new PaymentService.razorpay_create_subscription] in H.
    unfold RazorpayProvider.create_subscription in H. rewrite U in H.
    simpl in H. discriminate.
  - exfalso.
    cbn [PaymentService.new PaymentService.paypal_create_subscription] in H.
    unfold PayPalProvider.create_subscription in H.
    destruct (String.eqb gateway "paypal"); [| discriminate].
    destruct (Plan.paypal_plan_id plan) as [gateway_plan_id |]; [| discriminate].
    destruct (String.eqb gateway_plan_id ""); [discriminate |].
    destruct (negb (PayPalProvider.initialized paypal)); simpl in H; discriminate.
Qed.

End Creation.

Lemma failed_creation_changes_nothing_witness :
  PaymentService.create_subscription Sample.date_add_month Sample.failing_service
    Sample.fresh_world "u1" "plan_pro" "marketfit" 0 "sub_1"
  = Raises Sample.fresh_world (RuntimeError "connection refused")
  /\ Sample.fresh_world = Sample.fresh_world.
Proof.
  split; [vm_compute; reflexivity |].
  apply (failed_creation_changes_nothing Sample.date_add_month Sample.failing_service
           Sample.fresh_world "u1" "plan_pro" "marketfit" 0 "sub_1" Sample.fresh_world
           (RuntimeError "connection refused")).
  - vm_compute. reflexivity.
  - intros name E. discriminate E.
Defined.

Lemma paid_creation_needs_razorpay_witness :
  Plan.amount Sample.pro_plan = 0
  \/ (PaymentService.first_gateway
        (parse_json_field (Plan.payment_gateways Sample.pro_plan) (JArr [JStr "razorpay"]))
      = Ok (JStr "razorpay")
      /\ exists client, RazorpayProvider.usable Sample.live_razorpay = Some client).
Proof.
  eapply (paid_creation_needs_razorpay Sample.date_add_month Sample.live_razorpay
            (PayPalProvider.mk false) Sample.fresh_world "u1" "plan_pro" "marketfit"
            0 "sub_paid").
  - vm_compute. reflexivity.
  - reflexivity.
Defined.

(* ================================================================== *)
(** ** Further properties: looking a subscription up *)

Section Lookup.

Variable date_add_month : datetime -> Z -> option datetime.

(** What a creation that returns has done to the tables. *)
Lemma create_subscription_returns :
  forall self w user_id plan_id app_id now new_id w' d,
    PaymentService.create_subscription date_add_month self w user_id plan_id app_id
      now new_id = Returns w' d ->
    exists plan row,
      PaymentService.find_plan w plan_id = Some plan
      /\ subscription_plans w' = subscription_plans w
      /\ user_subscriptions w' = (user_subscriptions w ++ [row])%list
      /\ Subscription.id row = new_id
      /\ Subscription.user_id row = user_id
      /\ Subscription.plan_id row = plan_id
      /\ Subscription.app_id row = Some app_id
      /\ (Subscription.status row = "active" \/ Subscription.status row = "created").
Proof.
  intros self w user_id plan_id app_id now new_id w' d H.
  unfold PaymentService.create_subscription in H.
  destruct (PaymentService.find_plan w plan_id) as [plan |]; [| discriminate].
  exists plan.
  unfold fetchone in H.
  destruct (filter (PaymentService.active_for user_id app_id) (user_subscriptions w))
    as [| existing [| second more]]; cbn [hd_error] in H;
    (destruct (Plan.amount plan =? 0);
     [| break_hyp H; try discriminate; inversion H; subst;
        match goal with
        | L : DatabaseManager.log_event _ _ _ _ _ _ _ = Some _ |- _ =>
            unfold DatabaseManager.log_event in L; break_hyp L; try discriminate;
            inversion L; subst
        end;
        eexists; simpl; (repeat split; try reflexivity); right; reflexivity]).
  - destruct (helpers.calculate_period_end now (Plan.interval plan)
                (Plan.interval_count plan));
      simpl in H; [| discriminate].
    inversion H; subst. eexists. simpl.
    repeat split; try reflexivity. left. reflexivity.
  - destruct (negb (String.eqb (Subscription.plan_id existing) plan_id));
      simpl in H; discriminate.
  - discriminate.
Qed.

Lemma joined_after_insert : forall w w' sel row,
  subscription_plans w' = subscription_plans w ->
  user_subscriptions w' = (user_subscriptions w ++ [row])%list ->
  PaymentService.joined w' sel
  = (PaymentService.joined w sel
     ++ (if sel row
         then match PaymentService.find_plan w (Subscription.plan_id row) with
              | Some p => [(row, p)]
              | None => []
              end
         else []))%list.
Proof.
  intros w w' sel row P S. unfold PaymentService.joined, PaymentService.find_plan.
  rewrite P, S, filter_app, flat_map_app. f_equal.
  simpl. destruct (sel row); simpl; [rewrite app_nil_r |]; reflexivity.
Qed.

Lemma latest_of_snoc {A} (l : list A) (x : A) : hd_error (rev (l ++ [x])) = Some x.
Proof. rewrite rev_app_distr. reflexivity. Qed.

(** X10: the free plan is provisioned once.  When [get_user_subscription]
    finds no subscription and answers with the one it has just created (a
    dictionary), every later lookup for the same user and app, with the tables
    as that call left them, finds this subscription, joined with its plan, and
    changes nothing. *)
Theorem provisioned_subscription_is_found :
  forall self w user_id app_id now new_id w' d,
    PaymentService.get_user_subscription date_add_month self w user_id app_id now new_id
    = Returns w' (PaymentService.Dict d) ->
    forall self' later new_id',
    exists s p,
      PaymentService.get_user_subscription date_add_month self' w' user_id app_id
        later new_id'
      = Returns w' (PaymentService.Row s p)
      /\ Subscription.id s = new_id
      /\ Subscription.plan_id s = "plan_free_" ++ app_id
      /\ Plan.id p = "plan_free_" ++ app_id.
Proof.
  intros self w user_id app_id now new_id w' d H self' later new_id'.
  unfold PaymentService.get_user_subscription in H.
  destruct (PaymentService.latest_joined w (PaymentService.active_for user_id app_id))
    as [[s0 p0] |] eqn:LA; [discriminate |].
  destruct (PaymentService.latest_joined w (PaymentService.created_for user_id app_id))
    as [[s0 p0] |] eqn:LC; [discriminate |].
  destruct (PaymentService.create_subscription date_add_month self w user_id
              ("plan_free_" ++ app_id) app_id now new_id) as [w1 d1 | |] eqn:C;
    try discriminate.
  inversion H; subst w1 d1. clear H.
  destruct (create_subscription_returns _ _ _ _ _ _ _ _ _ C)
    as [plan [row [Hplan [P [S [Hid [Huser [Hpid [Happ Hstatus]]]]]]]]].
  assert (PlanId : Plan.id plan = "plan_free_" ++ app_id).
  { unfold PaymentService.find_plan in Hplan. apply find_some in Hplan.
    apply String.eqb_eq. apply Hplan. }
  exists row, plan.
  unfold PaymentService.get_user_subscription, PaymentService.latest_joined.
  unfold PaymentService.latest_joined in LA, LC.
  rewrite (joined_after_insert w w' _ row P S).
  rewrite (joined_after_insert w w' (PaymentService.created_for user_id app_id) row P S).
  rewrite Hpid, Hplan.
  assert (Act : PaymentService.active_for user_id app_id row
                = String.eqb (Subscription.status row) "active").
  { unfold PaymentService.active_for. rewrite Huser, Happ. simpl.
    rewrite !String.eqb_refl. reflexivity. }
  assert (Cre : PaymentService.created_for user_id app_id row
                = String.eqb (Subscription.status row) "created").
  { unfold PaymentService.created_for. rewrite Huser, Happ. simpl.
    rewrite !String.eqb_refl. reflexivity. }
  rewrite Act, Cre.
  destruct Hstatus as [St | St]; rewrite St; simpl String.eqb; cbv iota.
  - rewrite latest_of_snoc. auto.
  - rewrite app_nil_r, LA, latest_of_snoc. auto.
Qed.

End Lookup.

Lemma provisioned_subscription_is_found_witness :
  exists s p,
    PaymentService.get_user_subscription Sample.date_add_month Sample.failing_service
      (set_usage
         (set_subscriptions Sample.fresh_world
            [Subscription.mk "sub_free" "u1" "plan_free_marketfit" None None "active"
               (Some 0) (Some (timedelta_days 30)) (Some "marketfit") None])
         [Usage.mk 1 "u1" "sub_free" "marketfit" 0 (timedelta_days 30) 0 0])
      "u1" "marketfit" 5000 "sub_other"
    = Returns
        (set_usage
           (set_subscriptions Sample.fresh_world
              [Subscription.mk "sub_free" "u1" "plan_free_marketfit" None None "active"
                 (Some 0) (Some (timedelta_days 30)) (Some "marketfit") None])
           [Usage.mk 1 "u1" "sub_free" "marketfit" 0 (timedelta_days 30) 0 0])
        (PaymentService.Row s p)
    /\ Subscription.id s = "sub_free"
    /\ Subscription.plan_id s = "plan_free_" ++ "marketfit"
    /\ Plan.id p = "plan_free_" ++ "marketfit".
Proof.
  eapply (provisioned_subscription_is_found Sample.date_add_month Sample.answering_service
            Sample.fresh_world "u1" "marketfit" 0 "sub_free" _ _).
  vm_compute. reflexivity.
Defined.

(* ================================================================== *)
(** ** Further properties: metering *)


(** The usage row [get_resource_usage] reads, if any. *)
Lemma get_resource_usage_reads : forall w user_id app_id now subscription,
  PaymentService.order_desc_first Subscription.current_period_end
    (filter (PaymentService.active_for user_id app_id) (user_subscriptions w))
  = Some subscription ->
  PaymentService.get_resource_usage w user_id app_id now
  = match PaymentService.order_desc_first (fun u => Some (Usage.billing_period_start u))
            (filter (PaymentService.current_usage_of user_id (Subscription.id subscription)
                       app_id now) (resource_usage w)) with
    | Some u => PaymentService.usage_result (Usage.document_pages_count u)
                  (Usage.perplexity_requests_count u)
    | None => PaymentService.usage_result 0 0
    end.
Proof.
  intros w user_id app_id now subscription H.
  unfold PaymentService.get_resource_usage. rewrite H. reflexivity.
Qed.

Lemma current_after_add : forall usage_id a b w user_id subscription_id app_id now,
  filter (PaymentService.current_usage_of user_id subscription_id app_id now)
         (resource_usage (PaymentService.add_to_usage usage_id a b w))
  = map (fun u => if Nat.eqb (Usage.id u) usage_id
                  then Usage.mk (Usage.id u) (Usage.user_id u) (Usage.subscription_id u)
                         (Usage.app_id u) (Usage.billing_period_start u)
                         (Usage.billing_period_end u)
                         (Usage.document_pages_count u + a)
                         (Usage.perplexity_requests_count u + b)
                  else u)
        (filter (PaymentService.current_usage_of user_id subscription_id app_id now)
                (resource_usage w)).
Proof.
  intros. unfold PaymentService.add_to_usage. cbn [resource_usage set_usage].
  apply filter_map_commute. intro u.
  destruct (Nat.eqb (Usage.id u) usage_id); reflexivity.
Qed.

(** X11: usage that is added is read back.  When the latest active
    subscription of the user has exactly one usage row current at [now], and
    the counter raised by [count] still fits its INT column,
    [increment_resource_usage] succeeds, and [get_resource_usage] then reports
    the counter of that row raised by [count], the other counter as it was. *)
Theorem increment_is_read_back :
  forall w user_id app_id resource_type count now subscription u,
    PaymentService.order_desc_first Subscription.current_period_end
      (filter (PaymentService.active_for user_id app_id) (user_subscriptions w))
    = Some subscription ->
    filter (PaymentService.current_usage_of user_id (Subscription.id subscription)
              app_id now) (resource_usage w) = [u] ->
    resource_type = "document_pages" \/ resource_type = "perplexity_requests" ->
    fits_int ((if String.eqb resource_type "document_pages"
               then Usage.document_pages_count u
               else Usage.perplexity_requests_count u) + count) = true ->
    exists w',
      PaymentService.increment_resource_usage w user_id app_id resource_type count now
      = Some (w', true)
      /\ PaymentService.get_resource_usage w' user_id app_id now
         = if String.eqb resource_type "document_pages"
           then PaymentService.usage_result (Usage.document_pages_count u + count)
                  (Usage.perplexity_requests_count u)
           else PaymentService.usage_result (Usage.document_pages_count u)
                  (Usage.perplexity_requests_count u + count).
Proof.
  intros w user_id app_id resource_type count now subscription u Hsub Hone Htype _.
  unfold PaymentService.increment_resource_usage.
  rewrite Hsub, Hone, fetchone_single.
  destruct Htype as [-> | ->]; cbn [String.eqb Ascii.eqb Bool.eqb];
    eexists; (split; [reflexivity |]);
    rewrite (get_resource_usage_reads _ _ _ _ subscription) by exact Hsub;
    rewrite current_after_add, Hone; simpl;
    rewrite Nat.eqb_refl; simpl; rewrite ?Z.add_0_r; reflexivity.
Qed.


Section EarlyRenewal.

Variable isoformat : datetime -> string.


End EarlyRenewal.

(** X13: the first use in a period opens its usage row.  When the latest
    active subscription has no usage row current at [now], [count] fits the
    INT column of the counter and [now] lies in the subscription's own period,
    [increment_resource_usage] succeeds and [get_resource_usage] then reports
    [count] for the resource and 0 for the other one.  When [now] lies outside
    the period the row it inserts is not current, and [get_resource_usage]
    reports 0 and 0. *)
Theorem first_use_opens_usage_row :
  forall w user_id app_id resource_type count now subscription period_start period_end,
    PaymentService.order_desc_first Subscription.current_period_end
      (filter (PaymentService.active_for user_id app_id) (user_subscriptions w))
    = Some subscription ->
    filter (PaymentService.current_usage_of user_id (Subscription.id subscription)
              app_id now) (resource_usage w) = [] ->
    Subscription.current_period_start subscription = Some period_start ->
    Subscription.current_period_end subscription = Some period_end ->
    resource_type = "document_pages" \/ resource_type = "perplexity_requests" ->
    fits_int count = true ->
    exists w',
      PaymentService.increment_resource_usage w user_id app_id resource_type count now
      = Some (w', true)
      /\ PaymentService.get_resource_usage w' user_id app_id now
         = if (period_start <=? now) && (now <=? period_end)
           then if String.eqb resource_type "document_pages"
                then PaymentService.usage_result count 0
                else PaymentService.usage_result 0 count
           else PaymentService.usage_result 0 0.
Proof.
  intros w user_id app_id resource_type count now subscription period_start period_end
         Hsub Empty Hstart Hend Htype _.
  unfold PaymentService.increment_resource_usage.
  rewrite Hsub, Empty, Hstart, Hend. unfold fetchone. cbn [hd_error].
  destruct Htype as [-> | ->]; cbn;
    eexists; (split; [reflexivity |]);
    rewrite (get_resource_usage_reads _ _ _ _ subscription) by exact Hsub;
    cbn [resource_usage set_usage]; rewrite filter_app, Empty; cbn [app filter];
    unfold PaymentService.current_usage_of; cbn [Usage.user_id Usage.subscription_id
      Usage.app_id Usage.billing_period_start Usage.billing_period_end];
    rewrite !String.eqb_refl; cbn [andb];
    destruct ((period_start <=? now) && (now <=? period_end)); reflexivity.
Qed.

Lemma increment_is_read_back_witness :
  exists w',
    PaymentService.increment_resource_usage Sample.metered_world "u1" "marketfit"
      "document_pages" 5 5000 = Some (w', true)
    /\ PaymentService.get_resource_usage w' "u1" "marketfit" 5000
       = if String.eqb "document_pages" "document_pages"
         then PaymentService.usage_result (7 + 5) 3
         else PaymentService.usage_result 7 (3 + 5).
Proof.
  apply (increment_is_read_back Sample.metered_world "u1" "marketfit" "document_pages"
           5 5000 Sample.paid_subscription
           (Usage.mk 1 "u1" "sub_1" "marketfit" 0 (timedelta_days 30) 7 3)).
  - vm_compute. reflexivity.
  - vm_compute. reflexivity.
  - left. reflexivity.
  - reflexivity.
Defined.


Lemma first_use_opens_usage_row_witness :
  exists w',
    PaymentService.increment_resource_usage Sample.subscribed_world "u1" "marketfit"
      "perplexity_requests" 2 5000 = Some (w', true)
    /\ PaymentService.get_resource_usage w' "u1" "marketfit" 5000
       = if (0 <=? 5000) && (5000 <=? timedelta_days 30)
         then if String.eqb "perplexity_requests" "document_pages"
              then PaymentService.usage_result 2 0
              else PaymentService.usage_result 0 2
         else PaymentService.usage_result 0 0.
Proof.
  apply (first_use_opens_usage_row Sample.subscribed_world "u1" "marketfit"
           "perplexity_requests" 2 5000 Sample.paid_subscription 0 (timedelta_days 30)).
  - vm_compute. reflexivity.
  - reflexivity.
  - reflexivity.
  - reflexivity.
  - right. reflexivity.
  - reflexivity.
Defined.

(* ================================================================== *)
(** ** Further properties: PayPal subscriptions *)


Lemma same_id_same_row : forall (l : list Subscription.t) x y,
  NoDup (map Subscription.id l) -> In x l -> In y l ->
  Subscription.id x = Subscription.id y -> x = y.
Proof.
  induction l as [| a l IH]; intros x y N Hx Hy E; [contradiction |].
  simpl in N. inversion N as [| ? ? Hnotin N']; subst.
  destruct Hx as [-> | Hx], Hy as [-> | Hy].
  - reflexivity.
  - exfalso. apply Hnotin. rewrite E. apply in_map. exact Hy.
  - exfalso. apply Hnotin. rewrite <- E. apply in_map. exact Hx.
  - apply IH; assumption.
Qed.

Lemma insert_keeps_one_active : forall w r,
  at_most_one_active w ->
  (forall user_id app_id,
     PaymentService.active_for user_id app_id r = true ->
     filter (PaymentService.active_for user_id app_id) (user_subscriptions w) = []) ->
  at_most_one_active (set_subscriptions w (user_subscriptions w ++ [r])).
Proof.
  intros w r Hinv Hr. apply (creation_write_keeps_one_active w); [| exact Hinv].
  right; right. exists r. split; [reflexivity | exact Hr].
Qed.

Lemma same_subscriptions_same_invariant : forall w w',
  user_subscriptions w' = user_subscriptions w ->
  at_most_one_active w -> at_most_one_active w'.
Proof.
  intros w w' E H user_id app_id. specialize (H user_id app_id).
  unfold active_count in *. rewrite E. exact H.
Qed.

(** X14: recording a PayPal subscription keeps a pair at one active row.  When
    subscription ids are unique and every (user, app) pair has at most one
    active subscription, the same holds after [create_paypal_subscription]:
    it rewrites the active row of the pair if there is one and inserts a row
    only if there is none. *)
Theorem paypal_subscription_keeps_one_active :
  forall w user_id plan_id paypal_subscription_id app_id now new_id,
    at_most_one_active w ->
    NoDup (map Subscription.id (user_subscriptions w)) ->
    at_most_one_active
      (fst (PaymentService.create_paypal_subscription w user_id plan_id
              paypal_subscription_id app_id now new_id)).
Proof.
  intros w user_id plan_id paypal_subscription_id app_id now new_id Hinv Hids.
  unfold PaymentService.create_paypal_subscription.
  destruct (find _ (subscription_plans w)) as [plan |]; [| exact Hinv].
  destruct (helpers.calculate_period_end now (Plan.interval plan)
              (Plan.interval_count plan)) as [period_end | e].
  2: { destruct (fetchone _) as [existing unread]. exact Hinv. }
  unfold fetchone.
  destruct (filter (PaymentService.active_for user_id app_id) (user_subscriptions w))
    as [| existing [| second more]] eqn:F; cbn [hd_error bind fst]; [| | exact Hinv].
  - eapply same_subscriptions_same_invariant;
      [apply usage_record_keeps_subscriptions |].
    apply insert_keeps_one_active; [exact Hinv |].
    intros u a Hr. unfold PaymentService.active_for in Hr. cbn in Hr.
    apply andb_prop in Hr. destruct Hr as [Hr _].
    apply andb_prop in Hr. destruct Hr as [Hu Ha].
    apply String.eqb_eq in Hu. apply String.eqb_eq in Ha. subst u a. exact F.
  - intros u a. specialize (Hinv u a).
    unfold active_count, PaymentService.update_where in *.
    cbn [user_subscriptions set_subscriptions]. rewrite filter_map_length.
    erewrite filter_ext_in; [exact Hinv |].
    intros s Hs. cbv beta.
    destruct (String.eqb_spec (Subscription.id s) (Subscription.id existing)) as [E | NE];
      [| reflexivity].
    assert (F' : In existing (filter (PaymentService.active_for user_id app_id)
                                     (user_subscriptions w))).
    { rewrite F. left. reflexivity. }
    apply filter_In in F'. destruct F' as [Hin Hactive].
    assert (s = existing) by (eapply same_id_same_row; eassumption). subst s.
    unfold PaymentService.active_for in *. cbn.
    apply andb_prop in Hactive. destruct Hactive as [_ Hstatus].
    apply String.eqb_eq in Hstatus. rewrite Hstatus. reflexivity.
Qed.

Lemma paypal_subscription_keeps_one_active_witness :
  at_most_one_active
    (fst (PaymentService.create_paypal_subscription Sample.subscribed_world "u1"
            "plan_year" "I-PAYPAL" "marketfit" 5000 "sub_pp")).
Proof.
  apply (paypal_subscription_keeps_one_active Sample.subscribed_world "u1" "plan_year"
           "I-PAYPAL" "marketfit" 5000 "sub_pp").
  - intros u a. unfold active_count. simpl.
    destruct (PaymentService.active_for u a Sample.paid_subscription); simpl; lia.
  - simpl. constructor; [simpl; tauto | constructor].
Defined.

(* ================================================================== *)
(** ** Further properties: the PayPal endpoint *)

Section PayPalEndpoint.

Variable isoformat : datetime -> string.
Variable fromtimestamp : Z -> res datetime.
Variable int_of_str : string -> option Z.

(** X15: the PayPal endpoint changes no row.  It lets no exception escape, its
    status code is 200, 400 or 500, and whatever the notification says, the
    plans, users, subscriptions, invoices and usage rows are left as they
    were: no PayPal event is acted upon. *)
Theorem paypal_webhook_changes_no_row :
  forall (w : world) (parsed : res json) (now : datetime) (new_invoice_id : string),
    match paypal_handler.handle_paypal_webhook isoformat fromtimestamp int_of_str
            w parsed now new_invoice_id with
    | Returns w' (body, code) =>
        (code = 200 \/ code = 400 \/ code = 500) /\ same_rows w w'
    | Raises _ _ => False
    | Outside => True
    end.
Proof.
  intros w parsed now new_invoice_id.
  unfold paypal_handler.handle_paypal_webhook.
  destruct parsed as [webhook_data | e]; [| simpl; auto using same_rows_refl].
  cbn [paypal_handler.verify_paypal_webhook_signature negb].
  destruct (py_get webhook_data "event_type" JNull) as [event_type | e];
    [| simpl; auto using same_rows_refl].
  destruct (negb (py_truthy event_type)); [simpl; auto using same_rows_refl |].
  destruct (PaymentService.handle_webhook isoformat fromtimestamp int_of_str
              w webhook_data "paypal" now new_invoice_id) as [w1 r | w1 e |] eqn:H.
  - destruct event_type; try exact I. split; [auto |].
    eapply handle_webhook_unrouted; [exact H | left; discriminate].
  - exfalso. eapply handle_webhook_never_raises; exact H.
  - exact I.
Qed.

(** X16: a notification in PayPal's own layout is acknowledged and not
    recorded.  The endpoint reads the event type under [event_type], the
    service under [event]; for a body that has the first and not the second,
    the answer is 200 with a success message around the service's
    ['Invalid webhook payload'] error, and nothing is written, not even to the
    event log. *)
Theorem paypal_notification_is_not_logged :
  forall (w : world) (members : list (string * json)) (event_type : string)
         (now : datetime) (new_invoice_id : string),
    lookup "event_type" members = Some (JStr event_type) ->
    event_type <> "" ->
    lookup "event" members = None ->
    paypal_handler.handle_paypal_webhook isoformat fromtimestamp int_of_str
      w (Ok (JObj members)) now new_invoice_id
    = Returns w
        (JObj [("status", JStr "success");
               ("message", JStr ("Processed " ++ event_type ++ " event"));
               ("result", PaymentService.error_result "Invalid webhook payload")],
         200).
Proof.
  intros w members event_type now new_invoice_id Htype Hnonempty Hevent.
  unfold paypal_handler.handle_paypal_webhook, PaymentService.handle_webhook,
    PaymentService.try_res.
  cbn [paypal_handler.verify_paypal_webhook_signature negb py_get].
  rewrite Htype, Hevent. cbn [py_truthy negb].
  destruct (String.eqb_spec event_type ""); [contradiction |]. reflexivity.
Qed.

End PayPalEndpoint.

Lemma paypal_notification_is_not_logged_witness :
  paypal_handler.handle_paypal_webhook Sample.isoformat Sample.fromtimestamp
    Sample.int_of_str Sample.subscribed_world (Ok Sample.paypal_notification) 0 "inv_1"
  = Returns Sample.subscribed_world
      (JObj [("status", JStr "success");
             ("message", JStr ("Processed " ++ "BILLING.SUBSCRIPTION.ACTIVATED" ++ " event"));
             ("result", PaymentService.error_result "Invalid webhook payload")],
       200).
Proof.
  apply (paypal_notification_is_not_logged Sample.isoformat Sample.fromtimestamp
           Sample.int_of_str Sample.subscribed_world
           [("id", JStr "WH-1"); ("event_type", JStr "BILLING.SUBSCRIPTION.ACTIVATED");
            ("resource", JObj [("id", JStr "I-PAYPAL")])]
           "BILLING.SUBSCRIPTION.ACTIVATED" 0 "inv_1").
  - reflexivity.
  - discriminate.
  - reflexivity.
Defined.

(* ================================================================== *)
(** ** Further properties: the routes *)

Section Routes.

Variable hmac_sha256_hexdigest : string -> string -> string.
Variable RAZORPAY_WEBHOOK_SECRET : string.

Lemma activate_subscription_never_raises :
  forall w user_id subscription_id payment_id now new_invoice_id w' e,
    PaymentService.activate_subscription w user_id subscription_id payment_id now
      new_invoice_id <> Raises w' e.
Proof.
  intros. unfold PaymentService.activate_subscription.
  intro H. eapply except_never_raises. exact H.
Qed.

(** X17: [/verify-payment] activates nothing without a valid signature.
    Whatever the route answers, either the tables are left as they were, or
    the answer is 200 and the body carried a payment id, a subscription id and
    a signature such that a secret is configured and the signature is the
    digest of ["<payment id>|<subscription id>"] under it. *)
Theorem verify_payment_needs_signature :
  forall w body now new_invoice_id w' answer code,
    routes.verify_payment hmac_sha256_hexdigest RAZORPAY_WEBHOOK_SECRET
      w body now new_invoice_id = Returns w' (answer, code) ->
    w' = w
    \/ (code = 200
        /\ exists data payment_id subscription_id signature,
             body = Ok data
             /\ py_get data "razorpay_payment_id" JNull = Ok (JStr payment_id)
             /\ py_get data "razorpay_subscription_id" JNull = Ok (JStr subscription_id)
             /\ py_get data "razorpay_signature" JNull = Ok (JStr signature)
             /\ RAZORPAY_WEBHOOK_SECRET <> ""
             /\ hmac_sha256_hexdigest RAZORPAY_WEBHOOK_SECRET
                  (payment_id ++ "|" ++ subscription_id) = signature).
Proof.
  intros w body now new_invoice_id w' answer code H.
  unfold routes.verify_payment in H.
  destruct body as [data | e]; [| simpl in H; inversion H; auto].
  cbn [bind] in H.
  destruct (py_get data "razorpay_payment_id" JNull) as [payment_id |] eqn:P;
    [| inversion H; auto].
  destruct (py_get data "razorpay_subscription_id" JNull) as [subscription_id |] eqn:S;
    [| inversion H; auto].
  destruct (py_get data "razorpay_signature" JNull) as [signature |] eqn:G;
    [| inversion H; auto].
  destruct (py_get data "user_id" JNull) as [user_id |] eqn:U;
    [| inversion H; auto].
  cbv beta iota delta [bind] in H.
  match type of H with
  | (if ?c then _ else _) = _ => destruct c; [inversion H; auto |]
  end.
  destruct payment_id as [| | | payment_id | |]; try discriminate.
  destruct subscription_id as [| | | subscription_id | |]; try discriminate.
  destruct signature as [| | | signature | |]; try discriminate.
  destruct user_id as [| | | user_id | |]; try discriminate.
  destruct (razorpay_handler.verify_razorpay_signature hmac_sha256_hexdigest
              RAZORPAY_WEBHOOK_SECRET (payment_id ++ "|" ++ subscription_id) signature)
    as [[|] | e] eqn:V; try (inversion H; auto; fail).
  unfold razorpay_handler.verify_razorpay_signature in V.
  destruct (String.eqb_spec RAZORPAY_WEBHOOK_SECRET "") as [E | NE]; [discriminate |].
  apply compare_digest_true in V. destruct V as [V _].
  destruct (PaymentService.activate_subscription w user_id subscription_id
              (Some payment_id) now new_invoice_id) eqn:A; try discriminate;
    [| exfalso; eapply activate_subscription_never_raises; exact A];
    inversion H; subst; right; (split; [reflexivity |]);
    exists data, payment_id, subscription_id; eexists; repeat split; eauto.
Qed.

End Routes.

Lemma verify_payment_needs_signature_witness :
  exists w',
    routes.verify_payment Sample.keyed_digest "whsec" Sample.subscribed_world
      (Ok Sample.signed_payment) 5000 "inv_1"
    = Returns w' (JObj [("result",
                         PaymentService.status_result "success" "Subscription activated")],
                  200)
    /\ (w' = Sample.subscribed_world
        \/ (200 = 200
            /\ exists data payment_id subscription_id signature,
                 Ok Sample.signed_payment = Ok data
                 /\ py_get data "razorpay_payment_id" JNull = Ok (JStr payment_id)
                 /\ py_get data "razorpay_subscription_id" JNull = Ok (JStr subscription_id)
                 /\ py_get data "razorpay_signature" JNull = Ok (JStr signature)
                 /\ "whsec" <> ""
                 /\ Sample.keyed_digest "whsec" (payment_id ++ "|" ++ subscription_id)
                    = signature)).
Proof.
  eexists. split; [vm_compute; reflexivity |].
  apply (verify_payment_needs_signature Sample.keyed_digest "whsec"
           Sample.subscribed_world (Ok Sample.signed_payment) 5000 "inv_1" _
           (JObj [("result",
                   PaymentService.status_result "success" "Subscription activated")])).
  vm_compute. reflexivity.
Defined.

(* ================================================================== *)
(** ** Further properties: the seeded plans, manual activation *)


Lemma insert_ignore_present : forall p plans,
  existsb (fun q => String.eqb (Plan.id q) (Plan.id p)) plans = true ->
  DatabaseManager.insert_ignore p plans = plans.
Proof. intros p plans H. unfold DatabaseManager.insert_ignore. rewrite H. reflexivity. Qed.

Lemma insert_ignore_has : forall p plans,
  existsb (fun q => String.eqb (Plan.id q) (Plan.id p))
          (DatabaseManager.insert_ignore p plans) = true.
Proof.
  intros p plans. unfold DatabaseManager.insert_ignore.
  destruct (existsb _ plans) eqn:E; [exact E |].
  rewrite existsb_app. simpl. rewrite String.eqb_refl. apply orb_true_r.
Qed.

Lemma insert_ignore_keeps : forall (f : Plan.t -> bool) p plans,
  existsb f plans = true -> existsb f (DatabaseManager.insert_ignore p plans) = true.
Proof.
  intros f p plans H. unfold DatabaseManager.insert_ignore.
  destruct (existsb (fun q => String.eqb (Plan.id q) (Plan.id p)) plans); [exact H |].
  rewrite existsb_app, H. reflexivity.
Qed.

Lemma existsb_find_plan : forall w plan_id,
  existsb (fun q => String.eqb (Plan.id q) plan_id) (subscription_plans w) = true ->
  PaymentService.find_plan w plan_id <> None.
Proof.
  intros w plan_id H. unfold PaymentService.find_plan.
  apply existsb_exists in H. destruct H as [q [Hin Hq]].
  destruct (find_some_of (fun p => String.eqb (Plan.id p) plan_id) _ q Hin Hq) as [y ->].
  discriminate.
Qed.

(** X18: [init_tables] can be run at every start.  After it has run, a plan
    with the id of each free plan is in the table (one that was there before
    is kept as it was), and running it again changes nothing. *)
Theorem init_tables_settles : forall w,
  fst (DatabaseManager.init_tables (fst (DatabaseManager.init_tables w)))
  = fst (DatabaseManager.init_tables w)
  /\ PaymentService.find_plan (fst (DatabaseManager.init_tables w)) "plan_free_marketfit"
     <> None
  /\ PaymentService.find_plan (fst (DatabaseManager.init_tables w)) "plan_free_saleswit"
     <> None.
Proof.
  intro w.
  pose proof (insert_ignore_has DatabaseManager.free_plan_marketfit (subscription_plans w))
    as M.
  apply (insert_ignore_keeps _ DatabaseManager.free_plan_saleswit) in M.
  pose proof (insert_ignore_has DatabaseManager.free_plan_saleswit
                (DatabaseManager.insert_ignore DatabaseManager.free_plan_marketfit
                   (subscription_plans w))) as S.
  split; [| split].
  - unfold DatabaseManager.init_tables. cbn [fst subscription_plans users
      user_subscriptions subscription_invoices subscription_events_log resource_usage].
    rewrite (insert_ignore_present DatabaseManager.free_plan_marketfit _ M).
    rewrite (insert_ignore_present DatabaseManager.free_plan_saleswit _ S).
    reflexivity.
  - apply existsb_find_plan. exact M.
  - apply existsb_find_plan. exact S.
Qed.


(* ================================================================== *)
(** ** Further properties: billing history *)

Lemma invoice_is_listed : forall w user_id app_id i s,
  In i (subscription_invoices w) ->
  Invoice.user_id i = user_id ->
  In s (user_subscriptions w) ->
  Subscription.id s = Invoice.subscription_id i ->
  Subscription.app_id s = Some app_id ->
  In i (PaymentService.get_billing_history w user_id app_id).
Proof.
  intros w user_id app_id i s Hi Hu Hs Hid Happ.
  unfold PaymentService.get_billing_history.
  apply in_rev. rewrite rev_involutive. apply in_flat_map. exists i. split.
  - apply filter_In. split; [exact Hi |]. rewrite Hu. apply String.eqb_refl.
  - apply in_map_iff. exists s. split; [reflexivity |].
    apply filter_In. split; [exact Hs |].
    rewrite Hid, Happ, String.eqb_refl. simpl. apply String.eqb_refl.
Qed.

(** X20: a payment that is verified shows in the billing history.  When
    [activate_subscription] is given a payment id for a subscription that is
    the one row carrying the Razorpay id, whose plan is found and gives a
    period that can be computed, and the user id, the payment id and the
    generated invoice id fit their columns, it returns success, and the
    billing history of the user it was called for, in the app of the
    subscription, has the invoice of that payment: the plan's amount, in INR,
    paid. *)
Theorem manual_activation_is_billed :
  forall w user_id subscription_id payment_id now period_end new_invoice_id
         subscription plan app_id,
    PaymentService.carrying w (Some subscription_id) = [subscription] ->
    PaymentService.find_plan w (Subscription.plan_id subscription) = Some plan ->
    Subscription.app_id subscription = Some app_id ->
    payment_id <> "" ->
    helpers.calculate_period_end now (Plan.interval plan) (Plan.interval_count plan)
    = Ok period_end ->
    fits_varchar 255 user_id = true ->
    fits_varchar 255 payment_id = true ->
    fits_varchar 64 new_invoice_id = true ->
    exists w',
      PaymentService.activate_subscription w user_id subscription_id (Some payment_id)
        now new_invoice_id
      = Returns w' (PaymentService.status_result "success" "Subscription activated")
      /\ In (Invoice.mk new_invoice_id (Subscription.id subscription) user_id
               (Some "manual_activation") (Plan.amount plan) (Some "INR") "paid"
               (Some payment_id) (Some app_id))
            (PaymentService.get_billing_history w' user_id app_id).
Proof.
  intros w user_id subscription_id payment_id now period_end new_invoice_id
         subscription plan app_id Hone Hplan Happ Hpayment Hend _ _ _.
  unfold PaymentService.activate_subscription.
  rewrite Hone, fetchone_single, Hplan, Hend, Happ.
  cbn [text_truthy]. destruct (String.eqb_spec payment_id ""); [contradiction |].
  cbn. eexists. split; [reflexivity |].
  destruct (carrying_single _ _ _ Hone) as [Hin [Hcarries _]].
  eapply invoice_is_listed with
    (s := PaymentService.set_period now period_end
            (PaymentService.set_status "active" subscription)).
  - cbn. apply in_or_app. right. left. reflexivity.
  - reflexivity.
  - cbn. apply in_map_iff. exists subscription. split; [| exact Hin].
    rewrite Hcarries. reflexivity.
  - reflexivity.
  - exact Happ.
Qed.

Lemma manual_activation_is_billed_witness :
  exists w',
    PaymentService.activate_subscription Sample.subscribed_world "u1" "sub_R1"
      (Some "pay_1") 5000 "inv_1"
    = Returns w' (PaymentService.status_result "success" "Subscription activated")
    /\ In (Invoice.mk "inv_1" (Subscription.id Sample.paid_subscription) "u1"
             (Some "manual_activation") (Plan.amount Sample.pro_plan) (Some "INR") "paid"
             (Some "pay_1") (Some "marketfit"))
          (PaymentService.get_billing_history w' "u1" "marketfit").
Proof.
  apply (manual_activation_is_billed Sample.subscribed_world "u1" "sub_R1" "pay_1" 5000
           (5000 + timedelta_days 30) "inv_1" Sample.paid_subscription Sample.pro_plan
           "marketfit");
    try reflexivity; discriminate.
Defined.

(* ================================================================== *)
(** ** Further properties: events that do not activate *)


Lemma deactivation_count : forall (sel : Subscription.t -> bool) f w user_id app_id,
  (forall s, sel s = true -> PaymentService.active_for user_id app_id (f s) = false) ->
  (active_count (PaymentService.update_where sel f w) user_id app_id
   <= active_count w user_id app_id)%nat.
Proof.
  intros sel f w user_id app_id Hf. unfold active_count, PaymentService.update_where.
  cbn [user_subscriptions set_subscriptions]. rewrite filter_map_length.
  induction (user_subscriptions w) as [| s l IH]; simpl; [lia |].
  destruct (sel s) eqn:Sel.
  - rewrite (Hf s Sel). destruct (PaymentService.active_for user_id app_id s); simpl; lia.
  - destruct (PaymentService.active_for user_id app_id s); simpl; lia.
Qed.

Lemma deactivation_keeps_one_active : forall (sel : Subscription.t -> bool) f w,
  (forall user_id app_id s,
     sel s = true -> PaymentService.active_for user_id app_id (f s) = false) ->
  at_most_one_active w ->
  at_most_one_active (PaymentService.update_where sel f w).
Proof.
  intros sel f w Hf Hinv user_id app_id.
  eapply Nat.le_trans; [apply deactivation_count; apply Hf | apply Hinv].
Qed.

Lemma not_active_status : forall user_id app_id patch status s,
  String.eqb status "active" = false ->
  PaymentService.active_for user_id app_id
    (PaymentService.patch_metadata patch (PaymentService.set_status status s)) = false.
Proof.
  intros user_id app_id patch status s H. unfold PaymentService.active_for. cbn.
  rewrite H. apply andb_false_r.
Qed.

Section Deactivation.

Variable isoformat : datetime -> string.
Variable fromtimestamp : Z -> res datetime.
Variable int_of_str : string -> option Z.

Lemma authenticated_keeps_one_active : forall w payload w' r,
  at_most_one_active w ->
  PaymentService._handle_razorpay_subscription_authenticated w payload = Returns w' r ->
  at_most_one_active w'.
Proof.
  intros w payload w' r Hinv.
  unfold PaymentService._handle_razorpay_subscription_authenticated,
    PaymentService.try_res.
  destruct (PaymentService.subscription_entity payload) as [[data rid] | e]; simpl;
    [| intro H; inversion H; subst; exact Hinv].
  destruct (negb (py_truthy rid)); simpl; [intro H; inversion H; subst; exact Hinv |].
  destruct (sql_text rid) as [id |]; simpl; [| discriminate].
  unfold fetchone.
  destruct (PaymentService.carrying w id) as [| found [| second more]]; simpl;
    intro H; inversion H; subst; try exact Hinv.
  apply deactivation_keeps_one_active; [| exact Hinv].
  intros. apply not_active_status. reflexivity.
Qed.

Lemma mark_handler_keeps_one_active : forall status message w payload w' r,
  String.eqb status "active" = false ->
  at_most_one_active w ->
  PaymentService.mark_handler status message w payload = Returns w' r ->
  at_most_one_active w'.
Proof.
  intros status message w payload w' r Hstatus Hinv.
  unfold PaymentService.mark_handler, PaymentService.try_res.
  destruct (PaymentService.subscription_entity payload) as [[data rid] | e];
    [| discriminate].
  destruct (negb (py_truthy rid)); [intro H; inversion H; subst; exact Hinv |].
  destruct (sql_text rid) as [id |]; simpl; [| discriminate].
  unfold fetchone.
  destruct (PaymentService.carrying w id) as [| found [| second more]]; simpl;
    intro H; inversion H; subst; try exact Hinv.
  apply deactivation_keeps_one_active; [| exact Hinv].
  intros. apply not_active_status. exact Hstatus.
Qed.

(** X21: only an activation or a charge can give a pair a second active
    subscription.  When every (user, app) pair has at most one active
    subscription, the same holds after [handle_webhook] has processed any
    event other than [subscription.activated] and [subscription.charged]. *)
Theorem other_events_keep_one_active :
  forall w payload provider now new_invoice_id w' r,
    at_most_one_active w ->
    PaymentService.handle_webhook isoformat fromtimestamp int_of_str
      w payload provider now new_invoice_id = Returns w' r ->
    (forall event_type, py_get payload "event" JNull = Ok (JStr event_type) ->
                        event_type <> "subscription.activated"
                        /\ event_type <> "subscription.charged") ->
    at_most_one_active w'.
Proof.
  intros w payload provider now new_invoice_id w' r Hinv H Hevent.
  unfold PaymentService.handle_webhook, PaymentService.try_res in H.
  destruct (py_get payload "event" JNull) as [event | e] eqn:Ev.
  2: { simpl in H. inversion H; subst. exact Hinv. }
  destruct (negb (py_truthy event)).
  { simpl in H. inversion H; subst. exact Hinv. }
  destruct event as [| | | event_type | |]; try discriminate.
  destruct (Hevent event_type eq_refl) as [NotActivated NotCharged].
  destruct (PaymentService.webhook_ids provider payload) as [[entity_id user_id] | e].
  2: { simpl in H. inversion H; subst. exact Hinv. }
  destruct (DatabaseManager.log_event w event_type entity_id user_id payload provider false)
    as [w1 |] eqn:L1; [| discriminate].
  assert (Inv1 : at_most_one_active w1).
  { eapply same_subscriptions_same_invariant; [| exact Hinv].
    eapply log_event_keeps_subscriptions; exact L1. }
  destruct (PaymentService.route_event isoformat fromtimestamp int_of_str
              w1 provider event_type payload now new_invoice_id)
    as [w2 result | w2 e |] eqn:R; try discriminate.
  2: { apply route_event_raises in R. destruct R as [_ [_ [_ ->]]].
       simpl in H. inversion H; subst. exact Inv1. }
  assert (Inv2 : at_most_one_active w2).
  { unfold PaymentService.route_event in R.
    destruct (String.eqb provider "razorpay").
    - destruct (String.eqb event_type "subscription.authenticated");
        [eapply authenticated_keeps_one_active; eassumption |].
      destruct (String.eqb_spec event_type "subscription.activated"); [contradiction |].
      destruct (String.eqb_spec event_type "subscription.charged"); [contradiction |].
      destruct (String.eqb event_type "subscription.completed");
        [eapply mark_handler_keeps_one_active; [| exact Inv1 | exact R]; reflexivity |].
      destruct (String.eqb event_type "subscription.cancelled");
        [eapply mark_handler_keeps_one_active; [| exact Inv1 | exact R]; reflexivity |].
      inversion R; subst. exact Inv1.
    - destruct (String.eqb provider "paypal"); inversion R; subst; exact Inv1. }
  destruct (DatabaseManager.log_event w2 _ entity_id user_id result provider true)
    as [w3 |] eqn:L2; [| discriminate].
  simpl in H. inversion H; subst.
  eapply same_subscriptions_same_invariant; [| exact Inv2].
  eapply log_event_keeps_subscriptions; exact L2.
Qed.

End Deactivation.

Lemma other_events_keep_one_active_witness :
  exists w' r,
    PaymentService.handle_webhook Sample.isoformat Sample.fromtimestamp Sample.int_of_str
      Sample.subscribed_world (Sample.subscription_event "subscription.cancelled" "sub_R1")
      "razorpay" 5000 "inv_1" = Returns w' r
    /\ at_most_one_active w'.
Proof.
  eexists. eexists. split; [vm_compute; reflexivity |].
  eapply (other_events_keep_one_active Sample.isoformat Sample.fromtimestamp
            Sample.int_of_str Sample.subscribed_world
            (Sample.subscription_event "subscription.cancelled" "sub_R1")
            "razorpay" 5000 "inv_1").
  - intros u a. unfold active_count. simpl.
    destruct (PaymentService.active_for u a Sample.paid_subscription); simpl; lia.
  - vm_compute. reflexivity.
  - intros event_type E. vm_compute in E. inversion E. split; discriminate.
Defined.

(* ================================================================== *)
(** ** Further properties: the sync script *)

Lemma sync_one_counts : forall razorpay dry_run p s,
  (scripts.synced_count (scripts.sync_one razorpay dry_run p s)
   + scripts.failed_count (scripts.sync_one razorpay dry_run p s)
   = scripts.synced_count p + scripts.failed_count p
     + (if has_provider_id s then 1 else 0))%nat.
Proof.
  intros razorpay dry_run p s. unfold scripts.sync_one, has_provider_id.
  destruct (Subscription.razorpay_subscription_id s) as [rid |]; simpl.
  - destruct (negb (String.eqb rid "")); simpl.
    + destruct (RazorpayProvider.fetch_subscription razorpay rid) as [result sent].
      destruct (py_get result "error" JNull) as [err | e]; simpl; [| lia].
      destruct (py_truthy err); simpl; [lia |].
      destruct dry_run; simpl; lia.
    + destruct (text_truthy (Subscription.paypal_subscription_id s)); simpl; lia.
  - destruct (text_truthy (Subscription.paypal_subscription_id s)); simpl; lia.
Qed.

Lemma sync_one_dry_run : forall razorpay p s,
  scripts.sync_one razorpay true p s = scripts.sync_one razorpay false p s.
Proof.
  intros razorpay p s. unfold scripts.sync_one.
  destruct (text_truthy (Subscription.razorpay_subscription_id s)); [| reflexivity].
  destruct (Subscription.razorpay_subscription_id s) as [rid |]; [| reflexivity].
  destruct (RazorpayProvider.fetch_subscription razorpay rid) as [result sent].
  destruct (py_get result "error" JNull) as [err | e]; [| reflexivity].
  destruct (py_truthy err); reflexivity.
Qed.

Lemma sync_one_requests : forall razorpay dry_run p s,
  RazorpayProvider.usable razorpay = None ->
  scripts.requests (scripts.sync_one razorpay dry_run p s) = scripts.requests p
  /\ scripts.synced_count (scripts.sync_one razorpay dry_run p s)
     = (scripts.synced_count p
        + (if negb (text_truthy (Subscription.razorpay_subscription_id s))
              && text_truthy (Subscription.paypal_subscription_id s)
           then 1 else 0))%nat.
Proof.
  intros razorpay dry_run p s U. unfold scripts.sync_one.
  destruct (Subscription.razorpay_subscription_id s) as [rid |]; simpl.
  - destruct (negb (String.eqb rid "")); simpl.
    + unfold RazorpayProvider.fetch_subscription. rewrite U. simpl.
      rewrite app_nil_r. split; [reflexivity | lia].
    + destruct (text_truthy (Subscription.paypal_subscription_id s)); simpl;
        split; try reflexivity; lia.
  - destruct (text_truthy (Subscription.paypal_subscription_id s)); simpl;
      split; try reflexivity; lia.
Qed.

(** X22: the sync script counts every subscription once and writes nothing.
    Of the subscriptions it selects, each one that carries a provider id is
    counted exactly once, as synced or as failed; and [--dry-run] makes no
    difference to what it does. *)
Theorem sync_counts_each_subscription :
  forall razorpay w app_id dry_run,
    (scripts.synced_count (scripts.sync_subscriptions razorpay w app_id dry_run)
     + scripts.failed_count (scripts.sync_subscriptions razorpay w app_id dry_run)
     = List.length (filter has_provider_id
                      (filter (scripts.to_sync app_id) (user_subscriptions w))))%nat
    /\ scripts.sync_subscriptions razorpay w app_id true
       = scripts.sync_subscriptions razorpay w app_id false.
Proof.
  intros razorpay w app_id dry_run. unfold scripts.sync_subscriptions.
  generalize (filter (scripts.to_sync app_id) (user_subscriptions w)). intro l.
  split.
  - assert (G : forall p,
               (scripts.synced_count (fold_left (scripts.sync_one razorpay dry_run) l p)
                + scripts.failed_count (fold_left (scripts.sync_one razorpay dry_run) l p)
                = scripts.synced_count p + scripts.failed_count p
                  + List.length (filter has_provider_id l))%nat).
    { induction l as [| s l IH]; intro p; simpl; [lia |].
      rewrite IH, sync_one_counts. destruct (has_provider_id s); simpl; lia. }
    rewrite G. reflexivity.
  - generalize (scripts.mk_progress 0 0 []).
    induction l as [| s l IH]; intro p; simpl; [reflexivity |].
    rewrite sync_one_dry_run. apply IH.
Qed.

(** X23: without Razorpay credentials the sync script reaches nobody.  When
    the Razorpay client is not initialised, the script sends no request, and
    the subscriptions it reports as synced are exactly the selected ones that
    carry a PayPal id and no Razorpay id. *)
Theorem sync_without_credentials :
  forall razorpay w app_id dry_run,
    RazorpayProvider.usable razorpay = None ->
    scripts.requests (scripts.sync_subscriptions razorpay w app_id dry_run) = []
    /\ scripts.synced_count (scripts.sync_subscriptions razorpay w app_id dry_run)
       = List.length
           (filter (fun s => negb (text_truthy (Subscription.razorpay_subscription_id s))
                             && text_truthy (Subscription.paypal_subscription_id s))
                   (filter (scripts.to_sync app_id) (user_subscriptions w))).
Proof.
  intros razorpay w app_id dry_run U. unfold scripts.sync_subscriptions.
  generalize (filter (scripts.to_sync app_id) (user_subscriptions w)). intro l.
  assert (G : forall p,
             scripts.requests (fold_left (scripts.sync_one razorpay dry_run) l p)
             = scripts.requests p
             /\ scripts.synced_count (fold_left (scripts.sync_one razorpay dry_run) l p)
                = (scripts.synced_count p
                   + List.length
                       (filter (fun s =>
                                  negb (text_truthy (Subscription.razorpay_subscription_id s))
                                  && text_truthy (Subscription.paypal_subscription_id s))
                               l))%nat).
  { induction l as [| s l IH]; intro p; simpl; [split; [reflexivity | lia] |].
    destruct (IH (scripts.sync_one razorpay dry_run p s)) as [R C].
    destruct (sync_one_requests razorpay dry_run p s U) as [R1 C1].
    rewrite R, C, R1, C1. split; [reflexivity |].
    destruct (negb (text_truthy (Subscription.razorpay_subscription_id s))
              && text_truthy (Subscription.paypal_subscription_id s)); simpl; lia. }
  destruct (G (scripts.mk_progress 0 0 [])) as [R C]. rewrite R, C. split; reflexivity.
Qed.

Lemma sync_without_credentials_witness :
  scripts.requests
    (scripts.sync_subscriptions Sample.no_credentials Sample.two_subscriptions_world
       None false) = []
  /\ scripts.synced_count
       (scripts.sync_subscriptions Sample.no_credentials Sample.two_subscriptions_world
          None false)
     = List.length
         (filter (fun s => negb (text_truthy (Subscription.razorpay_subscription_id s))
                           && text_truthy (Subscription.paypal_subscription_id s))
                 (filter (scripts.to_sync None)
                         (user_subscriptions Sample.two_subscriptions_world))).
Proof.
  apply (sync_without_credentials Sample.no_credentials Sample.two_subscriptions_world
           None false).
  reflexivity.
Defined.

(* ================================================================== *)
(** ** Further properties: the cancel, create and usage routes *)

Section MoreRoutes.

Variable date_add_month : datetime -> Z -> option datetime.
Variable isoformat : datetime -> string.

(** X24: [/cancel] touches a subscription only for its owner.  Whatever the
    route answers, either the tables are left as they were, or the answer is
    200 and the body named the user who owns the subscription of the path. *)
Theorem cancel_route_needs_owner :
  forall self w subscription_id body now w' answer code,
    routes.cancel_subscription isoformat self w subscription_id body now
    = Returns w' (answer, code) ->
    w' = w
    \/ (code = 200
        /\ exists data user_id s,
             body = Ok data
             /\ py_get data "user_id" JNull = Ok (JStr user_id)
             /\ In s (user_subscriptions w)
             /\ Subscription.id s = subscription_id
             /\ Subscription.user_id s = user_id).
Proof.
  intros self w subscription_id body now w' answer code H.
  unfold routes.cancel_subscription in H.
  destruct body as [data | e]; [| simpl in H; inversion H; auto].
  cbn [bind] in H.
  destruct (py_get data "user_id" JNull) as [user_id | e] eqn:U; [| inversion H; auto].
  destruct (negb (py_truthy user_id)); [inversion H; auto |].
  destruct user_id as [| | | user_id | |]; try discriminate.
  unfold PaymentService.cancel_subscription in H.
  destruct (find _ (user_subscriptions w)) as [s |] eqn:F; [| inversion H; auto].
  inversion H; subst. right. split; [reflexivity |].
  apply find_some in F. destruct F as [Hin Hsel].
  apply andb_prop in Hsel. destruct Hsel as [Hid Huser].
  apply String.eqb_eq in Hid. apply String.eqb_eq in Huser.
  exists data, user_id, s. auto.
Qed.

(** X25: [/create] and [/increment-usage] always answer.  They let no
    exception escape, the status code is 200, 400 or 500, and a request they
    refuse with 400 has changed nothing. *)
Theorem create_and_usage_routes_answer :
  forall self w body now new_id,
    match routes.create_subscription date_add_month self w body now new_id with
    | Returns w' (_, code) =>
        (code = 200 \/ code = 400 \/ code = 500) /\ (code = 400 -> w' = w)
    | Raises _ _ => False
    | Outside => True
    end
    /\ match routes.increment_usage w body now with
       | Returns w' (_, code) =>
           (code = 200 \/ code = 400 \/ code = 500) /\ (code = 400 -> w' = w)
       | Raises _ _ => False
       | Outside => True
       end.
Proof.
  intros self w body now new_id. split.
  - unfold routes.create_subscription.
    match goal with
    | |- context [match ?b with Ok _ => _ | Raise _ => _ end] =>
        destruct b as [[[user_id plan_id] app_id] | e]
    end; [| simpl; auto].
    destruct (negb (py_truthy user_id) || negb (py_truthy plan_id)); [simpl; auto |].
    destruct user_id; try exact I. destruct plan_id; try exact I.
    destruct app_id; try exact I.
    destruct (PaymentService.create_subscription _ _ _ _ _ _ _ _); simpl;
      auto; split; auto; discriminate.
  - unfold routes.increment_usage.
    match goal with
    | |- context [match ?b with Ok _ => _ | Raise _ => _ end] =>
        destruct b as [[[[user_id app_id] resource_type] count] | e]
    end; [| simpl; auto].
    destruct (negb (py_truthy user_id && py_truthy resource_type)); [simpl; auto |].
    destruct user_id; try exact I. destruct app_id; try exact I.
    destruct resource_type; try exact I. destruct count; try exact I.
    destruct (PaymentService.increment_resource_usage _ _ _ _ _ _) as [[w' r] |];
      simpl; auto; split; auto; discriminate.
Qed.

End MoreRoutes.

Lemma cancel_route_needs_owner_witness :
  exists w',
    routes.cancel_subscription Sample.isoformat Sample.answering_service
      Sample.subscribed_world "sub_1" (Ok (JObj [("user_id", JStr "u1")])) 5000
    = Returns w'
        (JObj [("result",
                JObj [("id", JStr "sub_1"); ("status", JStr "active");
                      ("cancellation_scheduled", JBool true);
                      ("end_date", JStr (Sample.isoformat (timedelta_days 30)));
                      ("message",
                       JStr "Subscription will remain active until the end of the current billing period")])],
         200)
    /\ (w' = Sample.subscribed_world
        \/ (200 = 200
            /\ exists data user_id s,
                 Ok (JObj [("user_id", JStr "u1")]) = Ok data
                 /\ py_get data "user_id" JNull = Ok (JStr user_id)
                 /\ In s (user_subscriptions Sample.subscribed_world)
                 /\ Subscription.id s = "sub_1"
                 /\ Subscription.user_id s = user_id)).
Proof.
  eexists. split; [vm_compute; reflexivity |].
  eapply (cancel_route_needs_owner Sample.isoformat Sample.answering_service
            Sample.subscribed_world "sub_1" (Ok (JObj [("user_id", JStr "u1")])) 5000).
  vm_compute. reflexivity.
Defined.

